(** * mydocs-mcp: a shallow embedding of the store, the search index, the
    tool layer and the file watcher, with the properties the specification
    states about them.

    Conventions of the embedding.
    - Python [str] values are Rocq strings; document text is modelled over
      the Latin-1 repertoire (one Rocq character = one code point below 256),
      with the ASCII classes of [re] and [str.split].
    - Python [float] values are exact rationals ([Q]); every concrete value
      evaluated below is exactly representable in binary floating point.
    - [datetime] values are integers (ticks of a common clock); every
      [datetime.now()] is an explicit argument.
    - A Python [dict] is an insertion-ordered association list.
    - Code that can raise returns a [res]; code that mutates the database
      threads the database value through the small monad [M]. *)

From Stdlib Require Import ZArith QArith Qminmax Lia Lqa Ascii String.
From Stdlib Require Import DecimalString.
From stdpp Require Import base option list strings gmap.

Set Warnings "-register-all".

Local Open Scope string_scope.
Local Open Scope list_scope.
Local Open Scope Z_scope.

(** ** Python-level helpers *)

Module Py.

(** Exceptions that the modelled code can raise. *)
Inductive exn : Type :=
| IntegrityError (constraint : string)
| AttributeError (attr : string)
| TypeError (msg : string)
| ToolValidationError (msg : string)
| OtherError (msg : string).

Inductive res (A : Type) : Type :=
| Ok (a : A)
| Raise (e : exn).
Arguments Ok {A} a.
Arguments Raise {A} e.

(** State-and-exception monad: a raised exception keeps the state reached
    so far, as in Python. *)
Definition M (St A : Type) : Type := St -> res A * St.

Definition ret {St A} (a : A) : M St A := fun s => (Ok a, s).
Definition raise {St A} (e : exn) : M St A := fun s => (Raise e, s).
Definition bind {St A B} (m : M St A) (k : A -> M St B) : M St B :=
  fun s => match m s with
           | (Ok a, s') => k a s'
           | (Raise e, s') => (Raise e, s')
           end.
(** [try: m except Exception as e: h e] *)
Definition try_except {St A} (m : M St A) (h : exn -> M St A) : M St A :=
  fun s => match m s with
           | (Ok a, s') => (Ok a, s')
           | (Raise e, s') => h e s'
           end.
Definition get {St} : M St St := fun s => (Ok s, s).
Definition put {St} (s : St) : M St unit := fun _ => (Ok tt, s).

(** Insertion-ordered dictionaries. *)
Definition dict (V : Type) : Type := list (string * V).

Fixpoint dict_get {V} (d : dict V) (k : string) : option V :=
  match d with
  | [] => None
  | (k', v) :: d' => if String.eqb k' k then Some v else dict_get d' k
  end.

Definition dict_has {V} (d : dict V) (k : string) : bool :=
  match dict_get d k with Some _ => true | None => false end.

(** [d[k] = v]: overwrite in place when the key exists, append otherwise. *)
Fixpoint dict_set {V} (d : dict V) (k : string) (v : V) : dict V :=
  match d with
  | [] => [(k, v)]
  | (k', v') :: d' =>
      if String.eqb k' k then (k', v) :: d' else (k', v') :: dict_set d' k v
  end.

(** [d.pop(k, None)] as far as the dictionary is concerned. *)
Fixpoint dict_del {V} (d : dict V) (k : string) : dict V :=
  match d with
  | [] => []
  | (k', v') :: d' =>
      if String.eqb k' k then d' else (k', v') :: dict_del d' k
  end.

(** Characters. *)
Definition code (c : ascii) : Z := Z.of_N (Ascii.N_of_ascii c).
Definition chr (n : Z) : ascii := Ascii.ascii_of_N (Z.to_N n).

Definition in_range (lo hi : Z) (c : ascii) : bool :=
  (lo <=? code c) && (code c <=? hi).

Definition is_upper (c : ascii) : bool := in_range 65 90 c.
Definition is_lower (c : ascii) : bool := in_range 97 122 c.
(** The class [[a-zA-Z]]. *)
Definition is_letter (c : ascii) : bool := is_upper c || is_lower c.
Definition is_digit (c : ascii) : bool := in_range 48 57 c.
(** Code points of Latin-1 above ASCII that are alphanumeric for Python
    ([str.isalnum]): the ordinal indicators, the superscript digits, the
    micro sign, the vulgar fractions and the accented letters. *)
Definition is_latin1_alnum (c : ascii) : bool :=
  (code c =? 170) || (code c =? 178) || (code c =? 179) || (code c =? 181)
  || (code c =? 185) || (code c =? 186) || in_range 188 190 c
  || in_range 192 214 c || in_range 216 246 c || in_range 248 255 c.
(** [\w] of [re] on a [str] pattern. *)
Definition is_word (c : ascii) : bool :=
  is_letter c || is_digit c || (code c =? 95) || is_latin1_alnum c.
(** The characters on which [str.split()] and [str.strip()] cut: TAB, LF,
    VT, FF, CR, FS, GS, RS, US, SPACE, NEL and NBSP. *)
Definition is_space (c : ascii) : bool :=
  in_range 9 13 c || in_range 28 31 c || (code c =? 32)
  || (code c =? 133) || (code c =? 160).

(** [str.lower] on one code point: A-Z, and the Latin-1 capitals
    U+00C0..U+00DE except the multiplication sign U+00D7. *)
Definition lower_char (c : ascii) : ascii :=
  if is_upper c || (in_range 192 222 c && negb (code c =? 215))
  then chr (code c + 32) else c.

Fixpoint lower (s : string) : string :=
  match s with
  | EmptyString => EmptyString
  | String c s' => String (lower_char c) (lower s')
  end.

Definition len (s : string) : Z := Z.of_nat (String.length s).

(** Maximal runs of characters satisfying [p], left to right. *)
Fixpoint runs_aux (p : ascii -> bool) (s : string) (cur : string)
  : list string :=
  match s with
  | EmptyString =>
      match cur with EmptyString => [] | _ => [String.rev cur] end
  | String c s' =>
      if p c then runs_aux p s' (String c cur)
      else match cur with
           | EmptyString => runs_aux p s' EmptyString
           | _ => String.rev cur :: runs_aux p s' EmptyString
           end
  end.
Definition runs (p : ascii -> bool) (s : string) : list string :=
  runs_aux p s EmptyString.

(** [s.split()] *)
Definition split_ws (s : string) : list string :=
  runs (fun c => negb (is_space c)) s.

Fixpoint str_forallb (p : ascii -> bool) (s : string) : bool :=
  match s with
  | EmptyString => true
  | String c s' => p c && str_forallb p s'
  end.

(** [re.findall(r'\b[a-zA-Z]{3,}\b', s)]: a match starts and ends on a
    word boundary, so it is a whole maximal run of [\w] characters, all of
    them letters, at least three. *)
Definition findall_words3 (s : string) : list string :=
  List.filter (fun w => str_forallb is_letter w && (3 <=? len w))
              (runs is_word s).

(** [s[:n]] for [n >= 0]. *)
Fixpoint str_take (n : nat) (s : string) : string :=
  match n, s with
  | O, _ => EmptyString
  | S n', EmptyString => EmptyString
  | S n', String c s' => String c (str_take n' s')
  end.

End Py.
Import Py.

Notation "'let*' x ':=' m 'in' k" := (bind m (fun x => k))
  (at level 10, x name, m at level 100, k at level 200).

(** ** [hashlib.sha256] and [str.encode('utf-8')]

    SHA-256 as in FIPS 180-4, on 32-bit words held in [Z]. *)

Module Sha256.

Definition w32 (x : Z) : Z := x mod 2 ^ 32.
Definition add32 (x y : Z) : Z := w32 (x + y).
Definition rotr (n x : Z) : Z :=
  w32 (Z.lor (Z.shiftr x n) (Z.shiftl x (32 - n))).
Definition shr (n x : Z) : Z := Z.shiftr x n.
Definition not32 (x : Z) : Z := 2 ^ 32 - 1 - x.

Definition Ch (x y z : Z) : Z := Z.lxor (Z.land x y) (Z.land (not32 x) z).
Definition Maj (x y z : Z) : Z :=
  Z.lxor (Z.lxor (Z.land x y) (Z.land x z)) (Z.land y z).
Definition Sigma0 (x : Z) : Z :=
  Z.lxor (Z.lxor (rotr 2 x) (rotr 13 x)) (rotr 22 x).
Definition Sigma1 (x : Z) : Z :=
  Z.lxor (Z.lxor (rotr 6 x) (rotr 11 x)) (rotr 25 x).
Definition sigma0 (x : Z) : Z :=
  Z.lxor (Z.lxor (rotr 7 x) (rotr 18 x)) (shr 3 x).
Definition sigma1 (x : Z) : Z :=
  Z.lxor (Z.lxor (rotr 17 x) (rotr 19 x)) (shr 10 x).

Definition K : list Z :=
  [1116352408; 1899447441; 3049323471; 3921009573;
   961987163; 1508970993; 2453635748; 2870763221;
   3624381080; 310598401; 607225278; 1426881987;
   1925078388; 2162078206; 2614888103; 3248222580;
   3835390401; 4022224774; 264347078; 604807628;
   770255983; 1249150122; 1555081692; 1996064986;
   2554220882; 2821834349; 2952996808; 3210313671;
   3336571891; 3584528711; 113926993; 338241895;
   666307205; 773529912; 1294757372; 1396182291;
   1695183700; 1986661051; 2177026350; 2456956037;
   2730485921; 2820302411; 3259730800; 3345764771;
   3516065817; 3600352804; 4094571909; 275423344;
   430227734; 506948616; 659060556; 883997877;
   958139571; 1322822218; 1537002063; 1747873779;
   1955562222; 2024104815; 2227730452; 2361852424;
   2428436474; 2756734187; 3204031479; 3329325298].

Record state : Type := mkState {
  ha : Z; hb : Z; hc : Z; hd : Z; he : Z; hf : Z; hg : Z; hh : Z }.

Definition H0 : state :=
  mkState 1779033703 3144134277 1013904242 2773480762
          1359893119 2600822924 528734635 1541459225.

(** Padding: the bit 1, zero bytes up to 56 modulo 64, then the bit length
    as a 64-bit big-endian integer. *)
Definition be_bytes (n : nat) (x : Z) : list Z :=
  map (fun i => Z.land (Z.shiftr x (8 * Z.of_nat i)) 255) (rev (seq 0 n)).

Definition pad (msg : list Z) : list Z :=
  let l := Z.of_nat (length msg) in
  let zeros := Z.to_nat ((55 - l) mod 64) in
  msg ++ [128] ++ repeat 0 zeros ++ be_bytes 8 (8 * l).

Definition word_of_bytes (b : list Z) : Z :=
  fold_left (fun acc x => acc * 256 + x) b 0.

Fixpoint words_of (fuel : nat) (b : list Z) : list Z :=
  match fuel, b with
  | S fuel', _ :: _ => word_of_bytes (take 4 b) :: words_of fuel' (drop 4 b)
  | _, _ => []
  end.

Fixpoint chunks (fuel : nat) (ws : list Z) : list (list Z) :=
  match fuel, ws with
  | S fuel', _ :: _ => take 16 ws :: chunks fuel' (drop 16 ws)
  | _, _ => []
  end.

(** Message schedule: [w] holds W(t-16) .. W(t-1), oldest first. *)
Fixpoint schedule (n : nat) (w : list Z) : list Z :=
  match n with
  | O => []
  | S n' =>
      let wt := add32 (add32 (sigma1 (nth 14 w 0)) (nth 9 w 0))
                      (add32 (sigma0 (nth 1 w 0)) (nth 0 w 0)) in
      wt :: schedule n' (drop 1 w ++ [wt])
  end.

Definition round (s : state) (kw : Z * Z) : state :=
  let '(k, w) := kw in
  let t1 := add32 (add32 (add32 (hh s) (Sigma1 (he s)))
                         (add32 (Ch (he s) (hf s) (hg s)) k)) w in
  let t2 := add32 (Sigma0 (ha s)) (Maj (ha s) (hb s) (hc s)) in
  mkState (add32 t1 t2) (ha s) (hb s) (hc s)
          (add32 (hd s) t1) (he s) (hf s) (hg s).

Definition compress (h : state) (block : list Z) : state :=
  let w := block ++ schedule 48 block in
  let s := fold_left round (combine K w) h in
  mkState (add32 (ha h) (ha s)) (add32 (hb h) (hb s))
          (add32 (hc h) (hc s)) (add32 (hd h) (hd s))
          (add32 (he h) (he s)) (add32 (hf h) (hf s))
          (add32 (hg h) (hg s)) (add32 (hh h) (hh s)).

Definition digest (msg : list Z) : state :=
  let p := pad msg in
  fold_left compress (chunks (length p) (words_of (length p) p)) H0.

Definition hex_digit (x : Z) : ascii :=
  if x <? 10 then chr (48 + x) else chr (87 + x).

Definition nibble (i x : Z) : ascii :=
  hex_digit (Z.land (Z.shiftr x (4 * i)) 15).

Definition hex8 (x : Z) (rest : string) : string :=
  String (nibble 7 x) (String (nibble 6 x) (String (nibble 5 x)
  (String (nibble 4 x) (String (nibble 3 x) (String (nibble 2 x)
  (String (nibble 1 x) (String (nibble 0 x) rest))))))).

Definition hexdigest_of (s : state) : string :=
  hex8 (ha s) (hex8 (hb s) (hex8 (hc s) (hex8 (hd s)
  (hex8 (he s) (hex8 (hf s) (hex8 (hg s) (hex8 (hh s) EmptyString))))))).

(** [s.encode('utf-8')] on the Latin-1 repertoire: one byte below U+0080,
    two bytes from U+0080 to U+00FF. *)
Fixpoint encode_utf8 (s : string) : list Z :=
  match s with
  | EmptyString => []
  | String c s' =>
      let n := code c in
      if n <? 128 then n :: encode_utf8 s'
      else Z.lor 192 (Z.shiftr n 6) :: Z.lor 128 (Z.land n 63)
             :: encode_utf8 s'
  end.

(** [hashlib.sha256(s.encode('utf-8')).hexdigest()] *)
Definition sha256_hexdigest (s : string) : string :=
  hexdigest_of (digest (encode_utf8 s)).

End Sha256.

(** ** Python values (tool parameters, JSON documents) *)

Module Value.

Inductive t : Type :=
| VNone
| VBool (b : bool)
| VInt (z : Z)
| VFloat (q : Q)
| VStr (s : string)
| VList (l : list t)
| VDict (d : list (string * t)).

(** [bool(v)] *)
Definition truthy (v : t) : bool :=
  match v with
  | VNone => false
  | VBool b => b
  | VInt z => negb (z =? 0)
  | VFloat q => negb (Qeq_bool q 0)
  | VStr s => negb (String.eqb s "")
  | VList l => match l with [] => false | _ => true end
  | VDict d => match d with [] => false | _ => true end
  end.

(** [type(v).__name__] *)
Definition type_name (v : t) : string :=
  match v with
  | VNone => "NoneType"
  | VBool _ => "bool"
  | VInt _ => "int"
  | VFloat _ => "float"
  | VStr _ => "str"
  | VList _ => "list"
  | VDict _ => "dict"
  end.

End Value.
Import Value.

(** ** [pathlib.PurePosixPath] *)

Module Path.

Definition is_slash (c : ascii) : bool := code c =? 47.
Definition is_dot (c : ascii) : bool := code c =? 46.

(** The parts of a path: empty components and [.] components vanish. *)
Definition parts (p : string) : list string :=
  List.filter (fun c => negb (String.eqb c "."))
              (runs (fun c => negb (is_slash c)) p).

(** [Path(p).name] *)
Definition name (p : string) : string := List.last (parts p) "".

Fixpoint str_drop (n : nat) (s : string) : string :=
  match n, s with
  | O, _ => s
  | S n', EmptyString => EmptyString
  | S n', String _ s' => str_drop n' s'
  end.

(** [s.rfind('.')] *)
Fixpoint rfind_dot (s : string) (i : nat) (found : option nat) : option nat :=
  match s with
  | EmptyString => found
  | String c s' => rfind_dot s' (S i) (if is_dot c then Some i else found)
  end.

(** [Path(p).suffix]: the last dot of the name and what follows, unless the
    dot is the first or the last character of the name. *)
Definition suffix (p : string) : string :=
  let n := name p in
  match rfind_dot n 0%nat None with
  | Some i =>
      if (0 <? i)%nat && (i <? String.length n - 1)%nat
      then str_drop i n else ""
  | None => ""
  end.

(** [s.lstrip('.')] *)
Fixpoint lstrip_dot (s : string) : string :=
  match s with
  | String c s' => if is_dot c then lstrip_dot s' else s
  | EmptyString => EmptyString
  end.

End Path.

(** ** Data model ([src/database/models.py]) *)

Module Document.

Record t : Type := mk {
  id : option Z;
  file_path : string;
  file_name : string;
  content : string;
  file_type : string;
  file_size : Z;
  file_hash : string;
  created_at : option Z;
  modified_at : option Z;
  indexed_at : option Z;
  (** the JSON object in [metadata_json], as the dictionary it encodes *)
  metadata_json : dict string
}.

(** [Document.calculate_content_hash] *)
Definition calculate_content_hash (content : string) : string :=
  Sha256.sha256_hexdigest content.

(** [Document.__post_init__] *)
Definition post_init (d : t) : t :=
  let fname :=
    if String.eqb (file_name d) "" && negb (String.eqb (file_path d) "")
    then Path.name (file_path d) else file_name d in
  let ftype :=
    if String.eqb (file_type d) "" && negb (String.eqb (file_path d) "")
    then Path.lstrip_dot (lower (Path.suffix (file_path d)))
    else file_type d in
  let fhash :=
    if String.eqb (file_hash d) "" && negb (String.eqb (content d) "")
    then calculate_content_hash (content d) else file_hash d in
  mk (id d) (file_path d) fname (content d) ftype (file_size d) fhash
     (created_at d) (modified_at d) (indexed_at d) (metadata_json d).

Definition set_id (d : t) (i : option Z) : t :=
  mk i (file_path d) (file_name d) (content d) (file_type d) (file_size d)
     (file_hash d) (created_at d) (modified_at d) (indexed_at d)
     (metadata_json d).
Definition set_created_at (d : t) (c : option Z) : t :=
  mk (id d) (file_path d) (file_name d) (content d) (file_type d)
     (file_size d) (file_hash d) c (modified_at d) (indexed_at d)
     (metadata_json d).
Definition set_indexed_at (d : t) (c : option Z) : t :=
  mk (id d) (file_path d) (file_name d) (content d) (file_type d)
     (file_size d) (file_hash d) (created_at d) (modified_at d) c
     (metadata_json d).
Definition set_metadata (d : t) (m : dict string) : t :=
  mk (id d) (file_path d) (file_name d) (content d) (file_type d)
     (file_size d) (file_hash d) (created_at d) (modified_at d)
     (indexed_at d) m.

End Document.

Module DocumentMetadata.

Record t : Type := mk {
  id : option Z;
  document_id : Z;
  key : string;
  value : string;
  extracted_at : option Z
}.

End DocumentMetadata.

Module SearchIndex.

Record t : Type := mk {
  id : option Z;
  document_id : Z;
  keyword : string;
  frequency : Z;
  (** the JSON array in [position_data], as the list it encodes *)
  positions : list Z;
  relevance_score : Q
}.

Definition set_id (e : t) (i : option Z) : t :=
  mk i (document_id e) (keyword e) (frequency e) (positions e)
     (relevance_score e).

(** The value [SearchIndex.calculate_relevance_score] returns. *)
Definition relevance (frequency document_length : Z) : Q :=
  if document_length =? 0 then 0
  else
    let tf := (inject_Z frequency / inject_Z document_length)%Q in
    let frequency_boost := Qmin 1 (inject_Z frequency / 5) in
    (tf * (1 + frequency_boost))%Q.

(** [SearchIndex.calculate_relevance_score]: the entry after the call (the
    score is stored on the entry except for an empty document) and the
    returned score. *)
Definition calculate_relevance_score (e : t) (document_length : Z) : t * Q :=
  if document_length =? 0 then (e, 0%Q)
  else
    let r := relevance (frequency e) document_length in
    (mk (id e) (document_id e) (keyword e) (frequency e) (positions e) r, r).

End SearchIndex.

Module SearchCache.

Record t : Type := mk {
  id : option Z;
  query_hash : string;
  query_text : string;
  (** the JSON text in [results], as the value it encodes *)
  results : Value.t;
  created_at : option Z;
  expires_at : option Z;
  hit_count : Z
}.

Definition set_id (c : t) (i : option Z) : t :=
  mk i (query_hash c) (query_text c) (results c) (created_at c)
     (expires_at c) (hit_count c).
Definition set_hit_count (c : t) (h : Z) : t :=
  mk (id c) (query_hash c) (query_text c) (results c) (created_at c)
     (expires_at c) h.

End SearchCache.

(** ** The SQLite store ([DatabaseSchema], [DatabaseConnection])

    Tables are lists of rows in insertion order. The full-text mirror
    [documents_fts] and its triggers are left out: no modelled operation
    reads it. *)

Module Db.

Record t : Type := mk {
  documents : list Document.t;
  document_metadata : list DocumentMetadata.t;
  search_index : list SearchIndex.t;
  search_cache : list SearchCache.t;
  (** the AUTOINCREMENT counters of the four tables *)
  seq_documents : Z;
  seq_document_metadata : Z;
  seq_search_index : Z;
  seq_search_cache : Z
}.

Definition empty : t := mk [] [] [] [] 0 0 0 0.

Definition set_documents (s : t) (l : list Document.t) (q : Z) : t :=
  mk l (document_metadata s) (search_index s) (search_cache s)
     q (seq_document_metadata s) (seq_search_index s) (seq_search_cache s).
Definition set_document_metadata (s : t) (l : list DocumentMetadata.t)
  (q : Z) : t :=
  mk (documents s) l (search_index s) (search_cache s)
     (seq_documents s) q (seq_search_index s) (seq_search_cache s).
Definition set_search_index (s : t) (l : list SearchIndex.t) (q : Z) : t :=
  mk (documents s) (document_metadata s) l (search_cache s)
     (seq_documents s) (seq_document_metadata s) q (seq_search_cache s).
Definition set_search_cache (s : t) (l : list SearchCache.t) (q : Z) : t :=
  mk (documents s) (document_metadata s) (search_index s) l
     (seq_documents s) (seq_document_metadata s) (seq_search_index s) q.

Definition id_is (i : Z) (o : option Z) : bool :=
  match o with Some j => j =? i | None => false end.

Definition document_exists (s : t) (i : Z) : bool :=
  existsb (fun d => id_is i (Document.id d)) (documents s).

(** [DatabaseConnection.transaction]: commit on success, roll back and
    re-raise on an exception. *)
Definition transaction {A} (body : M t A) : M t A :=
  fun s => match body s with
           | (Ok a, s') => (Ok a, s')
           | (Raise e, _) => (Raise e, s)
           end.

(** *** Constraints of the schema *)

(** [documents]: [CHECK (file_size >= 0)], [CHECK (LENGTH(file_hash) = 64)]. *)
Definition check_document (d : Document.t) : bool :=
  (0 <=? Document.file_size d) && (len (Document.file_hash d) =? 64).

(** [documents.file_path] is [UNIQUE]: no row other than [self_id] has it. *)
Definition path_free (s : t) (self_id : option Z) (p : string) : bool :=
  forallb (fun d =>
             negb (String.eqb (Document.file_path d) p)
             || match self_id with
                | Some i => id_is i (Document.id d)
                | None => false
                end)
          (documents s).

(** [search_index]: [CHECK (frequency > 0)],
    [CHECK (relevance_score >= 0.0 AND relevance_score <= 1.0)]. *)
Definition check_search_index (e : SearchIndex.t) : bool :=
  (0 <? SearchIndex.frequency e)
  && Qle_bool 0 (SearchIndex.relevance_score e)
  && Qle_bool (SearchIndex.relevance_score e) 1.

(** [search_cache]: [CHECK (hit_count >= 0)],
    [CHECK (expires_at > created_at)], [expires_at NOT NULL]. *)
Definition check_search_cache (c : SearchCache.t) : bool :=
  (0 <=? SearchCache.hit_count c)
  && match SearchCache.expires_at c, SearchCache.created_at c with
     | Some e, Some cr => cr <? e
     | Some _, None => true
     | None, _ => false
     end.

(** *** Statements *)

(** [INSERT INTO documents (...) VALUES (...)]; returns [lastrowid]. *)
Definition insert_document (d : Document.t) : M t Z :=
  fun s =>
    if negb (path_free s None (Document.file_path d)) then
      (Raise (IntegrityError "UNIQUE constraint failed: documents.file_path"), s)
    else if negb (check_document d) then
      (Raise (IntegrityError "CHECK constraint failed: documents"), s)
    else
      let i := seq_documents s + 1 in
      (Ok i, set_documents s (documents s ++ [Document.set_id d (Some i)]) i).

(** [UPDATE documents SET ... WHERE id = ?]; returns [rowcount]. *)
Definition update_document_row (d : Document.t) : M t Z :=
  fun s =>
    match Document.id d with
    | None => (Ok 0, s)
    | Some i =>
        if negb (document_exists s i) then (Ok 0, s)
        else if negb (path_free s (Some i) (Document.file_path d)) then
          (Raise (IntegrityError
                    "UNIQUE constraint failed: documents.file_path"), s)
        else if negb (check_document d) then
          (Raise (IntegrityError "CHECK constraint failed: documents"), s)
        else
          (Ok 1,
           set_documents s
             (map (fun r => if id_is i (Document.id r) then d else r)
                  (documents s))
             (seq_documents s))
    end.

(** [DELETE FROM documents WHERE id = ?] with [foreign_keys = ON]: the
    rows of [document_metadata] and [search_index] that reference the
    document go with it ([ON DELETE CASCADE]); returns [rowcount]. *)
Definition delete_document_row (i : Z) : M t Z :=
  fun s =>
    if negb (document_exists s i) then (Ok 0, s)
    else
      (Ok 1,
       mk (List.filter (fun d => negb (id_is i (Document.id d)))
                       (documents s))
          (List.filter (fun m => negb (DocumentMetadata.document_id m =? i))
                       (document_metadata s))
          (List.filter (fun e => negb (SearchIndex.document_id e =? i))
                       (search_index s))
          (search_cache s)
          (seq_documents s) (seq_document_metadata s)
          (seq_search_index s) (seq_search_cache s)).

(** [INSERT OR REPLACE INTO search_index (...)]: a row with the same
    [(document_id, keyword)] is replaced; a failed [CHECK] or foreign key
    aborts the statement. *)
Definition insert_or_replace_search_index (e : SearchIndex.t) : M t Z :=
  fun s =>
    if negb (check_search_index e) then
      (Raise (IntegrityError "CHECK constraint failed: search_index"), s)
    else if negb (document_exists s (SearchIndex.document_id e)) then
      (Raise (IntegrityError "FOREIGN KEY constraint failed"), s)
    else
      let i := seq_search_index s + 1 in
      let kept :=
        List.filter
          (fun r => negb ((SearchIndex.document_id r
                           =? SearchIndex.document_id e)
                          && String.eqb (SearchIndex.keyword r)
                                        (SearchIndex.keyword e)))
          (search_index s) in
      (Ok i, set_search_index s (kept ++ [SearchIndex.set_id e (Some i)]) i).

(** [DELETE FROM search_index WHERE document_id = ?]; returns [rowcount]. *)
Definition delete_search_index_rows (i : Z) : M t Z :=
  fun s =>
    let gone := List.filter (fun e => SearchIndex.document_id e =? i)
                            (search_index s) in
    (Ok (Z.of_nat (length gone)),
     set_search_index s
       (List.filter (fun e => negb (SearchIndex.document_id e =? i))
                    (search_index s))
       (seq_search_index s)).

(** [INSERT OR REPLACE INTO document_metadata (...)]. *)
Definition insert_or_replace_metadata (m : DocumentMetadata.t) : M t Z :=
  fun s =>
    if negb (document_exists s (DocumentMetadata.document_id m)) then
      (Raise (IntegrityError "FOREIGN KEY constraint failed"), s)
    else
      let i := seq_document_metadata s + 1 in
      let kept :=
        List.filter
          (fun r => negb ((DocumentMetadata.document_id r
                           =? DocumentMetadata.document_id m)
                          && String.eqb (DocumentMetadata.key r)
                                        (DocumentMetadata.key m)))
          (document_metadata s) in
      (Ok i,
       set_document_metadata s
         (kept ++ [DocumentMetadata.mk (Some i)
                     (DocumentMetadata.document_id m)
                     (DocumentMetadata.key m) (DocumentMetadata.value m)
                     (DocumentMetadata.extracted_at m)]) i).

(** [DELETE FROM document_metadata WHERE document_id = ?]. *)
Definition delete_metadata_rows (i : Z) : M t Z :=
  fun s =>
    let gone := List.filter (fun m => DocumentMetadata.document_id m =? i)
                            (document_metadata s) in
    (Ok (Z.of_nat (length gone)),
     set_document_metadata s
       (List.filter (fun m => negb (DocumentMetadata.document_id m =? i))
                    (document_metadata s))
       (seq_document_metadata s)).

(** [cursor.executemany]: the statements in order, stopping at the first
    that raises. *)
Fixpoint executemany {A} (stmt : A -> M t Z) (params : list A) : M t unit :=
  match params with
  | [] => ret tt
  | p :: ps => let* _ := stmt p in executemany stmt ps
  end.

End Db.

(** ** Query classes ([src/database/queries.py]) *)

Module DocumentQueries.

(** The methods that class [DocumentQueries] defines. *)
Definition methods : list string :=
  ["create_document"; "get_document"; "get_document_by_path";
   "update_document"; "delete_document"; "list_documents";
   "count_documents"].

(** The attributes of an instance: the methods and what [__init__] sets. *)
Definition attributes : list string := methods ++ ["db"; "logger"].

(** Attribute lookup on an instance: a name the instance does not have
    raises [AttributeError]. *)
Definition getattr {St} (name : string) : M St unit :=
  if existsb (String.eqb name) attributes then ret tt
  else raise (AttributeError name).

(** [create_document]: [indexed_at] defaults to the current time. *)
Definition create_document (document : Document.t) (now : Z) : M Db.t Z :=
  Db.transaction
    (Db.insert_document
       (match Document.indexed_at document with
        | Some _ => document
        | None => Document.set_indexed_at document (Some now)
        end)).

(** [get_document]: the row is handed to the [Document] constructor, so
    [__post_init__] runs on it. *)
Definition get_document (document_id : Z) : M Db.t (option Document.t) :=
  fun s =>
    (Ok (option_map Document.post_init
           (List.find (fun d => Db.id_is document_id (Document.id d))
                      (Db.documents s))), s).

Definition get_document_by_path (file_path : string)
  : M Db.t (option Document.t) :=
  fun s =>
    (Ok (option_map Document.post_init
           (List.find (fun d => String.eqb (Document.file_path d) file_path)
                      (Db.documents s))), s).

Definition update_document (document : Document.t) : M Db.t bool :=
  Db.transaction
    (let* rowcount := Db.update_document_row document in
     ret (0 <? rowcount)).

Definition delete_document (document_id : Z) : M Db.t bool :=
  Db.transaction
    (let* rowcount := Db.delete_document_row document_id in
     ret (0 <? rowcount)).

End DocumentQueries.

Module MetadataQueries.

Definition bulk_create_metadata (document_id : Z)
  (metadata_dict : dict string) (current_time : Z) : M Db.t Z :=
  let params_list :=
    map (fun kv => DocumentMetadata.mk None document_id (fst kv) (snd kv)
                     (Some current_time))
        metadata_dict in
  Db.transaction
    (let* _ := Db.executemany Db.insert_or_replace_metadata params_list in
     ret (Z.of_nat (length params_list))).

Definition get_document_metadata (document_id : Z) : M Db.t (dict string) :=
  fun s =>
    (Ok (map (fun m => (DocumentMetadata.key m, DocumentMetadata.value m))
             (List.filter
                (fun m => DocumentMetadata.document_id m =? document_id)
                (Db.document_metadata s))), s).

Definition delete_document_metadata (document_id : Z) : M Db.t Z :=
  Db.transaction (Db.delete_metadata_rows document_id).

End MetadataQueries.

Module SearchQueries.

Definition bulk_create_search_index (search_entries : list SearchIndex.t)
  : M Db.t Z :=
  Db.transaction
    (let* _ :=
       Db.executemany Db.insert_or_replace_search_index search_entries in
     ret (Z.of_nat (length search_entries))).

Definition delete_search_index_for_document (document_id : Z) : M Db.t Z :=
  Db.transaction (Db.delete_search_index_rows document_id).

(** [expires_at > datetime('now')] *)
Definition unexpired (now : Z) (c : SearchCache.t) : bool :=
  match SearchCache.expires_at c with
  | Some e => now <? e
  | None => false
  end.

(** [_update_cache_hit_count]:
    [UPDATE search_cache SET hit_count = hit_count + 1 WHERE id = ?] *)
Definition _update_cache_hit_count (cache_id : option Z) : M Db.t unit :=
  fun s =>
    (Ok tt,
     Db.set_search_cache s
       (map (fun c =>
               match cache_id with
               | Some i =>
                   if Db.id_is i (SearchCache.id c)
                   then SearchCache.set_hit_count c
                          (SearchCache.hit_count c + 1)
                   else c
               | None => c
               end)
            (Db.search_cache s))
       (Db.seq_search_cache s)).

(** [get_search_cache]: the unexpired row with this hash, as read before
    its hit count is bumped in the table. *)
Definition get_search_cache (query_hash : string) (now : Z)
  : M Db.t (option SearchCache.t) :=
  let* s := get in
  match List.find (fun c => String.eqb (SearchCache.query_hash c) query_hash
                            && unexpired now c)
                  (Db.search_cache s) with
  | Some cache_entry =>
      let* _ := _update_cache_hit_count (SearchCache.id cache_entry) in
      ret (Some cache_entry)
  | None => ret None
  end.

(** [create_search_cache]: [INSERT OR REPLACE] on the unique [query_hash];
    [created_at] defaults to the current time. *)
Definition create_search_cache (cache_entry : SearchCache.t) (now : Z)
  : M Db.t Z :=
  Db.transaction
    (fun s =>
       let c :=
         SearchCache.mk None (SearchCache.query_hash cache_entry)
           (SearchCache.query_text cache_entry)
           (SearchCache.results cache_entry)
           (match SearchCache.created_at cache_entry with
            | Some t => Some t
            | None => Some now
            end)
           (SearchCache.expires_at cache_entry)
           (SearchCache.hit_count cache_entry) in
       if negb (Db.check_search_cache c) then
         (Raise (IntegrityError "CHECK constraint failed: search_cache"), s)
       else
         let i := Db.seq_search_cache s + 1 in
         (Ok i,
          Db.set_search_cache s
            (List.filter
               (fun r => negb (String.eqb (SearchCache.query_hash r)
                                          (SearchCache.query_hash c)))
               (Db.search_cache s)
             ++ [SearchCache.set_id c (Some i)]) i)).

(** [cleanup_expired_cache]:
    [DELETE FROM search_cache WHERE expires_at <= datetime('now')] *)
Definition cleanup_expired_cache (now : Z) : M Db.t Z :=
  Db.transaction
    (fun s =>
       let gone := List.filter (fun c => negb (unexpired now c))
                               (Db.search_cache s) in
       (Ok (Z.of_nat (length gone)),
        Db.set_search_cache s
          (List.filter (unexpired now) (Db.search_cache s))
          (Db.seq_search_cache s))).

End SearchQueries.

(** ** [DocumentManager] ([src/database/database_manager.py]) *)

Module DocumentManager.

Definition stop_words : list string :=
  ["the"; "and"; "or"; "but"; "in"; "on"; "at"; "to"; "for"; "of"; "with";
   "by"; "from"; "this"; "that"; "these"; "those"; "a"; "an"; "is"; "are";
   "was"; "were"; "be"; "been"; "being"; "have"; "has"; "had"; "do"; "does";
   "did"; "will"; "would"; "could"; "should"; "may"; "might"; "can";
   "shall"].

Definition is_stop_word (w : string) : bool :=
  existsb (String.eqb w) stop_words.

(** The loop of [_extract_keywords] over [enumerate(words)]. *)
Fixpoint collect (words : list string) (position : Z)
  (keywords : dict (list Z)) : dict (list Z) :=
  match words with
  | [] => keywords
  | word :: rest =>
      let keywords' :=
        if negb (is_stop_word word) && (3 <=? len word) then
          match dict_get keywords word with
          | Some ps => dict_set keywords word (ps ++ [position])
          | None => dict_set keywords word [position]
          end
        else keywords in
      collect rest (position + 1) keywords'
  end.

Definition _extract_keywords (content : string) : dict (list Z) :=
  collect (findall_words3 (lower content)) 0 [].

(** The entries [_index_document_keywords] builds before the bulk insert. *)
Definition search_entries (document_id : Z) (content : string)
  : list SearchIndex.t :=
  let document_length := Z.of_nat (length (split_ws content)) in
  map (fun kp =>
         fst (SearchIndex.calculate_relevance_score
                (SearchIndex.mk None document_id (lower (fst kp))
                   (Z.of_nat (length (snd kp))) (snd kp) 0%Q)
                document_length))
      (_extract_keywords content).

Definition _index_document_keywords (document_id : Z) (content : string)
  : M Db.t unit :=
  try_except
    (let* _ := SearchQueries.delete_search_index_for_document document_id in
     let entries := search_entries document_id content in
     match entries with
     | [] => ret tt
     | _ :: _ =>
         let* _ := SearchQueries.bulk_create_search_index entries in ret tt
     end)
    (fun _ => ret tt).

Definition _invalidate_search_cache (now : Z) : M Db.t unit :=
  try_except
    (let* _ := SearchQueries.cleanup_expired_cache now in ret tt)
    (fun _ => ret tt).

(** The successive readings of the clock during one [index_document]. *)
Record stamps : Type := mkStamps {
  t_created : Z; t_modified : Z; t_indexed : Z; t_metadata : Z; t_sweep : Z
}.

Definition index_document (file_path content : string)
  (metadata : dict string) (extract_keywords : bool) (now : stamps)
  : M Db.t (option Z) :=
  try_except
    (if String.eqb file_path "" || String.eqb content "" then ret None
     else
       let* existing_doc := DocumentQueries.get_document_by_path file_path in
       let document :=
         Document.post_init
           (Document.mk None file_path "" content ""
              (Z.of_nat (length (Sha256.encode_utf8 content))) ""
              (Some (t_created now)) (Some (t_modified now))
              (Some (t_indexed now)) []) in
       let document :=
         match metadata with
         | [] => document
         | _ :: _ => Document.set_metadata document metadata
         end in
       let* saved :=
         match existing_doc with
         | Some existing =>
             let document :=
               Document.set_created_at
                 (Document.set_id document (Document.id existing))
                 (Document.created_at existing) in
             let* success := DocumentQueries.update_document document in
             ret (if success then Document.id document else None)
         | None =>
             let* document_id :=
               DocumentQueries.create_document document (t_indexed now) in
             ret (if document_id =? 0 then None else Some document_id)
         end in
       match saved with
       | None => ret None
       | Some document_id =>
           let* _ :=
             match metadata with
             | [] => ret 0
             | _ :: _ =>
                 MetadataQueries.bulk_create_metadata document_id metadata
                   (t_metadata now)
             end in
           let* _ :=
             if extract_keywords
             then _index_document_keywords document_id content
             else ret tt in
           let* _ := _invalidate_search_cache (t_sweep now) in
           ret (Some document_id)
       end)
    (fun _ => ret None).

Definition delete_document (document_id : Z) (now : Z) : M Db.t bool :=
  try_except
    (let* _ := SearchQueries.delete_search_index_for_document document_id in
     let* _ := MetadataQueries.delete_document_metadata document_id in
     let* success := DocumentQueries.delete_document document_id in
     let* _ := if success then _invalidate_search_cache now else ret tt in
     ret success)
    (fun _ => ret false).

End DocumentManager.

(** ** [hashlib.md5] (RFC 1321), for the search tool's cache keys *)

Module Md5.

Import Sha256.

Definition rotl (n x : Z) : Z :=
  w32 (Z.lor (Z.shiftl x n) (Z.shiftr x (32 - n))).

Definition S : list Z :=
  [7; 12; 17; 22; 7; 12; 17; 22; 7; 12; 17; 22; 7; 12; 17; 22;
   5; 9; 14; 20; 5; 9; 14; 20; 5; 9; 14; 20; 5; 9; 14; 20;
   4; 11; 16; 23; 4; 11; 16; 23; 4; 11; 16; 23; 4; 11; 16; 23;
   6; 10; 15; 21; 6; 10; 15; 21; 6; 10; 15; 21; 6; 10; 15; 21].

Definition T : list Z :=
  [0xd76aa478; 0xe8c7b756; 0x242070db; 0xc1bdceee;
   0xf57c0faf; 0x4787c62a; 0xa8304613; 0xfd469501;
   0x698098d8; 0x8b44f7af; 0xffff5bb1; 0x895cd7be;
   0x6b901122; 0xfd987193; 0xa679438e; 0x49b40821;
   0xf61e2562; 0xc040b340; 0x265e5a51; 0xe9b6c7aa;
   0xd62f105d; 0x02441453; 0xd8a1e681; 0xe7d3fbc8;
   0x21e1cde6; 0xc33707d6; 0xf4d50d87; 0x455a14ed;
   0xa9e3e905; 0xfcefa3f8; 0x676f02d9; 0x8d2a4c8a;
   0xfffa3942; 0x8771f681; 0x6d9d6122; 0xfde5380c;
   0xa4beea44; 0x4bdecfa9; 0xf6bb4b60; 0xbebfbc70;
   0x289b7ec6; 0xeaa127fa; 0xd4ef3085; 0x04881d05;
   0xd9d4d039; 0xe6db99e5; 0x1fa27cf8; 0xc4ac5665;
   0xf4292244; 0x432aff97; 0xab9423a7; 0xfc93a039;
   0x655b59c3; 0x8f0ccc92; 0xffeff47d; 0x85845dd1;
   0x6fa87e4f; 0xfe2ce6e0; 0xa3014314; 0x4e0811a1;
   0xf7537e82; 0xbd3af235; 0x2ad7d2bb; 0xeb86d391].

Record state : Type := mkState { sa : Z; sb : Z; sc : Z; sd : Z }.

Definition init : state :=
  mkState 0x67452301 0xefcdab89 0x98badcfe 0x10325476.

Definition le_bytes (n : nat) (x : Z) : list Z :=
  map (fun i => Z.land (Z.shiftr x (8 * Z.of_nat i)) 255) (seq 0 n).

Definition pad (msg : list Z) : list Z :=
  let l := Z.of_nat (length msg) in
  let zeros := Z.to_nat ((55 - l) mod 64) in
  msg ++ [128] ++ repeat 0 zeros ++ le_bytes 8 (8 * l).

Definition word_of_le_bytes (b : list Z) : Z :=
  fold_right (fun x acc => acc * 256 + x) 0 b.

Fixpoint words_of (fuel : nat) (b : list Z) : list Z :=
  match fuel, b with
  | Datatypes.S fuel', _ :: _ =>
      word_of_le_bytes (take 4 b) :: words_of fuel' (drop 4 b)
  | _, _ => []
  end.

Definition step (m : list Z) (s : state) (i : Z) : state :=
  let '(f, g) :=
    if i <? 16 then
      (Z.lor (Z.land (sb s) (sc s)) (Z.land (not32 (sb s)) (sd s)), i)
    else if i <? 32 then
      (Z.lor (Z.land (sd s) (sb s)) (Z.land (not32 (sd s)) (sc s)),
       (5 * i + 1) mod 16)
    else if i <? 48 then
      (Z.lxor (Z.lxor (sb s) (sc s)) (sd s), (3 * i + 5) mod 16)
    else
      (Z.lxor (sc s) (Z.lor (sb s) (not32 (sd s))), (7 * i) mod 16) in
  let f' := add32 (add32 f (sa s))
                  (add32 (nth (Z.to_nat i) T 0) (nth (Z.to_nat g) m 0)) in
  mkState (sd s) (add32 (sb s) (rotl (nth (Z.to_nat i) S 0) f'))
          (sb s) (sc s).

Definition compress (h : state) (block : list Z) : state :=
  let s := fold_left (step block) (map Z.of_nat (seq 0 64)) h in
  mkState (add32 (sa h) (sa s)) (add32 (sb h) (sb s))
          (add32 (sc h) (sc s)) (add32 (sd h) (sd s)).

Definition digest (msg : list Z) : state :=
  let p := pad msg in
  fold_left compress (chunks (length p) (words_of (length p) p)) init.

(** A word in the byte order of the digest (least significant first). *)
Definition hex8_le (x : Z) (rest : string) : string :=
  String (nibble 1 x) (String (nibble 0 x) (String (nibble 3 x)
  (String (nibble 2 x) (String (nibble 5 x) (String (nibble 4 x)
  (String (nibble 7 x) (String (nibble 6 x) rest))))))).

(** [hashlib.md5(s.encode('utf-8')).hexdigest()] *)
Definition md5_hexdigest (s : string) : string :=
  let d := digest (encode_utf8 s) in
  hex8_le (sa d) (hex8_le (sb d) (hex8_le (sc d)
  (hex8_le (sd d) EmptyString))).

End Md5.

(** ** Tool base class ([src/tools/base.py]) *)

Module Tool.

(** One entry of a schema's [properties]: the keywords validation or
    the catalogue can read. *)
Record prop : Type := mkProp {
  type : option string;
  minLength : option Z;
  maxLength : option Z;
  minimum : option Z;
  maximum : option Z;
  minItems : option Z;
  maxItems : option Z;
  enum : option (list Value.t);
  default : option Value.t
}.

Record schema : Type := mkSchema {
  properties : dict prop;
  required : list string;
  additionalProperties : option bool
}.

Record ToolResult : Type := mkResult {
  success : bool;
  data : option (dict Value.t);
  error : option string;
  execution_time_ms : option Q;
  metadata : dict Value.t
}.

Definition success_result (d : dict Value.t) (md : dict Value.t)
  : ToolResult := mkResult true (Some d) None None md.
Definition error_result (msg : string) (md : dict Value.t) : ToolResult :=
  mkResult false None (Some msg) None md.
Definition set_execution_time (r : ToolResult) (t : Q) : ToolResult :=
  mkResult (success r) (data r) (error r) (Some t) (metadata r).

Definition str_of_Z (z : Z) : string :=
  DecimalString.NilZero.string_of_int (Z.to_int z).

(** [BaseMCPTool._validate_type]; [bool] is a subclass of [int]. *)
Definition _validate_type (value : Value.t) (expected_type : string) : bool :=
  if String.eqb expected_type "string" then
    match value with VStr _ => true | _ => false end
  else if String.eqb expected_type "number" then
    match value with VInt _ | VFloat _ | VBool _ => true | _ => false end
  else if String.eqb expected_type "integer" then
    match value with VInt _ | VBool _ => true | _ => false end
  else if String.eqb expected_type "boolean" then
    match value with VBool _ => true | _ => false end
  else if String.eqb expected_type "array" then
    match value with VList _ => true | _ => false end
  else if String.eqb expected_type "object" then
    match value with VDict _ => true | _ => false end
  else if String.eqb expected_type "null" then
    match value with VNone => true | _ => false end
  else true.

(** The numeric value of an [int], [float] or [bool]. *)
Definition as_number (v : Value.t) : option Q :=
  match v with
  | VInt z => Some (inject_Z z)
  | VFloat q => Some q
  | VBool b => Some (if b then 1 else 0)%Q
  | _ => None
  end.

Definition check (ok : bool) (msg : string) : res unit :=
  if ok then Ok tt else Raise (ToolValidationError msg).

Definition andthen (r : res unit) (k : res unit) : res unit :=
  match r with Ok _ => k | Raise e => Raise e end.

(** [BaseMCPTool._validate_property_constraints] *)
Definition _validate_property_constraints (param_name : string)
  (value : Value.t) (prop_schema : prop) : res unit :=
  let quoted := "Parameter '" +:+ param_name +:+ "' " in
  andthen
    (match value with
     | VStr s =>
         andthen
           (match minLength prop_schema with
            | Some n =>
                check (negb (len s <? n))
                  (quoted +:+ "must be at least " +:+ str_of_Z n
                   +:+ " characters long")
            | None => Ok tt
            end)
           (match maxLength prop_schema with
            | Some n =>
                check (negb (n <? len s))
                  (quoted +:+ "must be at most " +:+ str_of_Z n
                   +:+ " characters long")
            | None => Ok tt
            end)
     | _ => Ok tt
     end)
    (andthen
       (match as_number value with
        | Some x =>
            andthen
              (match minimum prop_schema with
               | Some n =>
                   check (Qle_bool (inject_Z n) x)
                     (quoted +:+ "must be at least " +:+ str_of_Z n)
               | None => Ok tt
               end)
              (match maximum prop_schema with
               | Some n =>
                   check (Qle_bool x (inject_Z n))
                     (quoted +:+ "must be at most " +:+ str_of_Z n)
               | None => Ok tt
               end)
        | None => Ok tt
        end)
       (match value with
        | VList l =>
            andthen
              (match minItems prop_schema with
               | Some n =>
                   check (negb (Z.of_nat (length l) <? n))
                     (quoted +:+ "must have at least " +:+ str_of_Z n
                      +:+ " items")
               | None => Ok tt
               end)
              (match maxItems prop_schema with
               | Some n =>
                   check (negb (n <? Z.of_nat (length l)))
                     (quoted +:+ "must have at most " +:+ str_of_Z n
                      +:+ " items")
               | None => Ok tt
               end)
        | _ => Ok tt
        end)).

(** The first loop of [validate_parameters]: the required fields. *)
Fixpoint check_required (required_fields : list string)
  (params : dict Value.t) : res unit :=
  match required_fields with
  | [] => Ok tt
  | field :: rest =>
      if dict_has params field then check_required rest params
      else Raise (ToolValidationError
                    ("Missing required parameter: " +:+ field))
  end.

(** One parameter of the second loop. *)
Definition validate_one (props : dict prop) (param_name : string)
  (param_value : Value.t) : res unit :=
  match dict_get props param_name with
  | None => Ok tt
  | Some prop_schema =>
      andthen
        (match type prop_schema with
         | Some expected_type =>
             check (_validate_type param_value expected_type)
               ("Parameter '" +:+ param_name +:+ "' must be of type "
                +:+ expected_type +:+ ", got "
                +:+ Value.type_name param_value)
         | None => Ok tt
         end)
        (_validate_property_constraints param_name param_value prop_schema)
  end.

(** The second loop: every given parameter, declared or not, lands in
    [validated_params] once it has passed its checks. *)
Fixpoint validate_items (props : dict prop) (items : dict Value.t)
  (validated : dict Value.t) : res (dict Value.t) :=
  match items with
  | [] => Ok validated
  | (param_name, param_value) :: rest =>
      match validate_one props param_name param_value with
      | Raise e => Raise e
      | Ok _ =>
          validate_items props rest
            (dict_set validated param_name param_value)
      end
  end.

(** The third loop: default values of the declared properties. *)
Fixpoint apply_defaults (props : dict prop) (validated : dict Value.t)
  : dict Value.t :=
  match props with
  | [] => validated
  | (prop_name, prop_schema) :: rest =>
      apply_defaults rest
        (match default prop_schema with
         | Some v =>
             if dict_has validated prop_name then validated
             else dict_set validated prop_name v
         | None => validated
         end)
  end.

(** [BaseMCPTool.validate_parameters] *)
Definition validate_parameters (s : schema) (params : dict Value.t)
  : res (dict Value.t) :=
  match check_required (required s) params with
  | Raise e => Raise e
  | Ok _ =>
      match validate_items (properties s) params [] with
      | Raise e => Raise e
      | Ok validated => Ok (apply_defaults (properties s) validated)
      end
  end.

Definition exn_message (e : exn) : string :=
  match e with
  | IntegrityError m | AttributeError m | TypeError m
  | ToolValidationError m | OtherError m => m
  end.

(** [BaseMCPTool.execute], without the timeout, the counters and the log:
    validation first, then the handler on the validated parameters. *)
Definition execute {St} (s : schema)
  (_execute_tool : dict Value.t -> M St ToolResult)
  (execution_time_ms : Q) (params : dict Value.t) : St -> ToolResult * St :=
  fun st =>
    match validate_parameters s params with
    | Raise e =>
        (set_execution_time
           (error_result
              ("Parameter validation failed: " +:+ exn_message e) [])
           execution_time_ms, st)
    | Ok validated_params =>
        match _execute_tool validated_params st with
        | (Ok result, st') =>
            (set_execution_time result execution_time_ms, st')
        | (Raise e, st') =>
            (set_execution_time
               (error_result
                  ("Tool execution failed: " +:+ exn_message e) [])
               execution_time_ms, st')
        end
    end.

End Tool.

(** ** What a tool handler runs against *)

Module World.

(** Calls to collaborators that leave no mark in the database: they are
    recorded so that "no parse" and "no search" can be stated. *)
Inductive effect : Type :=
| ParseFile (file_path : string)
| SearchIndexScan (query : string) (limit : Z).

Record t : Type := mk {
  db : Db.t;
  trace : list effect
}.

Definition lift {A} (m : M Db.t A) : M t A :=
  fun w => match m (db w) with
           | (r, s') => (r, mk s' (trace w))
           end.

Definition emit (e : effect) : M t unit :=
  fun w => (Ok tt, mk (db w) (trace w ++ [e])).

End World.

(** ** [searchDocuments] ([src/tools/searchDocuments.py]) *)

Module SearchDocumentsTool.

Import Tool.

Definition get_parameter_schema : schema :=
  mkSchema
    [("query", mkProp (Some "string") (Some 1) (Some 500) None None None
                 None None None);
     ("limit", mkProp (Some "integer") None None (Some 1) (Some 100) None
                 None None (Some (VInt 10)));
     ("file_type", mkProp (Some "string") None None None None None None
                     (Some [VStr ".md"; VStr ".txt"; VStr "markdown";
                            VStr "text"])
                     (Some VNone));
     ("sort_by", mkProp (Some "string") None None None None None None
                   (Some [VStr "relevance"; VStr "date"; VStr "name"])
                   (Some (VStr "relevance")))]
    ["query"]
    (Some false).

Definition search_cache_ttl_minutes : Z := 30.

Definition meaningful_short_terms : list string :=
  ["c"; "r"; "go"; "js"; "ai"; "ml"; "ui"; "ux"].

Fixpoint join (sep : string) (l : list string) : string :=
  match l with
  | [] => ""
  | [x] => x
  | x :: rest => x +:+ sep +:+ join sep rest
  end.

(** [_normalize_query] *)
Definition _normalize_query (query : string) : string :=
  join " "
    (List.filter
       (fun term => (2 <=? len term)
                    || existsb (String.eqb term) meaningful_short_terms)
       (split_ws (lower query))).

(** [_normalize_file_type] *)
Fixpoint strip_left (s : string) : string :=
  match s with
  | String c s' => if is_space c then strip_left s' else s
  | EmptyString => EmptyString
  end.
Definition strip (s : string) : string :=
  String.rev (strip_left (String.rev (strip_left s))).

Definition _normalize_file_type (file_type : string) : string :=
  let normalized := strip (lower file_type) in
  match dict_get [("md", "md"); ("markdown", "md"); ("txt", "txt");
                  ("text", "txt"); (".md", "md"); (".txt", "txt")]
                 normalized with
  | Some t => t
  | None => Path.lstrip_dot normalized
  end.

(** [str(v)] for the values a validated [limit] can be. *)
Definition format_int (v : Value.t) : option string :=
  match v with
  | VInt z => Some (str_of_Z z)
  | VBool true => Some "True"
  | VBool false => Some "False"
  | _ => None
  end.

(** [_generate_cache_key] *)
Definition _generate_cache_key (query : string) (limit : string)
  (file_type : option string) (sort_by : string) : string :=
  Md5.md5_hexdigest
    (query +:+ "|" +:+ limit +:+ "|"
     +:+ (match file_type with Some t => t | None => "" end)
     +:+ "|" +:+ sort_by).

(** [_get_cached_search]: the decoded results of the unexpired entry. *)
Definition _get_cached_search (cache_key : string) (now : Z)
  : M World.t (option Value.t) :=
  try_except
    (let* cached_entry :=
       World.lift (SearchQueries.get_search_cache cache_key now) in
     match cached_entry with
     | Some c => ret (Some (SearchCache.results c))
     | None => ret None
     end)
    (fun _ => ret None).

(** [_cache_search_results] *)
Definition _cache_search_results (cache_key : string)
  (results : dict Value.t) (query : string) (t_created t_expiry_base : Z)
  (now : Z) : M World.t unit :=
  try_except
    (let* _ :=
       World.lift
         (SearchQueries.create_search_cache
            (SearchCache.mk None cache_key query (VDict results)
               (Some t_created)
               (Some (t_expiry_base + search_cache_ttl_minutes * 60))
               0)
            now) in
     ret tt)
    (fun _ => ret tt).

(** The parameters after validation, as the handler reads them. *)
Record args : Type := mkArgs {
  query : string;
  limit : Value.t;
  file_type : option string;
  sort_by : string
}.

Definition limit_value (v : Value.t) : Z :=
  match v with
  | VInt z => z
  | VBool true => 1
  | _ => 0
  end.

Section Handler.

(** [SearchQueries.search_documents] together with the ranking, trimming
    and formatting steps that follow it: the miss path reads the index and
    the documents and yields the response fields [results], [total_found]
    and [returned_count]. Its arithmetic on floats and its regular
    expressions play no part in the properties stated here. *)
Variable score_and_format :
  Db.t -> string -> Z -> option string -> string -> dict Value.t.

(** The clock of the store, the two [datetime.now()] readings of
    [_cache_search_results] and the measured duration of the call. *)
Variable now : Z.
Variable t_created t_expiry_base : Z.
Variable search_time_ms : Q.

(** The rest of [_execute_tool] after a cache miss. *)
Definition search_and_cache (a : args) (normalized_query cache_key : string)
  : M World.t ToolResult :=
  let file_type_filter :=
    match file_type a with
    | Some t => if String.eqb t "" then None
                else Some (_normalize_file_type t)
    | None => None
    end in
  let* _ :=
    World.emit (World.SearchIndexScan normalized_query
                  (limit_value (limit a) * 2)) in
  let* w := get in
  let response_data :=
    score_and_format (World.db w) normalized_query (limit_value (limit a))
      file_type_filter (sort_by a)
    ++ [("search_time_ms", VFloat search_time_ms);
        ("query_processed", VStr normalized_query);
        ("from_cache", VBool false)]
    ++ match file_type_filter with
       | Some f => [("file_type_filter", VStr f)]
       | None => []
       end
    ++ (if String.eqb (sort_by a) "relevance" then []
        else [("sort_by", VStr (sort_by a))]) in
  let* _ :=
    _cache_search_results cache_key response_data normalized_query
      t_created t_expiry_base now in
  ret (success_result response_data
         [("tool_version", VStr "1.0");
          ("search_method", VStr "database");
          ("performance_target_met",
           VBool (negb (Qle_bool 200 search_time_ms)));
          ("cache_hit", VBool false)]).

(** [SearchDocumentsTool._execute_tool] *)
Definition _execute_tool (a : args) : M World.t ToolResult :=
  try_except
    (let normalized_query := _normalize_query (query a) in
     if String.eqb normalized_query "" then
       ret (error_result "Query contains no valid search terms" [])
     else
       match format_int (limit a) with
       | None => raise (TypeError "limit")
       | Some limit_text =>
           let cache_key :=
             _generate_cache_key normalized_query limit_text (file_type a)
               (sort_by a) in
           let* cached_result := _get_cached_search cache_key now in
           match cached_result with
           | Some v =>
               if Value.truthy v then
                 match v with
                 | VDict d =>
                     ret (success_result
                            (dict_set
                               (dict_set d "search_time_ms"
                                  (VFloat search_time_ms))
                               "from_cache" (VBool true))
                            [("tool_version", VStr "1.0");
                             ("search_method", VStr "cached");
                             ("cache_hit", VBool true)])
                 | _ =>
                     raise (TypeError
                              "object does not support item assignment")
                 end
               else search_and_cache a normalized_query cache_key
           | None => search_and_cache a normalized_query cache_key
           end
       end)
    (fun e => ret (error_result ("Search failed: " +:+ exn_message e)
                     [("search_time_ms", VFloat search_time_ms);
                      ("query", VStr (query a))])).

(** Reading the handler's arguments off the validated parameters. *)
Definition args_of (validated_params : dict Value.t) : option args :=
  match dict_get validated_params "query" with
  | Some (VStr q) =>
      let file_type :=
        match dict_get validated_params "file_type" with
        | Some (VStr t) => Some (Some t)
        | Some VNone | None => Some None
        | _ => None
        end in
      let sort_by :=
        match dict_get validated_params "sort_by" with
        | Some (VStr s) => Some s
        | None => Some "relevance"
        | _ => None
        end in
      match file_type, sort_by with
      | Some t, Some s =>
          Some (mkArgs q
                  (match dict_get validated_params "limit" with
                   | Some v => v
                   | None => VInt 10
                   end) t s)
      | _, _ => None
      end
  | _ => None
  end.

End Handler.

End SearchDocumentsTool.

(** ** [getDocument] ([src/tools/getDocument.py]) *)

Module GetDocumentTool.

Import Tool.

Definition get_parameter_schema : schema :=
  mkSchema
    [("document_id", mkProp (Some "integer") None None (Some 1) None None
                       None None None);
     ("file_path", mkProp (Some "string") (Some 1) (Some 1000) None None
                     None None None None);
     ("include_content", mkProp (Some "boolean") None None None None None
                           None None (Some (VBool true)));
     ("format", mkProp (Some "string") None None None None None None
                  (Some [VStr "json"; VStr "markdown"; VStr "text"])
                  (Some (VStr "json")));
     ("include_metadata", mkProp (Some "boolean") None None None None None
                            None None (Some (VBool true)));
     ("max_content_length", mkProp (Some "integer") None None (Some 0)
                              (Some 10485760) None None None
                              (Some (VInt 0)))]
    []
    (Some false).

Definition nl : string := String (chr 10) "".

(** The fields [__init__] sets. *)
Record t : Type := mk {
  max_content_size : Z;
  truncation_indicator : string
}.

Definition init : t :=
  mk (5 * 1024 * 1024)
     (nl +:+ nl +:+ "[Content truncated due to size limits]" +:+ nl).

(** [s.startswith(p)] *)
Fixpoint starts_with (p s : string) : bool :=
  match p, s with
  | EmptyString, _ => true
  | String a p', String b s' => Ascii.eqb a b && starts_with p' s'
  | String _ _, EmptyString => false
  end.

(** [sub in s] *)
Fixpoint contains (sub s : string) : bool :=
  starts_with sub s
  || match s with
     | EmptyString => false
     | String _ s' => contains sub s'
     end.

Definition markdown_headers : list string :=
  ["# "; "## "; "### "; "#### "; "##### "; "###### "].

Definition markdown_indicators : list string :=
  ["**"; "*"; "`"; "##"; "- "; "1. "; "["; "]("].

Record formatted : Type := mkFormatted {
  f_content : string;
  f_length : Z;
  f_truncated : bool;
  f_original_length : option Z
}.

(** What the specification says of the hard cap: content longer than the
    cap is cut to the cap and followed by the sentinel, shorter content is
    returned whole; with the truncation flag. *)
Definition capped (self : t) (content : string) : string * bool :=
  if max_content_size self <? len content then
    (str_take (Z.to_nat (max_content_size self)) content
     +:+ truncation_indicator self, true)
  else (content, false).

Section Handler.

(** [_strip_markdown]: a chain of [re.sub] rewrites. *)
Variable _strip_markdown : string -> string.
(** [_get_file_statistics] *)
Variable _get_file_statistics : Document.t -> Value.t.
Variable retrieval_time_ms : Q.

(** [_format_content] *)
Definition _format_content (self : t) (content format_type : string)
  (max_length : Z) : formatted :=
  if String.eqb content "" then mkFormatted "" 0 false None
  else
    let original_length := len content in
    let '(content, truncated) :=
      if (0 <? max_length) && (max_length <? original_length) then
        (str_take (Z.to_nat max_length) content
         +:+ truncation_indicator self, true)
      else if max_content_size self <? original_length then
        (str_take (Z.to_nat (max_content_size self)) content
         +:+ truncation_indicator self, true)
      else (content, false) in
    let formatted_content :=
      if String.eqb format_type "json" then content
      else if String.eqb format_type "markdown" then
        if existsb (fun h => starts_with h (SearchDocumentsTool.strip content))
                   markdown_headers
        then content
        else if existsb (fun i => contains i content) markdown_indicators
        then content
        else "```" +:+ nl +:+ content +:+ nl +:+ "```"
      else if String.eqb format_type "text" then _strip_markdown content
      else content in
    mkFormatted formatted_content (len formatted_content) truncated
      (Some original_length).

Definition opt_int (o : option Z) : Value.t :=
  match o with Some z => VInt z | None => VNone end.

Definition str_dict (d : dict string) : Value.t :=
  VDict (map (fun kv => (fst kv, VStr (snd kv))) d).

(** [_format_document_response]; timestamps stay clock ticks. *)
Definition _format_document_response (self : t) (document : Document.t)
  (include_content : bool) (format_type : string) (include_metadata : bool)
  (max_content_length : Z) : M World.t (dict Value.t) :=
  let response :=
    [("document_id", opt_int (Document.id document));
     ("file_path", VStr (Document.file_path document));
     ("file_name", VStr (Document.file_name document));
     ("file_type", VStr (Document.file_type document));
     ("file_size_bytes", VInt (Document.file_size document));
     ("file_hash", VStr (Document.file_hash document));
     ("created_at", opt_int (Document.created_at document));
     ("modified_at", opt_int (Document.modified_at document));
     ("indexed_at", opt_int (Document.indexed_at document))] in
  let response :=
    if include_content then
      if negb (String.eqb (Document.content document) "") then
        let formatted_content :=
          _format_content self (Document.content document) format_type
            max_content_length in
        response
        ++ [("content", VStr (f_content formatted_content));
            ("content_length", VInt (f_length formatted_content));
            ("content_truncated", VBool (f_truncated formatted_content));
            ("content_format", VStr format_type)]
      else
        response
        ++ [("content", VStr "");
            ("content_length", VInt 0);
            ("content_truncated", VBool false);
            ("content_format", VStr format_type)]
    else response in
  let* response :=
    if include_metadata then
      try_except
        (match Document.id document with
         | None => raise (TypeError "document id")
         | Some i =>
             let* metadata :=
               World.lift (MetadataQueries.get_document_metadata i) in
             ret (response
                  ++ [("metadata", str_dict metadata);
                      ("parsed_metadata",
                       str_dict (Document.metadata_json document))])
         end)
        (fun _ => ret (response ++ [("metadata", VDict []);
                                    ("parsed_metadata", VDict [])]))
    else ret response in
  ret (response ++ [("file_stats", _get_file_statistics document)]).

Record args : Type := mkArgs {
  document_id : option Z;
  file_path : option string;
  include_content : bool;
  format : string;
  include_metadata : bool;
  max_content_length : Z
}.

Definition selected_id (a : args) : option Z :=
  match document_id a with
  | Some i => if i =? 0 then None else Some i
  | None => None
  end.
Definition selected_path (a : args) : option string :=
  match file_path a with
  | Some p => if String.eqb p "" then None else Some p
  | None => None
  end.

(** [GetDocumentTool._execute_tool] *)
Definition _execute_tool (self : t) (a : args) : M World.t ToolResult :=
  try_except
    (match selected_id a, selected_path a with
     | None, None =>
         ret (error_result
                "Either 'document_id' or 'file_path' parameter is required"
                [])
     | Some _, Some _ =>
         ret (error_result
                "Only one of 'document_id' or 'file_path' should be provided"
                [])
     | sel_id, sel_path =>
         let retrieval_method :=
           match sel_id with Some _ => "by_id" | None => "by_path" end in
         let* document :=
           match sel_id, sel_path with
           | Some i, _ => World.lift (DocumentQueries.get_document i)
           | None, Some p =>
               World.lift (DocumentQueries.get_document_by_path p)
           | None, None => ret None
           end in
         match document with
         | None =>
             ret (match sel_id, sel_path with
                  | Some i, _ =>
                      error_result
                        ("Document with ID " +:+ str_of_Z i +:+ " not found")
                        [("document_id", VInt i);
                         ("retrieval_method", VStr retrieval_method)]
                  | None, Some p =>
                      error_result
                        ("Document with path '" +:+ p +:+ "' not found")
                        [("file_path", VStr p);
                         ("retrieval_method", VStr retrieval_method)]
                  | None, None => error_result "" []
                  end)
         | Some document =>
             let* response_data :=
               _format_document_response self document (include_content a)
                 (format a) (include_metadata a) (max_content_length a) in
             let response_data :=
               response_data
               ++ [("retrieval_time_ms", VFloat retrieval_time_ms);
                   ("retrieval_method", VStr retrieval_method)] in
             ret (success_result response_data
                    [("tool_version", VStr "1.0");
                     ("retrieval_method", VStr retrieval_method);
                     ("performance_target_met",
                      VBool (negb (Qle_bool 200 retrieval_time_ms)));
                     ("document_id", opt_int (Document.id document));
                     ("file_size_bytes",
                      VInt (Document.file_size document))])
         end
     end)
    (fun e => ret (error_result
                     ("Document retrieval failed: " +:+ exn_message e)
                     [("retrieval_time_ms", VFloat retrieval_time_ms)])).

End Handler.

End GetDocumentTool.

(** ** [indexDocument] ([src/tools/indexDocument.py]) *)

Module IndexDocumentTool.

Import Tool.

Definition get_parameter_schema : schema :=
  mkSchema
    [("file_path", mkProp (Some "string") (Some 1) (Some 1000) None None
                     None None None None);
     ("force_reindex", mkProp (Some "boolean") None None None None None
                         None None (Some (VBool false)))]
    ["file_path"]
    (Some false).

(** What [Path.exists], [Path.is_file] and [Path.stat] report. *)
Record file_stat : Type := mkStat {
  is_file : bool;
  st_size : Z;
  st_mtime : Z;
  st_ctime : Z
}.

(** The file system as the tool sees it: [None] for a path that does not
    exist. *)
Definition filesystem : Type := string -> option file_stat.

(** [ParserResult], its free-form values already turned into text. *)
Record ParserResult : Type := mkParse {
  p_success : bool;
  p_content : option string;
  p_metadata : dict string;
  p_keywords : list string;
  p_parsing_stats : dict string;
  p_error_message : string
}.

Definition max_file_size : Z := 10 * 1024 * 1024.

(** [_is_supported_file_type] *)
Definition _is_supported_file_type (file_path : string) : bool :=
  existsb (String.eqb (lower (Path.suffix file_path))) [".md"; ".txt"].

Section Handler.

Variable fs : filesystem.
(** [ParserFactory.parse_file] *)
Variable parse_file : string -> ParserResult.
(** [datetime.isoformat] and [Path.absolute] *)
Variable isoformat : Z -> string.
Variable absolute : string -> string.
(** The clock readings of [DocumentManager.index_document] and of the
    response. *)
Variable stamps : DocumentManager.stamps.
Variable t_response : Z.

Definition get_default (d : dict string) (k default : string) : string :=
  match dict_get d k with Some v => v | None => default end.

(** The merge loop of [_combine_metadata]. *)
Fixpoint merge_parser_metadata (items : dict string) (metadata : dict string)
  : dict string :=
  match items with
  | [] => metadata
  | (key, value) :: rest =>
      let parser_key :=
        if dict_has metadata key then "parsed_" +:+ key
        else "parser_" +:+ key in
      merge_parser_metadata rest (dict_set metadata parser_key value)
  end.

(** [_combine_metadata] *)
Definition _combine_metadata (parse_result : ParserResult)
  (file_path : string) (file_stat : file_stat) : dict string :=
  let metadata :=
    [("file_name", Path.name file_path);
     ("file_extension", lower (Path.suffix file_path));
     ("file_size_bytes", str_of_Z (st_size file_stat));
     ("file_created", isoformat (st_ctime file_stat));
     ("file_modified", isoformat (st_mtime file_stat));
     ("absolute_path", absolute file_path)] in
  let metadata := merge_parser_metadata (p_metadata parse_result) metadata in
  let metadata :=
    match p_keywords parse_result with
    | [] => metadata
    | _ :: _ =>
        dict_set
          (dict_set metadata "extracted_keywords"
             (SearchDocumentsTool.join ", " (p_keywords parse_result)))
          "keyword_count"
          (str_of_Z (Z.of_nat (length (p_keywords parse_result))))
    end in
  let metadata :=
    match p_parsing_stats parse_result with
    | [] => metadata
    | _ :: _ =>
        dict_set
          (dict_set metadata "parsing_duration_ms"
             (get_default (p_parsing_stats parse_result) "parsing_time" "0"))
          "parser_type"
          (get_default (p_parsing_stats parse_result) "parser_type"
             "unknown")
    end in
  match p_content parse_result with
  | Some c =>
      if String.eqb c "" then metadata
      else dict_set metadata "content_hash" (Sha256.sha256_hexdigest c)
  | None => metadata
  end.

Record args : Type := mkArgs {
  file_path : string;
  force_reindex : bool
}.

(** The part of [_execute_tool] after the "already indexed" test: parse,
    store, respond. *)
Definition parse_and_index (a : args) (file_stat : file_stat)
  (existing_doc : option Document.t) : M World.t ToolResult :=
  let* _ := World.emit (World.ParseFile (file_path a)) in
  let parse_result := parse_file (file_path a) in
  if negb (p_success parse_result) then
    ret (error_result
           ("Failed to parse document: " +:+ p_error_message parse_result)
           [])
  else
    let content :=
      match p_content parse_result with Some c => c | None => "" end in
    if String.eqb (SearchDocumentsTool.strip content) "" then
      ret (error_result
             "Document appears to be empty or contains no readable content"
             [])
    else
      let combined_metadata :=
        _combine_metadata parse_result (file_path a) file_stat in
      let* document_id :=
        World.lift
          (DocumentManager.index_document (file_path a) content
             combined_metadata true stamps) in
      match document_id with
      | None => ret (error_result "Failed to index document in database" [])
      | Some i =>
          let response_data :=
            [("status",
              VStr (match existing_doc with
                    | None => "indexed"
                    | Some _ => "reindexed"
                    end));
             ("document_id", VInt i);
             ("file_path", VStr (file_path a));
             ("file_size_bytes", VInt (st_size file_stat));
             ("content_length", VInt (len content));
             ("indexed_at", VStr (isoformat t_response));
             ("metadata_fields_extracted",
              VInt (Z.of_nat (length combined_metadata)));
             ("parsing_stats",
              GetDocumentTool.str_dict (p_parsing_stats parse_result))]
            ++ match p_keywords parse_result with
               | [] => []
               | _ :: _ =>
                   [("keywords_extracted",
                     VInt (Z.of_nat (length (p_keywords parse_result))))]
               end in
          ret (success_result response_data
                 [("tool_version", VStr "1.0");
                  ("parser_type",
                   VStr (get_default (p_parsing_stats parse_result)
                           "parser_type" "unknown"));
                  ("force_reindex", VBool (force_reindex a))])
      end.

(** [IndexDocumentTool._execute_tool] *)
Definition _execute_tool (a : args) : M World.t ToolResult :=
  try_except
    (match fs (file_path a) with
     | None =>
         ret (error_result ("File not found: " +:+ file_path a) [])
     | Some file_stat =>
         if negb (is_file file_stat) then
           ret (error_result ("Path is not a file: " +:+ file_path a) [])
         else if negb (_is_supported_file_type (file_path a)) then
           ret (error_result
                  ("Unsupported file type: " +:+ Path.suffix (file_path a)
                   +:+ ". Supported types: .md, .txt") [])
         else if max_file_size <? st_size file_stat then
           ret (error_result
                  ("File too large: " +:+ str_of_Z (st_size file_stat)
                   +:+ " bytes. Maximum size: " +:+ str_of_Z max_file_size
                   +:+ " bytes") [])
         else
           let* existing_doc :=
             World.lift
               (DocumentQueries.get_document_by_path (file_path a)) in
           match existing_doc with
           | Some existing =>
               if negb (force_reindex a) then
                 match Document.modified_at existing with
                 | None =>
                     raise (TypeError
                              "'<=' not supported between instances of 'datetime.datetime' and 'NoneType'")
                 | Some modified_at =>
                     if st_mtime file_stat <=? modified_at then
                       ret (success_result
                              [("status", VStr "already_indexed");
                               ("document_id",
                                GetDocumentTool.opt_int
                                  (Document.id existing));
                               ("message",
                                VStr "Document is already indexed and up to date");
                               ("indexed_at",
                                match Document.indexed_at existing with
                                | Some t => VStr (isoformat t)
                                | None => VNone
                                end);
                               ("file_path", VStr (file_path a))]
                              [])
                     else parse_and_index a file_stat existing_doc
                 end
               else parse_and_index a file_stat existing_doc
           | None => parse_and_index a file_stat existing_doc
           end
     end)
    (fun e => ret (error_result
                     ("Tool execution failed: " +:+ exn_message e) [])).

End Handler.

End IndexDocumentTool.

(** ** The watcher's event handler ([src/watcher/event_handler.py])

    Debounced mode on a model of the asyncio loop. A debounce task is the
    coroutine [_debounced_process]; it is [Fresh] until its first step
    runs, [Sleeping] inside [await asyncio.sleep], [Woken] once its timer
    fired or a cancellation reached it and its next step is scheduled, and
    [Done] afterwards. [Task.cancel] never runs the task: it marks it, and
    the [CancelledError] is raised when the task is next stepped, at the
    [await] where it is suspended; a task cancelled before its first step
    never enters its body. *)

Module EventHandler.

Record FileEvent : Type := mkEvent {
  event_type : string;
  file_path : string;
  old_path : option string;
  timestamp : Z;
  is_directory : bool
}.

Inductive status : Type :=
| Fresh
| Sleeping (wake : Z)
| Woken
| Done.

Record task : Type := mkTask {
  tid : Z;
  file_key : string;
  state : status;
  must_cancel : bool
}.

Record t : Type := mk {
  (** loop time in milliseconds *)
  now : Z;
  _pending_events : dict FileEvent;
  (** [_debounce_tasks]: path to task identity *)
  _debounce_tasks : dict Z;
  (** every task ever created *)
  tasks : list task;
  (** the loop's queue of scheduled task steps *)
  ready : list Z;
  next_tid : Z;
  (** calls of [event_callback], with the loop time of the call *)
  dispatched : list (Z * FileEvent)
}.

Definition init : t := mk 0 [] [] [] [] 1 [].

Definition update_task (f : task -> task) (i : Z) (l : list task)
  : list task :=
  map (fun k => if tid k =? i then f k else k) l.

Definition find_task (i : Z) (l : list task) : option task :=
  List.find (fun k => tid k =? i) l.

(** [Task.cancel()] *)
Definition cancel (i : Z) (s : t) : t :=
  match find_task i (tasks s) with
  | Some k =>
      match state k with
      | Done => s
      | Fresh | Woken =>
          mk (now s) (_pending_events s) (_debounce_tasks s)
             (update_task (fun k => mkTask (tid k) (file_key k) (state k) true)
                          i (tasks s))
             (ready s) (next_tid s) (dispatched s)
      | Sleeping _ =>
          mk (now s) (_pending_events s) (_debounce_tasks s)
             (update_task (fun k => mkTask (tid k) (file_key k) Woken true)
                          i (tasks s))
             (ready s ++ [i]) (next_tid s) (dispatched s)
      end
  | None => s
  end.

(** [_handle_with_debouncing] *)
Definition _handle_with_debouncing (file_event : FileEvent) (s : t) : t :=
  let file_key := file_path file_event in
  let s :=
    match dict_get (_debounce_tasks s) file_key with
    | Some i => cancel i s
    | None => s
    end in
  let i := next_tid s in
  mk (now s)
     (dict_set (_pending_events s) file_key file_event)
     (dict_set (_debounce_tasks s) file_key i)
     (tasks s ++ [mkTask i file_key Fresh false])
     (ready s ++ [i])
     (i + 1)
     (dispatched s).

Section Loop.

(** [config.debounce_delay_ms] *)
Variable debounce_delay_ms : Z.

Definition set_state (i : Z) (st : status) (s : t) : t :=
  mk (now s) (_pending_events s) (_debounce_tasks s)
     (update_task (fun k => mkTask (tid k) (file_key k) st false) i (tasks s))
     (ready s) (next_tid s) (dispatched s).

(** One scheduled step of the task running [_debounced_process]. *)
Definition step (s : t) (i : Z) : t :=
  match find_task i (tasks s) with
  | None => s
  | Some k =>
      match state k, must_cancel k with
      | Fresh, true =>
          (* cancelled before the first step: the body is never entered *)
          set_state i Done s
      | Fresh, false =>
          (* [await asyncio.sleep(debounce_delay_ms / 1000.0)] *)
          set_state i (Sleeping (now s + debounce_delay_ms)) s
      | Woken, true =>
          (* [except asyncio.CancelledError:] then [finally:] *)
          let s := set_state i Done s in
          mk (now s)
             (dict_del (_pending_events s) (file_key k))
             (dict_del (_debounce_tasks s) (file_key k))
             (tasks s) (ready s) (next_tid s) (dispatched s)
      | Woken, false =>
          (* the sleep is over: pop and process, then [finally:] *)
          let s := set_state i Done s in
          match dict_get (_pending_events s) (file_key k) with
          | Some event =>
              mk (now s)
                 (dict_del (_pending_events s) (file_key k))
                 (dict_del (_debounce_tasks s) (file_key k))
                 (tasks s) (ready s) (next_tid s)
                 (dispatched s ++ [(now s, event)])
          | None =>
              mk (now s) (_pending_events s)
                 (dict_del (_debounce_tasks s) (file_key k))
                 (tasks s) (ready s) (next_tid s) (dispatched s)
          end
      | _, _ => s
      end
  end.

(** The loop runs the steps that are scheduled, first come first served. *)
Definition run_ready (s : t) : t :=
  fold_left step (ready s)
    (mk (now s) (_pending_events s) (_debounce_tasks s) (tasks s) []
        (next_tid s) (dispatched s)).

(** The sleeping task whose timer is due first, not later than [limit]. *)
Definition next_timer (limit : Z) (l : list task) : option (Z * Z) :=
  fold_left
    (fun best k =>
       match state k with
       | Sleeping w =>
           if w <=? limit then
             match best with
             | Some (_, wb) => if w <? wb then Some (tid k, w) else best
             | None => Some (tid k, w)
             end
           else best
       | _ => best
       end)
    l None.

(** Time passes until [limit]: each timer that comes due wakes its task,
    and the loop runs it. *)
Fixpoint advance (fuel : nat) (limit : Z) (s : t) : t :=
  match fuel with
  | O => s
  | S fuel' =>
      match next_timer limit (tasks s) with
      | Some (i, w) =>
          let s :=
            mk (Z.max (now s) w) (_pending_events s) (_debounce_tasks s)
               (update_task
                  (fun k => mkTask (tid k) (file_key k) Woken (must_cancel k))
                  i (tasks s))
               (ready s ++ [i]) (next_tid s) (dispatched s) in
          advance fuel' limit (run_ready s)
      | None =>
          mk (Z.max (now s) limit) (_pending_events s) (_debounce_tasks s)
             (tasks s) (ready s) (next_tid s) (dispatched s)
      end
  end.

Definition advance_to (limit : Z) (s : t) : t :=
  advance (S (length (tasks s))) limit s.

(** Events that reach [_handle_event_async] at loop time [at_ms], handled
    one after the other before the loop runs anything else; then the loop
    runs what became ready. *)
Definition arrive (s : t) (batch : Z * list FileEvent) : t :=
  let s := advance_to (fst batch) s in
  run_ready (fold_left (fun s e => _handle_with_debouncing e s) (snd batch) s).

(** A whole run: the batches in order of time, then the loop until
    [horizon]. *)
Definition run (schedule : list (Z * list FileEvent)) (horizon : Z) : t :=
  advance_to horizon (fold_left arrive schedule init).

End Loop.

End EventHandler.

(** ** [FileWatcher] ([src/watcher/file_watcher.py]) *)

Module FileWatcher.

Import EventHandler.

(** [self.stats] *)
Record stats : Type := mkStats {
  files_indexed : Z;
  files_updated : Z;
  files_deleted : Z;
  files_moved : Z;
  indexing_errors : Z;
  total_events_processed : Z
}.

Definition stats0 : stats := mkStats 0 0 0 0 0 0.

Record t : Type := mk {
  world : World.t;
  watcher_stats : stats
}.

Section Handlers.

(** Whether a database manager was handed to the watcher. *)
Variable has_database_manager : bool.

(** What calling the attribute [name] of [doc_queries] with a path does
    and whether its result is true, were the attribute there. *)
Variable call_doc_queries : string -> string -> M World.t bool.

(** The handlers of the other three event types. *)
Variable _handle_file_created : FileEvent -> M World.t (option string).
Variable _handle_file_modified : FileEvent -> M World.t (option string).
Variable _handle_file_moved : FileEvent -> M World.t (option string).

(** [_handle_file_deleted] *)
Definition _handle_file_deleted (file_event : FileEvent)
  : M World.t (option string) :=
  try_except
    (if negb has_database_manager then ret (Some "skipped")
     else
       let* _ := DocumentQueries.getattr "delete_document_by_path" in
       let* result :=
         call_doc_queries "delete_document_by_path"
           (file_path file_event) in
       if result then ret (Some "deleted") else ret (Some "not_found"))
    (fun _ => ret None).

Definition bump (action_taken : string) (s : stats) : stats :=
  let s :=
    mkStats (files_indexed s) (files_updated s) (files_deleted s)
      (files_moved s) (indexing_errors s) (total_events_processed s + 1) in
  if String.eqb action_taken "indexed" then
    mkStats (files_indexed s + 1) (files_updated s) (files_deleted s)
      (files_moved s) (indexing_errors s) (total_events_processed s)
  else if String.eqb action_taken "updated" then
    mkStats (files_indexed s) (files_updated s + 1) (files_deleted s)
      (files_moved s) (indexing_errors s) (total_events_processed s)
  else if String.eqb action_taken "deleted" then
    mkStats (files_indexed s) (files_updated s) (files_deleted s + 1)
      (files_moved s) (indexing_errors s) (total_events_processed s)
  else if String.eqb action_taken "moved" then
    mkStats (files_indexed s) (files_updated s) (files_deleted s)
      (files_moved s + 1) (indexing_errors s) (total_events_processed s)
  else s.

Definition count_error (s : stats) : stats :=
  mkStats (files_indexed s) (files_updated s) (files_deleted s)
    (files_moved s) (indexing_errors s + 1) (total_events_processed s).

(** [_handle_file_event]: dispatch on the event type, then the counters. *)
Definition _handle_file_event (file_event : FileEvent) (w : t) : t :=
  let handler :=
    if String.eqb (event_type file_event) "created" then
      Some (_handle_file_created file_event)
    else if String.eqb (event_type file_event) "modified" then
      Some (_handle_file_modified file_event)
    else if String.eqb (event_type file_event) "deleted" then
      Some (_handle_file_deleted file_event)
    else if String.eqb (event_type file_event) "moved" then
      Some (_handle_file_moved file_event)
    else None in
  match handler with
  | None => w
  | Some h =>
      match h (world w) with
      | (Ok action_taken, world') =>
          mk world'
             (match action_taken with
              | Some a =>
                  if String.eqb a "" then watcher_stats w
                  else bump a (watcher_stats w)
              | None => watcher_stats w
              end)
      | (Raise _, world') => mk world' (count_error (watcher_stats w))
      end
  end.

End Handlers.

End FileWatcher.

(** ** Schemas with their [enum] keywords taken out *)

Module SchemaOps.

Import Tool.

Definition without_enum (p : prop) : prop :=
  mkProp (type p) (minLength p) (maxLength p) (minimum p) (maximum p)
         (minItems p) (maxItems p) None (default p).

Definition without_enums (s : schema) : schema :=
  mkSchema (map (fun kp => (fst kp, without_enum (snd kp))) (properties s))
           (required s) (additionalProperties s).

(** What [execute] makes of the handler's outcome. *)
Definition finish {St} (execution_time_ms : Q)
  (outcome : res ToolResult * St) : ToolResult * St :=
  match outcome with
  | (Ok result, st') => (set_execution_time result execution_time_ms, st')
  | (Raise e, st') =>
      (set_execution_time
         (error_result ("Tool execution failed: " +:+ exn_message e) [])
         execution_time_ms, st')
  end.

(** The three tools of the catalogue. *)
Definition catalogue : list schema :=
  [IndexDocumentTool.get_parameter_schema;
   SearchDocumentsTool.get_parameter_schema;
   GetDocumentTool.get_parameter_schema].

End SchemaOps.

(** ** Sample data for the worked examples *)

Module Demo.

Definition stamps : DocumentManager.stamps :=
  DocumentManager.mkStamps 100 100 100 100 100.

(** A store holding one indexed document, with metadata and keywords. *)
Definition store : Db.t :=
  snd (DocumentManager.index_document "/tmp/a.md" "alpha beta gamma"
         [("title", "Greek")] true stamps Db.empty).

End Demo.

(** ** Invariants of stateful code *)

Module Inv.

(** [m] keeps [P]: whatever it returns or raises, the state it leaves
    satisfies [P] if the state it started from did. *)
Definition preserves {St A} (P : St -> Prop) (m : M St A) : Prop :=
  forall s, P s -> P (snd (m s)).

(** The counter has not gone below zero, every document row has an id it
    handed out, no two rows share an id, and no two rows share a path ([documents.id] is the
    primary key, [documents.file_path] is UNIQUE). *)
Definition keys_ok (s : Db.t) : Prop :=
  0 <= Db.seq_documents s
  /\ Forall (fun d => exists i, Document.id d = Some i
                                /\ 0 < i <= Db.seq_documents s)
            (Db.documents s)
  /\ NoDup (map Document.id (Db.documents s))
  /\ NoDup (map Document.file_path (Db.documents s)).

(** Every row of [document_metadata] and of [search_index] references a
    document that is there (the two FOREIGN KEY clauses). *)
Definition references_ok (s : Db.t) : Prop :=
  Forall (fun m => Db.document_exists s (DocumentMetadata.document_id m)
                   = true)
         (Db.document_metadata s)
  /\ Forall (fun e => Db.document_exists s (SearchIndex.document_id e) = true)
            (Db.search_index s).

(** Every row of [search_index] passes the table's CHECK clauses. *)
Definition index_rows_ok (s : Db.t) : Prop :=
  Forall (fun e => Db.check_search_index e = true) (Db.search_index s).

(** Every document row carries the digest and the encoded size of its own
    content. *)
Definition digests_ok (s : Db.t) : Prop :=
  Forall (fun d =>
            Document.file_hash d = Sha256.sha256_hexdigest (Document.content d)
            /\ Document.file_size d
               = Z.of_nat (length (Sha256.encode_utf8 (Document.content d))))
         (Db.documents s).

(** The [documents] table and its counter are exactly these. *)
Definition documents_are (docs : list Document.t) (q : Z) (s : Db.t) : Prop :=
  Db.documents s = docs /\ Db.seq_documents s = q.

(** The three tables that hold documents and what is derived from them
    are exactly these. *)
Definition tables_are (docs : list Document.t)
  (metas : list DocumentMetadata.t) (idx : list SearchIndex.t) (s : Db.t)
  : Prop :=
  Db.documents s = docs /\ Db.document_metadata s = metas
  /\ Db.search_index s = idx.

(** The record [DocumentManager.index_document] builds before it writes. *)
Definition built_document (file_path content : string)
  (metadata : dict string) (now : DocumentManager.stamps) : Document.t :=
  let document :=
    Document.post_init
      (Document.mk None file_path "" content ""
         (Z.of_nat (length (Sha256.encode_utf8 content))) ""
         (Some (DocumentManager.t_created now))
         (Some (DocumentManager.t_modified now))
         (Some (DocumentManager.t_indexed now)) []) in
  match metadata with
  | [] => document
  | _ :: _ => Document.set_metadata document metadata
  end.

(** The row an update writes over the row [existing]. *)
Definition updated_document (existing : Document.t)
  (file_path content : string) (metadata : dict string)
  (now : DocumentManager.stamps) : Document.t :=
  Document.set_created_at
    (Document.set_id (built_document file_path content metadata now)
       (Document.id (Document.post_init existing)))
    (Document.created_at (Document.post_init existing)).

End Inv.

(** Concrete cache entries for the examples. *)
Module DemoCache.

Definition entry : SearchCache.t :=
  SearchCache.mk None "k1" "alpha"
    (VDict [("results", VList []); ("total_found", VInt 0)])
    (Some 100) (Some 1900) 0.

Definition store : Db.t :=
  snd (SearchQueries.create_search_cache entry 100 Demo.store).

End DemoCache.

(** The response [SearchDocumentsTool._execute_tool] builds on a cache
    miss, named so that statements can refer to it. *)
Module SearchResponse.

Import Tool SearchDocumentsTool.

Definition file_type_filter (a : args) : option string :=
  match file_type a with
  | Some t => if String.eqb t "" then None else Some (_normalize_file_type t)
  | None => None
  end.

Definition response_data
  (score_and_format : Db.t -> string -> Z -> option string -> string
                      -> dict Value.t)
  (search_time_ms : Q) (a : args) (s : Db.t) : dict Value.t :=
  score_and_format s (_normalize_query (query a)) (limit_value (limit a))
    (file_type_filter a) (sort_by a)
  ++ [("search_time_ms", VFloat search_time_ms);
      ("query_processed", VStr (_normalize_query (query a)));
      ("from_cache", VBool false)]
  ++ match file_type_filter a with
     | Some f => [("file_type_filter", VStr f)]
     | None => []
     end
  ++ (if String.eqb (sort_by a) "relevance" then []
      else [("sort_by", VStr (sort_by a))]).

(** The entry [_cache_search_results] hands to [create_search_cache]. *)
Definition cache_entry (cache_key : string) (results : dict Value.t)
  (normalized_query : string) (t_created t_expiry_base : Z)
  : SearchCache.t :=
  SearchCache.mk None cache_key normalized_query (VDict results)
    (Some t_created) (Some (t_expiry_base + search_cache_ttl_minutes * 60)) 0.

End SearchResponse.

(** A concrete search, its cache key and a store that holds an entry for
    it, for the examples. *)
Module DemoSearch.

Import Tool SearchDocumentsTool.

Definition search_args : args := mkArgs "Alpha  a" (VInt 10) None "relevance".

Definition cache_key : string :=
  _generate_cache_key "alpha" "10" None "relevance".

Definition score_and_format (s : Db.t) (q : string) (limit : Z)
  (file_type_filter : option string) (sort_by : string) : dict Value.t :=
  [("results", VList []); ("total_found", VInt 0);
   ("returned_count", VInt 0)].

Definition cached : dict Value.t :=
  [("results", VList []); ("total_found", VInt 0);
   ("returned_count", VInt 0); ("search_time_ms", VFloat 3);
   ("query_processed", VStr "alpha"); ("from_cache", VBool false)].

Definition cold : World.t := World.mk Demo.store [].

Definition warm : World.t :=
  World.mk
    (snd (SearchQueries.create_search_cache
            (SearchCache.mk None cache_key "alpha" (VDict cached)
               (Some 100) (Some 1900) 0)
            100 Demo.store))
    [].

End DemoSearch.

(** The response [IndexDocumentTool._execute_tool] gives for a document
    that is already indexed and up to date. *)
Module IndexResponse.

Import IndexDocumentTool.

Definition already_indexed_data (isoformat : Z -> string)
  (existing : Document.t) (a : args) : dict Value.t :=
  [("status", VStr "already_indexed");
   ("document_id", GetDocumentTool.opt_int (Document.id existing));
   ("message", VStr "Document is already indexed and up to date");
   ("indexed_at",
    match Document.indexed_at existing with
    | Some t => VStr (isoformat t)
    | None => VNone
    end);
   ("file_path", VStr (file_path a))].

End IndexResponse.

(** A small file system and parser for the examples. *)
Module DemoFiles.

Import IndexDocumentTool.

Definition fs : filesystem :=
  fun p =>
    if String.eqb p "/tmp/a.md" then Some (mkStat true 16 50 40)
    else if String.eqb p "/tmp/dir.md" then Some (mkStat false 0 50 40)
    else None.

Definition parse_file (p : string) : ParserResult :=
  mkParse true (Some "alpha beta gamma") [("title", "Greek")] ["alpha"] []
    "".

Definition isoformat (t : Z) : string := Tool.str_of_Z t.
Definition absolute (p : string) : string := p.

Definition fresh : World.t := World.mk Db.empty [].

End DemoFiles.

(** Well-formed keyword tables: what [_extract_keywords] maintains while
    it walks the words. *)
Module Keywords.

(** Keys are distinct; every key is a word of three or more characters
    that is not a stop word; every key has at least one position, and all
    positions are below [n]. *)
Definition well_formed (n : Z) (keywords : dict (list Z)) : Prop :=
  NoDup (map fst keywords)
  /\ Forall (fun kp =>
               DocumentManager.is_stop_word (fst kp) = false
               /\ 3 <= len (fst kp)
               /\ snd kp <> []
               /\ Forall (fun q => 0 <= q < n) (snd kp))
            keywords.

End Keywords.

(** ** The watcher's handlers for created, modified and moved files *)

Module WatcherIndexing.

Import Tool EventHandler.

(** Attribute lookup on a [ToolResult]: the five fields of the dataclass
    and its three methods; any other name raises [AttributeError]. *)
Definition result_getattr {St} (r : ToolResult) (name : string)
  : M St Value.t :=
  if String.eqb name "success" then ret (VBool (success r))
  else if String.eqb name "data" then
    ret (match data r with Some d => VDict d | None => VNone end)
  else if String.eqb name "error" then
    ret (match error r with Some e => VStr e | None => VNone end)
  else if String.eqb name "execution_time_ms" then
    ret (match execution_time_ms r with
         | Some t => VFloat t
         | None => VNone
         end)
  else if String.eqb name "metadata" then ret (VDict (metadata r))
  else if existsb (String.eqb name)
            ["to_dict"; "success_result"; "error_result"] then
    ret (VStr "<bound method>")
  else raise (AttributeError name).

Section Handlers.

(** [self.index_tool]: the tool's [_execute_tool], if a tool was handed to
    the watcher. *)
Variable index_tool :
  option (IndexDocumentTool.args -> M World.t ToolResult).
(** Whether a database manager was handed to the watcher. *)
Variable has_database_manager : bool.

(** [FileWatcher._index_document] *)
Definition _index_document (file_path : string) (force_reindex : bool)
  : M World.t bool :=
  try_except
    (match index_tool with
     | None => ret false
     | Some _execute_tool =>
         let* result :=
           _execute_tool (IndexDocumentTool.mkArgs file_path force_reindex) in
         let* is_success := result_getattr result "is_success" in
         if Value.truthy is_success then ret true
         else
           let* _ := result_getattr result "error_message" in
           ret false
     end)
    (fun _ => ret false).

Definition indexed_or_skipped (result : bool) : option string :=
  Some (if result then "indexed" else "skipped").

(** [FileWatcher._handle_file_created] *)
Definition _handle_file_created (file_event : FileEvent)
  : M World.t (option string) :=
  try_except
    (let* result := _index_document (file_path file_event) false in
     ret (indexed_or_skipped result))
    (fun _ => ret None).

(** [FileWatcher._handle_file_modified] *)
Definition _handle_file_modified (file_event : FileEvent)
  : M World.t (option string) :=
  try_except
    (if has_database_manager then
       let* existing_doc :=
         World.lift
           (DocumentQueries.get_document_by_path (file_path file_event)) in
       match existing_doc with
       | Some _ =>
           let* result := _index_document (file_path file_event) true in
           ret (Some (if result then "updated" else "skipped"))
       | None =>
           let* result := _index_document (file_path file_event) false in
           ret (indexed_or_skipped result)
       end
     else
       let* result := _index_document (file_path file_event) false in
       ret (indexed_or_skipped result))
    (fun _ => ret None).

(** [FileWatcher._handle_file_moved] *)
Definition _handle_file_moved (file_event : FileEvent)
  : M World.t (option string) :=
  try_except
    (match (if has_database_manager then old_path file_event else None) with
     | None | Some EmptyString =>
         let* result := _index_document (file_path file_event) false in
         ret (indexed_or_skipped result)
     | Some old =>
         let* existing_doc :=
           World.lift (DocumentQueries.get_document_by_path old) in
         match existing_doc with
         | Some _ =>
             let* _ := DocumentQueries.getattr "update_document_path" in
             (* [update_document_path] is looked up before it is called;
                what follows the call is reached only if the lookup
                succeeds *)
             let* _ := _index_document (file_path file_event) true in
             ret (Some "moved")
         | None =>
             let* result := _index_document (file_path file_event) false in
             ret (indexed_or_skipped result)
         end
     end)
    (fun _ => ret None).

(** [FileWatcher._handle_file_event] with the watcher's own handlers. *)
Definition _handle_file_event
  (call_doc_queries : string -> string -> M World.t bool)
  (file_event : FileEvent) (w : FileWatcher.t) : FileWatcher.t :=
  FileWatcher._handle_file_event has_database_manager call_doc_queries
    _handle_file_created _handle_file_modified _handle_file_moved
    file_event w.

End Handlers.

End WatcherIndexing.

(** ** The event handler in batch mode *)

(** [config.batch_processing] is on by default: events are collected per
    path and handed to the callback together, [batch_delay_ms] after the
    batch task was started. The callback is taken to run to completion
    before the loop runs anything else. *)
Module Batching.

Import EventHandler.

(** [self._batch_task]: not yet created, created and waiting for its first
    step, asleep until [wake], or done. *)
Inductive batch_task : Type :=
| NoTask
| Scheduled
| Asleep (wake : Z)
| Finished.

Record t : Type := mk {
  now : Z;
  _batch_events : dict FileEvent;
  _batch_task : batch_task;
  (** calls of [event_callback], with the loop time of the call *)
  dispatched : list (Z * FileEvent)
}.

Definition init : t := mk 0 [] NoTask [].

(** [_handle_with_batching] *)
Definition _handle_with_batching (file_event : FileEvent) (s : t) : t :=
  mk (now s)
     (dict_set (_batch_events s) (file_path file_event) file_event)
     (match _batch_task s with
      | NoTask | Finished => Scheduled
      | Scheduled => Scheduled
      | Asleep w => Asleep w
      end)
     (dispatched s).

Section Loop.

(** [config.batch_delay_ms] *)
Variable batch_delay_ms : Z.

(** The first step of a new batch task: [await asyncio.sleep(...)]. *)
Definition run_ready (s : t) : t :=
  match _batch_task s with
  | Scheduled =>
      mk (now s) (_batch_events s) (Asleep (now s + batch_delay_ms))
         (dispatched s)
  | _ => s
  end.

(** [_process_batch] once its sleep is over: the events in the order of
    the dictionary, which is then empty. *)
Definition _process_batch (s : t) : t :=
  mk (now s) [] Finished
     (dispatched s ++ map (fun kv => (now s, snd kv)) (_batch_events s)).

(** Time passes until [limit]; the batch task wakes if its timer is due. *)
Definition advance_to (limit : Z) (s : t) : t :=
  let s :=
    match _batch_task s with
    | Asleep w =>
        if w <=? limit then
          _process_batch
            (mk (Z.max (now s) w) (_batch_events s) (_batch_task s)
                (dispatched s))
        else s
    | _ => s
    end in
  mk (Z.max (now s) limit) (_batch_events s) (_batch_task s) (dispatched s).

(** Events that reach [_handle_event_async] at loop time [at_ms]. *)
Definition arrive (s : t) (batch : Z * list FileEvent) : t :=
  run_ready
    (fold_left (fun s e => _handle_with_batching e s) (snd batch)
       (advance_to (fst batch) s)).

Definition run (schedule : list (Z * list FileEvent)) (horizon : Z) : t :=
  advance_to horizon (fold_left arrive schedule init).

End Loop.

(** The dictionary a sequence of events leaves: one entry per path, in the
    order the paths first occurred, holding the path's last event. *)
Definition collected (events : list FileEvent) (start : dict FileEvent)
  : dict FileEvent :=
  fold_left (fun d e => dict_set d (file_path e) e) events start.

End Batching.

(** ** What a schema asks of a call, in its own words *)

(** Written from the meaning of the schema keywords, not from the
    validator: these are what [validate_parameters] is compared with. *)
Module Accepts.

Import Tool.

(** The type names the validator knows. *)
Definition known_types : list string :=
  ["string"; "number"; "integer"; "boolean"; "array"; "object"; "null"].

(** A value has a declared type: a Python [bool] is also an [int], so it
    passes for [integer] and [number]; a type name outside the seven is
    not checked. *)
Inductive has_type : Value.t -> string -> Prop :=
| string_is_str (s : string) : has_type (VStr s) "string"
| number_is_int (z : Z) : has_type (VInt z) "number"
| number_is_float (q : Q) : has_type (VFloat q) "number"
| number_is_bool (b : bool) : has_type (VBool b) "number"
| integer_is_int (z : Z) : has_type (VInt z) "integer"
| integer_is_bool (b : bool) : has_type (VBool b) "integer"
| boolean_is_bool (b : bool) : has_type (VBool b) "boolean"
| array_is_list (l : list Value.t) : has_type (VList l) "array"
| object_is_dict (d : list (string * Value.t)) : has_type (VDict d) "object"
| null_is_none : has_type VNone "null"
| unknown_type_name (v : Value.t) (t : string) :
    ~ In t known_types -> has_type v t.

(** The number a value stands for in a comparison, if it is one. *)
Inductive number_of : Value.t -> Q -> Prop :=
| number_of_int (z : Z) : number_of (VInt z) (inject_Z z)
| number_of_float (q : Q) : number_of (VFloat q) q
| number_of_true : number_of (VBool true) 1
| number_of_false : number_of (VBool false) 0.

(** A value meets the limits a property declares: length limits bind
    strings, [minimum] and [maximum] bind numbers, item counts bind
    arrays. The [enum] of the property plays no part. *)
Definition within_limits (v : Value.t) (p : prop) : Prop :=
  (forall s, v = VStr s ->
     (forall n, minLength p = Some n -> n <= len s)
     /\ (forall n, maxLength p = Some n -> len s <= n))
  /\ (forall x, number_of v x ->
        (forall n, minimum p = Some n -> (inject_Z n <= x)%Q)
        /\ (forall n, maximum p = Some n -> (x <= inject_Z n)%Q))
  /\ (forall l, v = VList l ->
        (forall n, minItems p = Some n -> n <= Z.of_nat (length l))
        /\ (forall n, maxItems p = Some n -> Z.of_nat (length l) <= n)).

(** A call is acceptable: every required field is given, and every given
    parameter that the schema declares has the declared type and meets
    the declared limits. *)
Definition acceptable (s : schema) (params : dict Value.t) : Prop :=
  (forall f, In f (required s) -> exists v, In (f, v) params)
  /\ (forall k v p,
        In (k, v) params -> dict_get (properties s) k = Some p ->
        (forall t, type p = Some t -> has_type v t)
        /\ within_limits v p).

(** A check that fails does so with a [ToolValidationError]. *)
Definition raises_validation_error_only (r : res unit) : Prop :=
  forall e, r = Raise e -> exists msg, e = ToolValidationError msg.

End Accepts.

(** ** Debouncing when the callback takes time *)

(** [EventHandler] takes [event_callback] to return at once. Here the
    callback of an event suspends and returns [callback_ms] later, as one
    that awaits the database does; while it is awaited the task is still
    registered in [_debounce_tasks] and can be cancelled. *)
Module TimedHandler.

Inductive status : Type :=
| Fresh
| Sleeping (wake : Z)
| SleepOver
| InCallback (finish : Z)
| CallbackOver
| Done.

Record task : Type := mkTask {
  tid : Z;
  file_key : string;
  state : status;
  must_cancel : bool
}.

Record t : Type := mk {
  (** loop time in milliseconds *)
  now : Z;
  _pending_events : dict EventHandler.FileEvent;
  (** [_debounce_tasks]: path to task identity *)
  _debounce_tasks : dict Z;
  (** every task ever created *)
  tasks : list task;
  (** the loop's queue of scheduled task steps *)
  ready : list Z;
  next_tid : Z;
  (** calls of [event_callback], with the loop time of the call *)
  dispatched : list (Z * EventHandler.FileEvent)
}.

Definition init : t := mk 0 [] [] [] [] 1 [].

Definition update_task (f : task -> task) (i : Z) (l : list task)
  : list task :=
  map (fun k => if tid k =? i then f k else k) l.

Definition find_task (i : Z) (l : list task) : option task :=
  List.find (fun k => tid k =? i) l.

(** [Task.cancel()]: a task that waits is woken with the request set; a
    task that is already scheduled keeps its place. *)
Definition cancel (i : Z) (s : t) : t :=
  match find_task i (tasks s) with
  | Some k =>
      match state k with
      | Done => s
      | Fresh | SleepOver | CallbackOver =>
          mk (now s) (_pending_events s) (_debounce_tasks s)
             (update_task (fun k => mkTask (tid k) (file_key k) (state k) true)
                          i (tasks s))
             (ready s) (next_tid s) (dispatched s)
      | Sleeping _ =>
          mk (now s) (_pending_events s) (_debounce_tasks s)
             (update_task (fun k => mkTask (tid k) (file_key k) SleepOver true)
                          i (tasks s))
             (ready s ++ [i]) (next_tid s) (dispatched s)
      | InCallback _ =>
          mk (now s) (_pending_events s) (_debounce_tasks s)
             (update_task
                (fun k => mkTask (tid k) (file_key k) CallbackOver true)
                i (tasks s))
             (ready s ++ [i]) (next_tid s) (dispatched s)
      end
  | None => s
  end.

(** [_handle_with_debouncing] *)
Definition _handle_with_debouncing (file_event : EventHandler.FileEvent)
  (s : t) : t :=
  let file_key := EventHandler.file_path file_event in
  let s :=
    match dict_get (_debounce_tasks s) file_key with
    | Some i => cancel i s
    | None => s
    end in
  let i := next_tid s in
  mk (now s)
     (dict_set (_pending_events s) file_key file_event)
     (dict_set (_debounce_tasks s) file_key i)
     (tasks s ++ [mkTask i file_key Fresh false])
     (ready s ++ [i])
     (i + 1)
     (dispatched s).

Section Loop.

(** [config.debounce_delay_ms] and the time the callback of an event
    takes to return. *)
Variable debounce_delay_ms : Z.
Variable callback_ms : EventHandler.FileEvent -> Z.

Definition set_state (i : Z) (st : status) (s : t) : t :=
  mk (now s) (_pending_events s) (_debounce_tasks s)
     (update_task (fun k => mkTask (tid k) (file_key k) st false) i (tasks s))
     (ready s) (next_tid s) (dispatched s).

(** The [finally:] of [_debounced_process], which ends the task. *)
Definition finally (i : Z) (key : string) (s : t) : t :=
  let s := set_state i Done s in
  mk (now s) (_pending_events s) (dict_del (_debounce_tasks s) key)
     (tasks s) (ready s) (next_tid s) (dispatched s).

(** The [except asyncio.CancelledError:] branch, then [finally:]. *)
Definition cancelled (i : Z) (key : string) (s : t) : t :=
  let s := finally i key s in
  mk (now s) (dict_del (_pending_events s) key) (_debounce_tasks s)
     (tasks s) (ready s) (next_tid s) (dispatched s).

(** One scheduled step of the task running [_debounced_process]. *)
Definition step (s : t) (i : Z) : t :=
  match find_task i (tasks s) with
  | None => s
  | Some k =>
      match state k, must_cancel k with
      | Fresh, true =>
          (* cancelled before the first step: the body is never entered *)
          set_state i Done s
      | Fresh, false =>
          (* [await asyncio.sleep(debounce_delay_ms / 1000.0)] *)
          set_state i (Sleeping (now s + debounce_delay_ms)) s
      | SleepOver, true => cancelled i (file_key k) s
      | SleepOver, false =>
          match dict_get (_pending_events s) (file_key k) with
          | Some event =>
              (* pop the event and [await] the callback *)
              let s := set_state i (InCallback (now s + callback_ms event))
                         s in
              mk (now s) (dict_del (_pending_events s) (file_key k))
                 (_debounce_tasks s) (tasks s) (ready s) (next_tid s)
                 (dispatched s ++ [(now s, event)])
          | None => finally i (file_key k) s
          end
      | CallbackOver, true =>
          (* [CancelledError] is not an [Exception]: it passes
             [_process_single_event] and reaches the clean-up *)
          cancelled i (file_key k) s
      | CallbackOver, false => finally i (file_key k) s
      | _, _ => s
      end
  end.

(** The loop runs the steps that are scheduled, first come first served. *)
Definition run_ready (s : t) : t :=
  fold_left step (ready s)
    (mk (now s) (_pending_events s) (_debounce_tasks s) (tasks s) []
        (next_tid s) (dispatched s)).

(** When a task's wait ends, if it waits. *)
Definition due (k : task) : option Z :=
  match state k with
  | Sleeping w => Some w
  | InCallback f => Some f
  | _ => None
  end.

(** The waiting task whose time comes first, not later than [limit]. *)
Definition next_timer (limit : Z) (l : list task) : option (Z * Z) :=
  fold_left
    (fun best k =>
       match due k with
       | Some w =>
           if w <=? limit then
             match best with
             | Some (_, wb) => if w <? wb then Some (tid k, w) else best
             | None => Some (tid k, w)
             end
           else best
       | None => best
       end)
    l None.

(** The end of a wait: the task is scheduled again. *)
Definition wake (k : task) : task :=
  mkTask (tid k) (file_key k)
    (match state k with
     | Sleeping _ => SleepOver
     | InCallback _ => CallbackOver
     | st => st
     end)
    (must_cancel k).

(** Time passes until [limit]: each wait that ends schedules its task,
    and the loop runs it. *)
Fixpoint advance (fuel : nat) (limit : Z) (s : t) : t :=
  match fuel with
  | O => s
  | S fuel' =>
      match next_timer limit (tasks s) with
      | Some (i, w) =>
          let s :=
            mk (Z.max (now s) w) (_pending_events s) (_debounce_tasks s)
               (update_task wake i (tasks s))
               (ready s ++ [i]) (next_tid s) (dispatched s) in
          advance fuel' limit (run_ready s)
      | None =>
          mk (Z.max (now s) limit) (_pending_events s) (_debounce_tasks s)
             (tasks s) (ready s) (next_tid s) (dispatched s)
      end
  end.

(** A task waits at most twice: for its sleep and for its callback. *)
Definition advance_to (limit : Z) (s : t) : t :=
  advance (S (2 * length (tasks s))) limit s.

(** Events that reach [_handle_event_async] at loop time [at_ms]. *)
Definition arrive (s : t) (batch : Z * list EventHandler.FileEvent) : t :=
  let s := advance_to (fst batch) s in
  run_ready (fold_left (fun s e => _handle_with_debouncing e s) (snd batch) s).

Definition run (schedule : list (Z * list EventHandler.FileEvent))
  (horizon : Z) : t :=
  advance_to horizon (fold_left arrive schedule init).

End Loop.

End TimedHandler.

(** * Properties *)

(** ** Test vectors for the hash *)

Example sha256_abc :
  Sha256.sha256_hexdigest "abc"
  = "ba7816bf8f01cfea414140de5dae2223b00361a396177a9cb410ff61f20015ad".
Proof. vm_compute. reflexivity. Qed.

Example sha256_empty :
  Sha256.sha256_hexdigest ""
  = "e3b0c44298fc1c149afbf4c8996fb92427ae41e4649b934ca495991b7852b855".
Proof. vm_compute. reflexivity. Qed.

Example sha256_e_acute :
  Sha256.sha256_hexdigest (String "233"%char "")
  = "4a99557e4033c3539de2eb65472017cad5f9557f7a0625a09f1c3f6e2ba69c4c".
Proof. vm_compute. reflexivity. Qed.

Example sha256_two_blocks :
  Sha256.sha256_hexdigest
    "abcdefghijabcdefghijabcdefghijabcdefghijabcdefghijabcdefghijabcdefghij"
  = "09c5762716987437d6ffac0a8381677a75c2a4b50be41c4ff701bd570d33e06a".
Proof. vm_compute. reflexivity. Qed.

Example sha256_56 :
  Sha256.sha256_hexdigest
    "aaaaaaaaaaaaaaaaaaaaaaaaaaaaaaaaaaaaaaaaaaaaaaaaaaaaaaaa"
  = "b35439a4ac6f0948b6d6f9e3c6af0f5f590ce20f1bde7090ef7970686ec6738a".
Proof. vm_compute. reflexivity. Qed.

Example md5_abc :
  Md5.md5_hexdigest "abc" = "900150983cd24fb0d6963f7d28e17f72".
Proof. vm_compute. reflexivity. Qed.

Example md5_empty :
  Md5.md5_hexdigest "" = "d41d8cd98f00b204e9800998ecf8427e".
Proof. vm_compute. reflexivity. Qed.

Example md5_two_blocks :
  Md5.md5_hexdigest
    "abcdefghijabcdefghijabcdefghijabcdefghijabcdefghijabcdefghijabcdefghij"
  = "0685f59b785d52bc7296c4a06fc43315".
Proof. vm_compute. reflexivity. Qed.

(** ** Generic facts *)

Lemma filter_filter_negb {A} (p : A -> bool) (l : list A) :
  List.filter p (List.filter (fun x => negb (p x)) l) = [].
Proof.
  induction l as [|x l IH]; simpl; [reflexivity|].
  destruct (p x) eqn:E; simpl; [exact IH|].
  rewrite E. exact IH.
Qed.

Lemma existsb_filter_negb {A} (p : A -> bool) (l : list A) :
  existsb p (List.filter (fun x => negb (p x)) l) = false.
Proof.
  induction l as [|x l IH]; simpl; [reflexivity|].
  destruct (p x) eqn:E; simpl; [exact IH|].
  rewrite E. exact IH.
Qed.

(** ** The inverted index: relevance *)

(** Where the keyword is the whole document the score is above one,
    whatever its frequency. *)
Lemma relevance_single_keyword (f : Z) :
  0 < f -> (1 < SearchIndex.relevance f f)%Q.
Proof.
  intros Hf. unfold SearchIndex.relevance.
  destruct (Z.eqb_spec f 0) as [->|Hne]; [lia|].
  assert (Hq : (0 < inject_Z f)%Q)
    by (change (inject_Z 0 < inject_Z f)%Q; rewrite <- Zlt_Qlt; exact Hf).
  assert (Htf : (inject_Z f / inject_Z f == 1)%Q).
  { field. intro H. rewrite H in Hq. apply (Qlt_irrefl 0). exact Hq. }
  rewrite Htf.
  assert (Hb : (0 < Qmin 1 (inject_Z f / 5))%Q).
  { destruct (Q.min_spec 1 (inject_Z f / 5)) as [[_ ->]|[_ ->]].
    - reflexivity.
    - apply Qlt_shift_div_l; [reflexivity|]. rewrite Qmult_0_l. exact Hq. }
  rewrite Qmult_1_l.
  rewrite <- (Qplus_0_r 1) at 1.
  apply Qplus_lt_r. exact Hb.
Qed.

(** The score of a well-spread document, for comparison: three keywords
    once each among three words. *)
Example relevance_three_words :
  map (fun e => (SearchIndex.keyword e, Qred (SearchIndex.relevance_score e)))
      (DocumentManager.search_entries 1 "alpha beta gamma")
  = [("alpha", 2 # 5); ("beta", 2 # 5); ("gamma", 2 # 5)]%Q.
Proof. vm_compute. reflexivity. Qed.

(** C1. The score is computed by the stated formula but it is not clamped:
    for the document "foo foo foo foo foo" the one entry built has
    frequency 5 among 5 words and relevance 1.0 * (1 + 1.0) = 2, it fails
    the CHECK of the [search_index] table, the bulk insert is rolled back
    and, the error being swallowed, the document is stored with no index
    entry at all. *)
Theorem relevance_score_exceeds_one :
  forall now : DocumentManager.stamps,
    (SearchIndex.relevance 5 5 == 2)%Q
    /\ map (fun e => (SearchIndex.keyword e, SearchIndex.frequency e,
                      Qred (SearchIndex.relevance_score e),
                      Db.check_search_index e))
           (DocumentManager.search_entries 1 "foo foo foo foo foo")
       = [("foo", 5, 2%Q, false)]
    /\ (let '(r, s) :=
          DocumentManager.index_document "/tmp/a.txt" "foo foo foo foo foo"
            [] true now Db.empty in
        r = Ok (Some 1)
        /\ map Document.id (Db.documents s) = [Some 1]
        /\ Db.search_index s = []).
Proof.
  intros now. split; [reflexivity|]. split; [vm_compute; reflexivity|].
  vm_compute. auto.
Qed.

(** ** The store: deletion *)

(** C7. For a document present in the store, [delete_document] succeeds
    and afterwards no row of [document_metadata] and no row of
    [search_index] references its id (nor does a document row carry it). *)
Theorem delete_document_leaves_no_rows :
  forall (document_id now : Z) (s : Db.t),
    Db.document_exists s document_id = true ->
    exists s',
      DocumentManager.delete_document document_id now s = (Ok true, s')
      /\ List.filter (fun m => DocumentMetadata.document_id m =? document_id)
                     (Db.document_metadata s') = []
      /\ List.filter (fun e => SearchIndex.document_id e =? document_id)
                     (Db.search_index s') = []
      /\ Db.document_exists s' document_id = false.
Proof.
  intros i now s Hex. destruct s as [docs mds idx cache q1 q2 q3 q4].
  unfold Db.document_exists in Hex. cbn [Db.documents] in Hex.
  cbv [DocumentManager.delete_document try_except bind ret
       SearchQueries.delete_search_index_for_document
       MetadataQueries.delete_document_metadata
       DocumentQueries.delete_document Db.transaction
       Db.delete_search_index_rows Db.delete_metadata_rows
       Db.delete_document_row Db.set_search_index
       Db.set_document_metadata Db.document_exists Db.documents
       Db.document_metadata Db.search_index Db.search_cache
       Db.seq_documents Db.seq_document_metadata Db.seq_search_index
       Db.seq_search_cache].
  rewrite Hex. cbn [negb]. change (0 <? 1) with true. cbv iota beta.
  cbv [DocumentManager._invalidate_search_cache try_except bind ret
       SearchQueries.cleanup_expired_cache Db.transaction
       Db.set_search_cache Db.documents Db.document_metadata
       Db.search_index Db.search_cache Db.seq_documents
       Db.seq_document_metadata Db.seq_search_index Db.seq_search_cache].
  eexists. split; [reflexivity|].
  split; [|split].
  - apply (filter_filter_negb
             (fun m => DocumentMetadata.document_id m =? i)).
  - apply (filter_filter_negb (fun e => SearchIndex.document_id e =? i)).
  - apply (existsb_filter_negb (fun d => Db.id_is i (Document.id d))).
Qed.

Lemma delete_document_leaves_no_rows_witness :
  Db.document_exists Demo.store 1 = true
  /\ exists s',
      DocumentManager.delete_document 1 200 Demo.store = (Ok true, s')
      /\ List.filter (fun m => DocumentMetadata.document_id m =? 1)
                     (Db.document_metadata s') = []
      /\ List.filter (fun e => SearchIndex.document_id e =? 1)
                     (Db.search_index s') = []
      /\ Db.document_exists s' 1 = false.
Proof.
  split; [vm_compute; reflexivity|].
  apply (delete_document_leaves_no_rows 1 200 Demo.store).
  vm_compute. reflexivity.
Defined.

(** ** The watcher: deleted files *)

(** [DocumentQueries] has no attribute of that name. *)
Lemma delete_document_by_path_missing {St} (s : St) :
  DocumentQueries.getattr "delete_document_by_path" s
  = (Raise (AttributeError "delete_document_by_path"), s).
Proof. reflexivity. Qed.

(** C2. With a database manager in place, the handler of a 'deleted' event
    looks up [delete_document_by_path] on the document queries, which do
    not have it: the [AttributeError] is caught inside the handler, which
    answers [None]; the store is left as it was, whatever documents it
    holds, and no counter of the watcher moves, neither [files_deleted]
    nor [indexing_errors]. *)
Theorem deleted_event_removes_nothing :
  forall (call : string -> string -> M World.t bool)
         (created modified moved :
            EventHandler.FileEvent -> M World.t (option string))
         (path : string) (old : option string) (ts : Z) (dir : bool)
         (w : FileWatcher.t),
    let ev := EventHandler.mkEvent "deleted" path old ts dir in
    FileWatcher._handle_file_deleted true call ev (FileWatcher.world w)
    = (Ok None, FileWatcher.world w)
    /\ FileWatcher._handle_file_event true call created modified moved ev w
       = w.
Proof.
  intros call created modified moved path old ts dir [world st] ev.
  split; reflexivity.
Qed.

(** The same event on a store that holds the document: it is still there
    afterwards. *)
Example deleted_event_on_indexed_path :
  forall call created modified moved,
    let w := FileWatcher.mk (World.mk Demo.store []) FileWatcher.stats0 in
    let w' :=
      FileWatcher._handle_file_event true call created modified moved
        (EventHandler.mkEvent "deleted" "/tmp/a.md" None 300 false) w in
    map Document.file_path (Db.documents (World.db (FileWatcher.world w')))
    = ["/tmp/a.md"]
    /\ FileWatcher.watcher_stats w' = FileWatcher.stats0.
Proof. intros. split; vm_compute; reflexivity. Qed.

(** ** The watcher: debouncing *)

Ltac loop_cbv :=
  cbv -[Z.leb Z.ltb Z.max Z.add String.eqb];
  change (1 + 1) with 2; change (2 + 1) with 3; change (3 + 1) with 4;
  rewrite ?String.eqb_refl.

Section Debounce.

Import EventHandler.

Lemma advance_idle (d : Z) (fuel : nat) (limit : Z) (s : t) :
  next_timer limit (tasks s) = None ->
  advance d (S fuel) limit s
  = mk (Z.max (now s) limit) (_pending_events s) (_debounce_tasks s)
       (tasks s) (ready s) (next_tid s) (dispatched s).
Proof. intros H. simpl. rewrite H. reflexivity. Qed.

Lemma advance_fire (d : Z) (fuel : nat) (limit : Z) (s : t) (i w : Z) :
  next_timer limit (tasks s) = Some (i, w) ->
  advance d (S fuel) limit s
  = advance d fuel limit
      (run_ready d
         (mk (Z.max (now s) w) (_pending_events s) (_debounce_tasks s)
             (update_task
                (fun k => mkTask (tid k) (file_key k) Woken (must_cancel k))
                i (tasks s))
             (ready s ++ [i]) (next_tid s) (dispatched s))).
Proof. intros H. simpl. rewrite H. reflexivity. Qed.

Lemma first_arrival (d t : Z) (e : FileEvent) :
  0 <= t ->
  arrive d init (t, [e])
  = mk t [(file_path e, e)] [(file_path e, 1)]
       [mkTask 1 (file_path e) (Sleeping (t + d)) false] [] 2 [].
Proof.
  intros Ht. assert (E1 : Z.max 0 t = t) by lia.
  unfold arrive. loop_cbv. rewrite E1. reflexivity.
Qed.

Lemma second_arrival_cancels (d t1 t2 : Z) (p : string) (e1 e2 : FileEvent) :
  t1 < t2 -> t2 < t1 + d ->
  file_path e2 = p ->
  arrive d
    (mk t1 [(p, e1)] [(p, 1)] [mkTask 1 p (Sleeping (t1 + d)) false] [] 2 [])
    (t2, [e2])
  = mk t2 [] []
       [mkTask 1 p Done false; mkTask 2 p (Sleeping (t2 + d)) false] [] 3 [].
Proof.
  intros H12 H2 <-.
  assert (E2 : Z.max t1 t2 = t2) by lia.
  assert (E3 : (t1 + d <=? t2) = false) by (apply Z.leb_gt; lia).
  unfold arrive, advance_to. cbn [fst snd tasks length].
  rewrite advance_idle
    by (unfold next_timer; cbn [tasks fold_left state]; rewrite E3;
        reflexivity).
  cbn [now _pending_events _debounce_tasks tasks ready next_tid dispatched
       fold_left]. rewrite E2.
  unfold _handle_with_debouncing.
  cbn [_debounce_tasks dict_get file_path]. rewrite String.eqb_refl.
  loop_cbv.
  reflexivity.
Qed.

(** One event alone is dispatched once, a debounce delay later. *)
Lemma debounce_single_event (d t horizon : Z) (e : EventHandler.FileEvent) :
  0 < d -> 0 <= t -> t + d <= horizon ->
  EventHandler.dispatched (EventHandler.run d [(t, [e])] horizon)
  = [(t + d, e)].
Proof.
  intros Hd Ht Hh. unfold run. cbn [fold_left].
  rewrite (first_arrival d t e Ht).
  unfold advance_to. cbn [tasks length].
  rewrite (advance_fire d _ horizon _ 1 (t + d))
    by (unfold next_timer; cbn [tasks fold_left state tid];
        rewrite (proj2 (Z.leb_le _ _) Hh); reflexivity).
  loop_cbv. replace (Z.max t (t + d)) with (t + d) by lia. reflexivity.
Qed.

(** Events handled back to back, before the loop runs the first task:
    the earlier task is cancelled before it starts, and the last event is
    dispatched once. *)
Lemma debounce_burst_of_two (d t horizon : Z) (p ty1 ty2 : string)
  (ts1 ts2 : Z) :
  0 < d -> 0 <= t -> t + d <= horizon ->
  EventHandler.dispatched
    (EventHandler.run d
       [(t, [EventHandler.mkEvent ty1 p None ts1 false;
             EventHandler.mkEvent ty2 p None ts2 false])] horizon)
  = [(t + d, EventHandler.mkEvent ty2 p None ts2 false)].
Proof.
  intros Hd Ht Hh. unfold run. cbn [fold_left].
  assert (A : arrive d init
                (t, [mkEvent ty1 p None ts1 false;
                     mkEvent ty2 p None ts2 false])
              = mk t [(p, mkEvent ty2 p None ts2 false)] [(p, 2)]
                   [mkTask 1 p Done false;
                    mkTask 2 p (Sleeping (t + d)) false] [] 3 []).
  { unfold arrive, advance_to, init. cbn [fst snd tasks length].
    rewrite advance_idle by reflexivity.
    cbn [now _pending_events _debounce_tasks tasks ready next_tid
         dispatched fold_left]. rewrite Z.max_r by lia.
    unfold _handle_with_debouncing at 2.
    cbn [_debounce_tasks dict_get file_path now _pending_events tasks ready
         next_tid dispatched dict_set app].
    change (1 + 1) with 2.
    unfold _handle_with_debouncing.
    cbn [_debounce_tasks dict_get file_path]. rewrite String.eqb_refl.
    loop_cbv. reflexivity. }
  rewrite A. unfold advance_to. cbn [tasks length].
  rewrite (advance_fire d _ horizon _ 2 (t + d))
    by (unfold next_timer; cbn [tasks fold_left state tid];
        rewrite (proj2 (Z.leb_le _ _) Hh); reflexivity).
  loop_cbv. replace (Z.max t (t + d)) with (t + d) by lia. reflexivity.
Qed.

End Debounce.

(** C5. Two events on one path, the second arriving while the first
    task sleeps (less than the debounce delay later): the cancelled task's
    [except CancelledError] branch pops the pending entry, which by then is
    the second event, and its [finally] branch unregisters the second task;
    when the second timer fires nothing is pending. No dispatch ever
    occurs, whatever the horizon. *)
Theorem debounce_two_spaced_events_dispatch_nothing :
  forall (d t1 t2 horizon : Z) (p ty1 ty2 : string) (ts1 ts2 : Z),
    0 < d -> 0 <= t1 -> t1 < t2 -> t2 < t1 + d ->
    EventHandler.dispatched
      (EventHandler.run d
         [(t1, [EventHandler.mkEvent ty1 p None ts1 false]);
          (t2, [EventHandler.mkEvent ty2 p None ts2 false])]
         horizon)
    = [].
Proof.
  intros d t1 t2 horizon p ty1 ty2 ts1 ts2 Hd H1 H12 H2.
  unfold EventHandler.run. cbn [fold_left].
  rewrite (first_arrival d t1 _ H1). cbn [EventHandler.file_path].
  rewrite (second_arrival_cancels d t1 t2 p
             (EventHandler.mkEvent ty1 p None ts1 false)
             (EventHandler.mkEvent ty2 p None ts2 false) H12 H2 eq_refl).
  unfold EventHandler.advance_to. cbn [EventHandler.tasks length].
  destruct (Z.leb_spec (t2 + d) horizon) as [Hh|Hh].
  - rewrite (advance_fire d _ horizon _ 2 (t2 + d))
      by (unfold EventHandler.next_timer;
          cbn [EventHandler.tasks fold_left EventHandler.state
               EventHandler.tid];
          rewrite (proj2 (Z.leb_le _ _) Hh); reflexivity).
    loop_cbv. reflexivity.
  - rewrite advance_idle
      by (unfold EventHandler.next_timer;
          cbn [EventHandler.tasks fold_left EventHandler.state
               EventHandler.tid];
          rewrite (proj2 (Z.leb_gt _ _) Hh); reflexivity).
    reflexivity.
Qed.

Lemma debounce_two_spaced_events_dispatch_nothing_witness :
  EventHandler.dispatched
    (EventHandler.run 500
       [(0, [EventHandler.mkEvent "created" "/tmp/c.md" None 0 false]);
        (100, [EventHandler.mkEvent "modified" "/tmp/c.md" None 100 false])]
       5000)
  = [].
Proof.
  apply (debounce_two_spaced_events_dispatch_nothing
           500 0 100 5000 "/tmp/c.md" "created" "modified" 0 100); lia.
Defined.

(** Three spaced events: the third is dispatched, by the second task, a
    delay after the second event rather than after the third. *)
Example debounce_three_spaced_events :
  EventHandler.dispatched
    (EventHandler.run 500
       [(0, [EventHandler.mkEvent "created" "/tmp/c.md" None 0 false]);
        (100, [EventHandler.mkEvent "modified" "/tmp/c.md" None 100 false]);
        (200, [EventHandler.mkEvent "modified" "/tmp/c.md" None 200 false])]
       5000)
  = [(600, EventHandler.mkEvent "modified" "/tmp/c.md" None 200 false)].
Proof. vm_compute. reflexivity. Qed.

(** Four spaced events: again nothing. *)
Example debounce_four_spaced_events :
  EventHandler.dispatched
    (EventHandler.run 500
       [(0, [EventHandler.mkEvent "created" "/tmp/c.md" None 0 false]);
        (100, [EventHandler.mkEvent "modified" "/tmp/c.md" None 100 false]);
        (200, [EventHandler.mkEvent "modified" "/tmp/c.md" None 200 false]);
        (300, [EventHandler.mkEvent "modified" "/tmp/c.md" None 300 false])]
       5000)
  = [].
Proof. vm_compute. reflexivity. Qed.

(** ** Dictionaries *)

Lemma dict_get_set {V} (d : dict V) (k x : string) (v : V) :
  dict_get (dict_set d k v) x
  = if String.eqb k x then Some v else dict_get d x.
Proof.
  induction d as [|[k' v'] d IH]; simpl.
  - destruct (String.eqb k x); reflexivity.
  - destruct (String.eqb_spec k' k) as [->|Hne]; simpl.
    + destruct (String.eqb k x); reflexivity.
    + rewrite IH. destruct (String.eqb_spec k' x) as [->|Hne'].
      * destruct (String.eqb_spec k x) as [->|_]; [congruence|reflexivity].
      * reflexivity.
Qed.

Lemma dict_get_set_eq {V} (d : dict V) (k : string) (v : V) :
  dict_get (dict_set d k v) k = Some v.
Proof. rewrite dict_get_set, String.eqb_refl. reflexivity. Qed.

Lemma dict_get_set_ne {V} (d : dict V) (k x : string) (v : V) :
  k <> x -> dict_get (dict_set d k v) x = dict_get d x.
Proof.
  intros H. rewrite dict_get_set.
  destruct (String.eqb_spec k x); [contradiction|reflexivity].
Qed.

Lemma dict_get_none_notin {V} (d : dict V) (k : string) :
  k ∉ map fst d -> dict_get d k = None.
Proof.
  induction d as [|[k' v'] d IH]; simpl; [reflexivity|].
  intros H. apply not_elem_of_cons in H as [Hne Hnotin].
  destruct (String.eqb_spec k' k) as [->|_]; [contradiction|].
  apply IH. exact Hnotin.
Qed.

Lemma dict_del_keys {V} (d : dict V) (k x : string) :
  x ∈ map fst (dict_del d k) -> x ∈ map fst d.
Proof.
  induction d as [|[k' v'] d IH]; simpl; [trivial|].
  destruct (String.eqb k' k).
  - intros H. apply elem_of_cons. right. exact H.
  - simpl. intros H. apply elem_of_cons in H as [->|H];
      apply elem_of_cons; [left; reflexivity|right; apply IH; exact H].
Qed.

Lemma dict_get_del_ne {V} (d : dict V) (k x : string) :
  k <> x -> dict_get (dict_del d k) x = dict_get d x.
Proof.
  intros Hne. induction d as [|[k' v'] d IH]; simpl; [reflexivity|].
  destruct (String.eqb_spec k' k) as [->|Hk]; simpl.
  - destruct (String.eqb_spec k x); [contradiction|reflexivity].
  - rewrite IH. reflexivity.
Qed.

Lemma dict_has_del_ne {V} (d : dict V) (k x : string) :
  k <> x -> dict_has (dict_del d k) x = dict_has d x.
Proof. intros H. unfold dict_has. rewrite dict_get_del_ne by exact H. reflexivity. Qed.

(** ** Parameter validation *)

Section Validation.

Import Tool.

(** The second loop either stops at the first parameter that fails its
    checks or copies every parameter, in order, into the result. *)
Lemma validate_items_ok (props : dict prop) (items acc : dict Value.t) :
  Forall (fun kv => validate_one props (fst kv) (snd kv) = Ok tt) items ->
  validate_items props items acc
  = Ok (fold_left (fun a kv => dict_set a (fst kv) (snd kv)) items acc).
Proof.
  revert acc. induction items as [|[k v] items IH]; intros acc H; simpl.
  - reflexivity.
  - inversion H as [|? ? Hk Hrest]; subst. simpl in Hk. rewrite Hk.
    apply IH. exact Hrest.
Qed.

Lemma validate_items_inv (props : dict prop) (items acc w : dict Value.t) :
  validate_items props items acc = Ok w ->
  Forall (fun kv => validate_one props (fst kv) (snd kv) = Ok tt) items.
Proof.
  revert acc. induction items as [|[k v] items IH]; intros acc H.
  - constructor.
  - simpl in H. destruct (validate_one props k v) as [[]|e] eqn:E;
      [|discriminate].
    constructor; [exact E|]. eapply IH. exact H.
Qed.

Lemma fold_set_get (items acc : dict Value.t) (x : string) :
  NoDup (map fst items) ->
  dict_get (fold_left (fun a kv => dict_set a (fst kv) (snd kv)) items acc) x
  = match dict_get items x with
    | Some y => Some y
    | None => dict_get acc x
    end.
Proof.
  revert acc. induction items as [|[k v] items IH]; intros acc Hnd; simpl.
  - reflexivity.
  - apply NoDup_cons in Hnd as [Hnotin Hnd'].
    rewrite IH by exact Hnd'. rewrite dict_get_set.
    destruct (String.eqb_spec k x) as [->|Hne].
    + rewrite (dict_get_none_notin items x Hnotin). reflexivity.
    + reflexivity.
Qed.

Lemma apply_defaults_get_congr (props : dict prop) (a1 a2 : dict Value.t)
  (x : string) :
  dict_get a1 x = dict_get a2 x ->
  dict_get (apply_defaults props a1) x = dict_get (apply_defaults props a2) x.
Proof.
  revert a1 a2. induction props as [|[p ps] props IH]; intros a1 a2 H; simpl.
  - exact H.
  - apply IH. destruct (default ps) as [v|]; [|exact H].
    destruct (String.eqb_spec p x) as [->|Hne].
    + unfold dict_has. rewrite H.
      destruct (dict_get a2 x) eqn:E2.
      * rewrite H, E2. reflexivity.
      * rewrite !dict_get_set_eq. reflexivity.
    + assert (G : forall a, dict_get
                   (if dict_has a p then a else dict_set a p v) x
                   = dict_get a x).
      { intros a. destruct (dict_has a p); [reflexivity|].
        apply dict_get_set_ne. exact Hne. }
      rewrite !G. exact H.
Qed.

Lemma apply_defaults_get_undeclared (props : dict prop) (a : dict Value.t)
  (x : string) :
  dict_get props x = None ->
  dict_get (apply_defaults props a) x = dict_get a x.
Proof.
  revert a. induction props as [|[p ps] props IH]; intros a H; simpl.
  - reflexivity.
  - simpl in H. destruct (String.eqb_spec p x) as [->|Hne]; [discriminate|].
    rewrite IH by exact H.
    destruct (default ps) as [v|]; [|reflexivity].
    destruct (dict_has a p); [reflexivity|].
    apply dict_get_set_ne. exact Hne.
Qed.

Lemma check_required_mono (required_fields : list string)
  (params : dict Value.t) (k : string) :
  check_required required_fields (dict_del params k) = Ok tt ->
  check_required required_fields params = Ok tt.
Proof.
  induction required_fields as [|f rest IH]; simpl; [reflexivity|].
  intros H. destruct (dict_has (dict_del params k) f) eqn:E; [|discriminate].
  assert (Hf : dict_has params f = true).
  { destruct (String.eqb_spec k f) as [->|Hne].
    - unfold dict_has in *.
      clear -E. induction params as [|[k' v'] params IHp]; simpl in *;
        [discriminate|].
      destruct (String.eqb_spec k' f) as [->|Hk]; [reflexivity|].
      simpl in E. destruct (String.eqb_spec k' f); [contradiction|].
      apply IHp. exact E.
    - rewrite dict_has_del_ne in E by exact Hne. exact E. }
  rewrite Hf. apply IH. exact H.
Qed.

Lemma forall_del (P : string * Value.t -> Prop) (params : dict Value.t)
  (k : string) (v : Value.t) :
  dict_get params k = Some v -> P (k, v) ->
  Forall P (dict_del params k) -> Forall P params.
Proof.
  induction params as [|[k' v'] params IH]; simpl; intros Hget Hk Hall.
  - discriminate.
  - destruct (String.eqb_spec k' k) as [->|Hne].
    + inversion Hget; subst. constructor; assumption.
    + inversion Hall; subst. constructor; [assumption|].
      apply IH; assumption.
Qed.

Lemma nodup_del (params : dict Value.t) (k : string) :
  NoDup (map fst params) -> NoDup (map fst (dict_del params k)).
Proof.
  induction params as [|[k' v'] params IH]; simpl; intros H.
  - constructor.
  - apply NoDup_cons in H as [Hnotin Hnd].
    destruct (String.eqb k' k); [exact Hnd|].
    simpl. apply NoDup_cons. split; [|apply IH; exact Hnd].
    intros Hin. apply Hnotin. eapply dict_del_keys. exact Hin.
Qed.

End Validation.

(** ** Parameter validation and the [enum] keyword *)

Section EnumKeyword.
Import Tool SchemaOps.

Lemma dict_get_without_enum (props : dict prop) (k : string) :
  dict_get (map (fun kp => (fst kp, without_enum (snd kp))) props) k
  = option_map without_enum (dict_get props k).
Proof.
  induction props as [|[p ps] props IH]; simpl; [reflexivity|].
  destruct (String.eqb p k); [reflexivity|exact IH].
Qed.

Lemma validate_one_without_enum (props : dict prop) (k : string)
  (v : Value.t) :
  validate_one (map (fun kp => (fst kp, without_enum (snd kp))) props) k v
  = validate_one props k v.
Proof.
  unfold validate_one. rewrite dict_get_without_enum.
  destruct (dict_get props k) as [ps|]; reflexivity.
Qed.

Lemma validate_items_without_enum (props : dict prop)
  (items acc : dict Value.t) :
  validate_items (map (fun kp => (fst kp, without_enum (snd kp))) props)
    items acc
  = validate_items props items acc.
Proof.
  revert acc. induction items as [|[k v] items IH]; intros acc; simpl.
  - reflexivity.
  - rewrite validate_one_without_enum.
    destruct (validate_one props k v); [apply IH|reflexivity].
Qed.

Lemma apply_defaults_without_enum (props : dict prop) (acc : dict Value.t) :
  apply_defaults (map (fun kp => (fst kp, without_enum (snd kp))) props) acc
  = apply_defaults props acc.
Proof.
  revert acc. induction props as [|[p ps] props IH]; intros acc; simpl.
  - reflexivity.
  - apply IH.
Qed.

Lemma validate_without_enums (s : schema) (params : dict Value.t) :
  validate_parameters (without_enums s) params = validate_parameters s params.
Proof.
  unfold validate_parameters, without_enums.
  cbn [required properties].
  destruct (check_required (required s) params); [|reflexivity].
  rewrite validate_items_without_enum.
  destruct (validate_items (properties s) params []); [|reflexivity].
  rewrite apply_defaults_without_enum. reflexivity.
Qed.

Lemma search_sort_by_free (q sort : string) :
  1 <= len q -> len q <= 500 ->
  validate_parameters SearchDocumentsTool.get_parameter_schema
    [("query", VStr q); ("sort_by", VStr sort)]
  = Ok [("query", VStr q); ("sort_by", VStr sort); ("limit", VInt 10);
        ("file_type", VNone)].
Proof.
  intros H1 H2.
  unfold validate_parameters, SearchDocumentsTool.get_parameter_schema.
  cbn [required properties check_required dict_has dict_get String.eqb Ascii.eqb Bool.eqb].
  cbn -[len Z.ltb str_of_Z String.append].
  unfold _validate_property_constraints, check, andthen.
  cbn -[len Z.ltb str_of_Z String.append].
  destruct (Z.ltb_spec (len q) 1); [lia|].
  destruct (Z.ltb_spec 500 (len q)); [lia|].
  reflexivity.
Qed.
End EnumKeyword.

Section AcceptsFacts.
Import Tool Accepts.

Lemma validate_type_spec (v : Value.t) (t : string) :
  _validate_type v t = true <-> has_type v t.
Proof.
  split.
  - unfold _validate_type.
    destruct (String.eqb_spec t "string") as [->|N1];
      [destruct v; try discriminate; constructor|].
    destruct (String.eqb_spec t "number") as [->|N2];
      [destruct v; try discriminate; constructor|].
    destruct (String.eqb_spec t "integer") as [->|N3];
      [destruct v; try discriminate; constructor|].
    destruct (String.eqb_spec t "boolean") as [->|N4];
      [destruct v; try discriminate; constructor|].
    destruct (String.eqb_spec t "array") as [->|N5];
      [destruct v; try discriminate; constructor|].
    destruct (String.eqb_spec t "object") as [->|N6];
      [destruct v; try discriminate; constructor|].
    destruct (String.eqb_spec t "null") as [->|N7];
      [destruct v; try discriminate; constructor|].
    intros _. apply unknown_type_name. unfold known_types. cbn [In].
    intros [H|[H|[H|[H|[H|[H|[H|[]]]]]]]]; congruence.
  - intros H. destruct H; try reflexivity.
    unfold _validate_type.
    repeat match goal with
           | |- context [String.eqb ?x ?k] =>
               destruct (String.eqb_spec x k) as [->|_];
               [exfalso; apply H; unfold known_types; cbn [In]; tauto|]
           end.
    reflexivity.
Qed.

Lemma check_ok (b : bool) (msg : string) : check b msg = Ok tt <-> b = true.
Proof. unfold check. destruct b; split; congruence. Qed.

Lemma andthen_ok (a b : res unit) :
  andthen a b = Ok tt <-> a = Ok tt /\ b = Ok tt.
Proof.
  unfold andthen. destruct a as [[]|e]; split.
  - intros H. split; [reflexivity|exact H].
  - intros [_ H]. exact H.
  - discriminate.
  - intros [H _]. discriminate.
Qed.

Lemma lower_limit_ok (o : option Z) (f : Z -> bool) (msg : Z -> string) :
  match o with Some n => check (f n) (msg n) | None => Ok tt end = Ok tt
  <-> forall n, o = Some n -> f n = true.
Proof.
  destruct o as [n|].
  - rewrite check_ok. split; [intros H m [= <-]; exact H|auto].
  - split; [discriminate|reflexivity].
Qed.

Lemma constraints_spec (k : string) (v : Value.t) (p : prop) :
  _validate_property_constraints k v p = Ok tt <-> within_limits v p.
Proof.
  unfold _validate_property_constraints, within_limits.
  rewrite !andthen_ok.
  assert (Hq : forall a b, Qle_bool a b = true <-> (a <= b)%Q)
    by (intros; apply Qle_bool_iff).
  assert (Hn : forall a b, negb (a <? b) = true <-> b <= a).
  { intros a b. rewrite negb_true_iff, Z.ltb_ge. reflexivity. }
  destruct v as [| b | z | q | s | l | d]; try destruct b;
    cbn [as_number]; rewrite ?andthen_ok, ?lower_limit_ok.
  all: split; intros H.
  all: try (repeat split; reflexivity).
  all: try (destruct H as (Hs & Hnum & Hl);
            repeat split; try reflexivity; intros n Hn0;
            first [ apply Hn; apply (Hs _ eq_refl); exact Hn0
                  | apply Hn; apply (Hl _ eq_refl); exact Hn0
                  | apply Hq;
                    match goal with
                    | |- (_ <= ?x)%Q =>
                        destruct (Hnum x ltac:(constructor)) as [A _];
                        exact (A n Hn0)
                    | |- (?x <= _)%Q =>
                        destruct (Hnum x ltac:(constructor)) as [_ B];
                        exact (B n Hn0)
                    end ]).
  all: split; [|split].
  all: try (intros ? E; discriminate E).
  all: try (intros x Hx; inversion Hx; fail).
  all: try (intros x Hx; inversion Hx; subst;
            destruct H as (_ & [A B] & _);
            split; intros n Hn0; apply Hq; auto).
  all: try (intros ? E; injection E as <-;
            first [ destruct H as ([A B] & _ & _)
                  | destruct H as (_ & _ & [A B]) ];
            split; intros n Hn0; apply Hn; auto).
Qed.

Lemma dict_has_in {V} (d : dict V) (k : string) :
  dict_has d k = true <-> exists v, In (k, v) d.
Proof.
  unfold dict_has. induction d as [|[k' v'] d IH]; cbn [dict_get In].
  - split; [discriminate|intros [v []]].
  - destruct (String.eqb_spec k' k) as [->|Hne].
    + split; [intros _; exists v'; left; reflexivity|reflexivity].
    + rewrite IH. split.
      * intros [v Hv]. exists v. right. exact Hv.
      * intros [v [Hv|Hv]]; [congruence|exists v; exact Hv].
Qed.

Lemma check_required_spec (required_fields : list string)
  (params : dict Value.t) :
  check_required required_fields params = Ok tt
  <-> forall f, In f required_fields -> exists v, In (f, v) params.
Proof.
  induction required_fields as [|f rest IH]; cbn [check_required In].
  - split; [intros _ f []|reflexivity].
  - destruct (dict_has params f) eqn:Hf.
    + rewrite IH. apply dict_has_in in Hf. split.
      * intros H g [<-|Hg]; [exact Hf|exact (H g Hg)].
      * intros H g Hg. apply H. right. exact Hg.
    + split; [discriminate|]. intros H.
      assert (Hin : dict_has params f = true)
        by (apply dict_has_in; apply H; left; reflexivity).
      congruence.
Qed.

Lemma validate_one_spec (props : dict prop) (k : string) (v : Value.t) :
  validate_one props k v = Ok tt
  <-> forall p, dict_get props k = Some p ->
                (forall t, type p = Some t -> has_type v t)
                /\ within_limits v p.
Proof.
  unfold validate_one. destruct (dict_get props k) as [p|].
  - rewrite andthen_ok, constraints_spec. split.
    + intros [Ht Hl] p' [= <-]. split; [|exact Hl].
      intros t Hty. rewrite Hty in Ht. apply check_ok in Ht.
      apply validate_type_spec. exact Ht.
    + intros H. destruct (H p eq_refl) as [Ht Hl]. split; [|exact Hl].
      destruct (type p) as [t|]; [|reflexivity].
      apply check_ok, validate_type_spec. apply Ht. reflexivity.
  - split; [discriminate|reflexivity].
Qed.

Lemma accepted_iff_acceptable (s : schema) (params : dict Value.t) :
  (exists w, validate_parameters s params = Ok w) <-> acceptable s params.
Proof.
  unfold validate_parameters, acceptable. split.
  - intros [w Hw].
    destruct (check_required (required s) params) as [[]|e] eqn:Hreq;
      [|discriminate].
    destruct (validate_items (properties s) params []) as [w0|e] eqn:Hitems;
      [|discriminate].
    split; [apply check_required_spec; exact Hreq|].
    intros k v p Hin Hp.
    pose proof (validate_items_inv _ _ _ _ Hitems) as Hall.
    rewrite Forall_forall in Hall.
    apply list_elem_of_In in Hin. specialize (Hall _ Hin).
    cbn [fst snd] in Hall.
    exact (proj1 (validate_one_spec _ _ _) Hall p Hp).
  - intros [Hreq Hall].
    apply check_required_spec in Hreq. rewrite Hreq.
    rewrite (validate_items_ok (properties s) params []).
    + eexists. reflexivity.
    + apply Forall_forall. intros [k v] Hin. cbn [fst snd].
      apply validate_one_spec. intros p Hp.
      apply (Hall k v p); [apply list_elem_of_In; exact Hin|exact Hp].
Qed.

Lemma check_raises (b : bool) (msg : string) :
  raises_validation_error_only (check b msg).
Proof.
  intros e. unfold check. destruct b; [discriminate|].
  intros [= <-]. eexists. reflexivity.
Qed.

Lemma ok_raises : raises_validation_error_only (Ok tt).
Proof. intros e. discriminate. Qed.

Lemma andthen_raises (a b : res unit) :
  raises_validation_error_only a -> raises_validation_error_only b ->
  raises_validation_error_only (andthen a b).
Proof.
  intros Ha Hb e. unfold andthen. destruct a as [[]|e1]; [apply Hb|].
  intros [= <-]. apply Ha. reflexivity.
Qed.

Lemma limit_raises (o : option Z) (f : Z -> bool) (msg : Z -> string) :
  raises_validation_error_only
    (match o with Some n => check (f n) (msg n) | None => Ok tt end).
Proof. destruct o; [apply check_raises|apply ok_raises]. Qed.

Lemma validate_one_raises (props : dict prop) (k : string) (v : Value.t) :
  raises_validation_error_only (validate_one props k v).
Proof.
  unfold validate_one. destruct (dict_get props k) as [p|];
    [|apply ok_raises].
  apply andthen_raises.
  - destruct (type p); [apply check_raises|apply ok_raises].
  - unfold _validate_property_constraints.
    repeat apply andthen_raises;
      destruct v; cbn [as_number];
      repeat apply andthen_raises;
      first [apply ok_raises | apply limit_raises].
Qed.

Lemma rejected_with_message (s : schema) (params : dict Value.t) :
  ~ acceptable s params ->
  exists msg, validate_parameters s params = Raise (ToolValidationError msg).
Proof.
  intros Hno.
  destruct (validate_parameters s params) as [w|e] eqn:Hv.
  - exfalso. apply Hno. apply accepted_iff_acceptable. exists w. exact Hv.
  - revert Hv. unfold validate_parameters.
    destruct (check_required (required s) params) as [[]|e1] eqn:Hreq.
    + destruct (validate_items (properties s) params []) as [w0|e2]
        eqn:Hitems; [discriminate|].
      intros [= <-].
      assert (G : forall items acc e0,
                 validate_items (properties s) items acc = Raise e0 ->
                 exists msg, e0 = ToolValidationError msg).
      { induction items as [|[k v] items IH]; intros acc e0;
          cbn [validate_items]; [discriminate|].
        destruct (validate_one (properties s) k v) as [[]|e3] eqn:H1.
        - apply IH.
        - intros [= <-]. exact (validate_one_raises _ _ _ _ H1). }
      destruct (G _ _ _ Hitems) as [msg ->]. exists msg. reflexivity.
    + intros [= <-]. revert Hreq. clear.
      induction (required s) as [|f rest IH]; cbn [check_required];
        [discriminate|].
      destruct (dict_has params f); [exact IH|].
      intros [= <-]. eexists. reflexivity.
Qed.

Lemma apply_defaults_keeps (props : dict prop) (a : dict Value.t)
  (x : string) (y : Value.t) :
  dict_get a x = Some y -> dict_get (apply_defaults props a) x = Some y.
Proof.
  revert a. induction props as [|[p ps] props IH]; intros a H;
    cbn [apply_defaults]; [exact H|].
  apply IH. destruct (default ps) as [v|]; [|exact H].
  destruct (dict_has a p) eqn:Hp; [exact H|].
  rewrite dict_get_set_ne; [exact H|].
  intros ->. unfold dict_has in Hp. rewrite H in Hp. discriminate.
Qed.

End AcceptsFacts.

(** C3, as stated, fails: [sort_by = "bogus"] is outside the declared
    enumeration and validation accepts the call, handing the value to the
    handler unchanged. *)
Lemma enum_violation_is_accepted :
  option_map Tool.enum
    (dict_get (Tool.properties SearchDocumentsTool.get_parameter_schema)
       "sort_by")
  = Some (Some [VStr "relevance"; VStr "date"; VStr "name"])
  /\ Tool.validate_parameters SearchDocumentsTool.get_parameter_schema
       [("query", VStr "test"); ("sort_by", VStr "bogus")]
     = Ok [("query", VStr "test"); ("sort_by", VStr "bogus");
           ("limit", VInt 10); ("file_type", VNone)].
Proof. split; vm_compute; reflexivity. Qed.

(** The unit test's own case: a [file_type] outside the enumeration. *)
Example file_type_outside_enum_is_accepted :
  Tool.validate_parameters SearchDocumentsTool.get_parameter_schema
    [("query", VStr "test"); ("file_type", VStr "invalid")]
  = Ok [("query", VStr "test"); ("file_type", VStr "invalid");
        ("limit", VInt 10); ("sort_by", VStr "relevance")].
Proof. vm_compute. reflexivity. Qed.

(** What validation does reject, for comparison: a limit above the
    maximum. *)
Example limit_above_maximum_is_rejected :
  Tool.validate_parameters SearchDocumentsTool.get_parameter_schema
    [("query", VStr "test"); ("limit", VInt 150)]
  = Raise (ToolValidationError "Parameter 'limit' must be at most 100").
Proof. vm_compute. reflexivity. Qed.

(** C3, amended. Validation never reads [enum]: it answers the same on a
    schema and on that schema without its enumerations. A call is accepted
    exactly when every required field is given and every given parameter
    that the schema declares has the declared type and meets the declared
    length, range and item-count limits; the handler then runs on the
    validated parameters, in which every given value is as it was given.
    Any other call is answered with [success = false] and a message that
    starts with "Parameter validation failed: ", and the handler does not
    run. *)
Theorem enum_is_not_validated :
  forall (s : Tool.schema) (params : dict Value.t),
    Tool.validate_parameters (SchemaOps.without_enums s) params
    = Tool.validate_parameters s params
    /\ (Accepts.acceptable s params ->
        exists w,
          Tool.validate_parameters s params = Ok w
          /\ (NoDup (map fst params) ->
              forall k v, dict_get params k = Some v -> dict_get w k = Some v)
          /\ forall St (handler : dict Value.t -> M St Tool.ToolResult)
                    (execution_time_ms : Q) (st : St),
               Tool.execute s handler execution_time_ms params st
               = SchemaOps.finish execution_time_ms (handler w st))
    /\ (~ Accepts.acceptable s params ->
        exists msg,
          Tool.validate_parameters s params
          = Raise (ToolValidationError msg)
          /\ forall St (handler : dict Value.t -> M St Tool.ToolResult)
                    (execution_time_ms : Q) (st : St),
               Tool.execute s handler execution_time_ms params st
               = (Tool.set_execution_time
                    (Tool.error_result
                       ("Parameter validation failed: " +:+ msg) [])
                    execution_time_ms, st)).
Proof.
  intros s params. split; [apply validate_without_enums|]. split.
  - intros Hacc.
    destruct (proj2 (accepted_iff_acceptable s params) Hacc) as [w Hw].
    exists w. split; [exact Hw|]. split.
    + intros Hnd k v Hget.
      unfold Tool.validate_parameters in Hw.
      destruct (Tool.check_required _ _) as [[]|e]; [|discriminate].
      destruct (Tool.validate_items _ _ _) as [w0|e] eqn:Hitems;
        [|discriminate].
      injection Hw as <-.
      pose proof (validate_items_inv _ _ _ _ Hitems) as Hall.
      rewrite (validate_items_ok _ _ _ Hall) in Hitems.
      injection Hitems as <-.
      apply apply_defaults_keeps.
      rewrite fold_set_get by exact Hnd. rewrite Hget. reflexivity.
    + intros St handler t st. unfold Tool.execute, SchemaOps.finish.
      rewrite Hw. destruct (handler w st) as [[r|e] st']; reflexivity.
  - intros Hno.
    destruct (rejected_with_message s params Hno) as [msg Hmsg].
    exists msg. split; [exact Hmsg|].
    intros St handler t st. unfold Tool.execute. rewrite Hmsg. reflexivity.
Qed.

Lemma enum_is_not_validated_witness :
  Accepts.acceptable SearchDocumentsTool.get_parameter_schema
    [("query", VStr "test"); ("sort_by", VStr "bogus")]
  /\ exists w,
      Tool.validate_parameters SearchDocumentsTool.get_parameter_schema
        [("query", VStr "test"); ("sort_by", VStr "bogus")] = Ok w
      /\ dict_get w "sort_by" = Some (VStr "bogus").
Proof.
  assert (Hacc : Accepts.acceptable SearchDocumentsTool.get_parameter_schema
                   [("query", VStr "test"); ("sort_by", VStr "bogus")]).
  { apply accepted_iff_acceptable. eexists. vm_compute. reflexivity. }
  split; [exact Hacc|].
  destruct (enum_is_not_validated SearchDocumentsTool.get_parameter_schema
              [("query", VStr "test"); ("sort_by", VStr "bogus")])
    as (_ & Hyes & _).
  destruct (Hyes Hacc) as (w & Hw & Hkeep & _).
  exists w. split; [exact Hw|].
  apply Hkeep; [|reflexivity].
  repeat (apply NoDup_cons; split;
          [rewrite ?elem_of_cons, elem_of_nil; intros H;
           repeat (destruct H as [H|H]; try discriminate H); exact H|]).
  apply NoDup_nil. trivial.
Defined.

(** ** Parameters the schema does not declare *)

(** C10. A key the schema does not declare never makes validation fail:
    if the call without that key is accepted, so is the call with it; the
    key reaches the handler with its value unchanged, next to the same
    values for all other keys; and this although each of the three
    schemas says [additionalProperties: false]. *)
Theorem undeclared_parameter_reaches_handler :
  forall (s : Tool.schema) (params : dict Value.t) (k : string)
         (v : Value.t) (w : dict Value.t),
    NoDup (map fst params) ->
    dict_get (Tool.properties s) k = None ->
    dict_get params k = Some v ->
    Tool.validate_parameters s (dict_del params k) = Ok w ->
    Forall (fun t => Tool.additionalProperties t = Some false)
           SchemaOps.catalogue
    /\ exists w',
         Tool.validate_parameters s params = Ok w'
         /\ dict_get w' k = Some v
         /\ (forall x, x <> k -> dict_get w' x = dict_get w x)
         /\ forall St (handler : dict Value.t -> M St Tool.ToolResult)
                   (execution_time_ms : Q) (st : St),
              Tool.execute s handler execution_time_ms params st
              = SchemaOps.finish execution_time_ms (handler w' st).
Proof.
  intros s params k v w Hnd Hprop Hget Hval.
  split; [repeat constructor|].
  unfold Tool.validate_parameters in Hval.
  destruct (Tool.check_required (Tool.required s) (dict_del params k))
    as [[]|e] eqn:Hreq; [|discriminate].
  destruct (Tool.validate_items (Tool.properties s) (dict_del params k) [])
    as [w0|e] eqn:Hitems; [|discriminate].
  injection Hval as <-.
  pose proof (validate_items_inv _ _ _ _ Hitems) as Hall.
  rewrite (validate_items_ok _ _ _ Hall) in Hitems. injection Hitems as <-.
  assert (Hall' : Forall (fun kv => Tool.validate_one (Tool.properties s)
                                      (fst kv) (snd kv) = Ok tt) params).
  { apply (forall_del _ params k v Hget); [|exact Hall].
    unfold Tool.validate_one. cbn [fst snd]. rewrite Hprop. reflexivity. }
  assert (Hok : Tool.validate_parameters s params
                = Ok (Tool.apply_defaults (Tool.properties s)
                        (fold_left (fun a kv => dict_set a (fst kv) (snd kv))
                                   params []))).
  { unfold Tool.validate_parameters.
    rewrite (check_required_mono _ _ _ Hreq).
    rewrite (validate_items_ok _ _ _ Hall'). reflexivity. }
  eexists. split; [exact Hok|]. split; [|split].
  - rewrite apply_defaults_get_undeclared by exact Hprop.
    rewrite fold_set_get by exact Hnd. rewrite Hget. reflexivity.
  - intros x Hx. apply apply_defaults_get_congr.
    rewrite !fold_set_get by (try apply nodup_del; exact Hnd).
    rewrite dict_get_del_ne by (intros E; apply Hx; symmetry; exact E).
    reflexivity.
  - intros St handler t st. unfold Tool.execute, SchemaOps.finish.
    rewrite Hok. destruct (handler _ st) as [[r|e] st']; reflexivity.
Qed.

Lemma undeclared_parameter_reaches_handler_witness :
  exists w',
    Tool.validate_parameters SearchDocumentsTool.get_parameter_schema
      [("query", VStr "test"); ("debug", VBool true)] = Ok w'
    /\ dict_get w' "debug" = Some (VBool true).
Proof.
  destruct (undeclared_parameter_reaches_handler
              SearchDocumentsTool.get_parameter_schema
              [("query", VStr "test"); ("debug", VBool true)] "debug"
              (VBool true)
              [("query", VStr "test"); ("limit", VInt 10);
               ("file_type", VNone); ("sort_by", VStr "relevance")])
    as [_ [w' [Hv [Hk _]]]].
  - repeat (apply NoDup_cons; split;
            [rewrite ?elem_of_cons, elem_of_nil; intros H;
             repeat (destruct H as [H|H]; try discriminate H); exact H|]).
    apply NoDup_nil. trivial.
  - reflexivity.
  - reflexivity.
  - vm_compute. reflexivity.
  - exists w'. split; assumption.
Defined.
Section Preservation.
Import Inv.
Context {St : Type} (P : St -> Prop).

Lemma preserves_ret {A} (a : A) : preserves P (ret a).
Proof. intros s H. exact H. Qed.

Lemma preserves_raise {A} (e : exn) : preserves P (raise (A := A) e).
Proof. intros s H. exact H. Qed.

Lemma preserves_get : preserves P get.
Proof. intros s H. exact H. Qed.

Lemma preserves_bind {A B} (m : M St A) (k : A -> M St B) :
  preserves P m -> (forall a, preserves P (k a)) -> preserves P (bind m k).
Proof.
  intros Hm Hk s H. unfold bind. specialize (Hm s H).
  destruct (m s) as [[a|e] s1]; simpl in *; [apply Hk|]; exact Hm.
Qed.

Lemma preserves_try_except {A} (m : M St A) (h : exn -> M St A) :
  preserves P m -> (forall e, preserves P (h e)) ->
  preserves P (try_except m h).
Proof.
  intros Hm Hh s H. unfold try_except. specialize (Hm s H).
  destruct (m s) as [[a|e] s1]; simpl in *; [|apply Hh]; exact Hm.
Qed.

End Preservation.

Section DbPreservation.
Import Inv.
Context (P : Db.t -> Prop).

Lemma preserves_transaction {A} (body : M Db.t A) :
  preserves P body -> preserves P (Db.transaction body).
Proof.
  intros Hb s H. unfold Db.transaction. specialize (Hb s H).
  destruct (body s) as [[a|e] s1]; simpl in *; [exact Hb|exact H].
Qed.

Lemma preserves_executemany {A} (stmt : A -> M Db.t Z) (params : list A) :
  (forall p, preserves P (stmt p)) -> preserves P (Db.executemany stmt params).
Proof.
  intros Hs. induction params as [|p ps IH]; simpl.
  - apply preserves_ret.
  - apply preserves_bind; [apply Hs|intros _; exact IH].
Qed.
End DbPreservation.

(** Statements that leave the [documents] table alone. *)
Section DocumentsFrame.
Import Inv.
Variables (docs : list Document.t) (q : Z).

Ltac frame_prim f :=
  intros s [H1 H2]; unfold f, documents_are;
  repeat match goal with
         | |- context [if ?b then _ else _] => destruct b
         end;
  simpl; auto.

Lemma frame_insert_index e :
  preserves (documents_are docs q) (Db.insert_or_replace_search_index e).
Proof. frame_prim Db.insert_or_replace_search_index. Qed.

Lemma frame_delete_index i :
  preserves (documents_are docs q) (Db.delete_search_index_rows i).
Proof. frame_prim Db.delete_search_index_rows. Qed.

Lemma frame_insert_metadata m :
  preserves (documents_are docs q) (Db.insert_or_replace_metadata m).
Proof. frame_prim Db.insert_or_replace_metadata. Qed.

Lemma frame_delete_metadata i :
  preserves (documents_are docs q) (Db.delete_metadata_rows i).
Proof. frame_prim Db.delete_metadata_rows. Qed.

Lemma frame_cleanup now :
  preserves (documents_are docs q) (SearchQueries.cleanup_expired_cache now).
Proof.
  apply preserves_transaction. intros s [H1 H2]. split; assumption.
Qed.

Lemma frame_index_keywords i content :
  preserves (documents_are docs q)
    (DocumentManager._index_document_keywords i content).
Proof.
  unfold DocumentManager._index_document_keywords.
  apply preserves_try_except; [|intros; apply preserves_ret].
  apply preserves_bind.
  - apply preserves_transaction, frame_delete_index.
  - intros _. destruct (DocumentManager.search_entries i content).
    + apply preserves_ret.
    + apply preserves_bind; [|intros; apply preserves_ret].
      apply preserves_transaction, preserves_bind;
        [|intros; apply preserves_ret].
      apply preserves_executemany. intros e. apply frame_insert_index.
Qed.

Lemma frame_bulk_metadata i md t :
  preserves (documents_are docs q)
    (MetadataQueries.bulk_create_metadata i md t).
Proof.
  unfold MetadataQueries.bulk_create_metadata.
  apply preserves_transaction, preserves_bind;
    [|intros; apply preserves_ret].
  apply preserves_executemany. intros e. apply frame_insert_metadata.
Qed.

Lemma frame_invalidate now :
  preserves (documents_are docs q)
    (DocumentManager._invalidate_search_cache now).
Proof.
  unfold DocumentManager._invalidate_search_cache.
  apply preserves_try_except; [|intros; apply preserves_ret].
  apply preserves_bind; [apply frame_cleanup|intros; apply preserves_ret].
Qed.

End DocumentsFrame.

Section IndexDocumentEffect.
Import Inv.

(** What is left of [index_document] once the row is written. *)
Lemma index_tail_frame (document_id : Z) (content : string)
  (metadata : dict string) (extract_keywords : bool)
  (now : DocumentManager.stamps) (s1 : Db.t) :
  let tail :=
    (let* _ :=
       match metadata with
       | [] => ret 0
       | _ :: _ =>
           MetadataQueries.bulk_create_metadata document_id metadata
             (DocumentManager.t_metadata now)
       end in
     let* _ :=
       if extract_keywords
       then DocumentManager._index_document_keywords document_id content
       else ret tt in
     let* _ :=
       DocumentManager._invalidate_search_cache
         (DocumentManager.t_sweep now) in
     ret (Some document_id)) in
  documents_are (Db.documents s1) (Db.seq_documents s1) (snd (tail s1))
  /\ (fst (tail s1) = Ok (Some document_id)
      \/ exists e, fst (tail s1) = Raise e).
Proof.
  intros tail. split.
  - assert (Hp : preserves
                    (documents_are (Db.documents s1) (Db.seq_documents s1))
                    tail);
      [|exact (Hp s1 (conj eq_refl eq_refl))].
    unfold tail. apply preserves_bind.
    + destruct metadata; [apply preserves_ret|apply frame_bulk_metadata].
    + intros _. apply preserves_bind.
      * destruct extract_keywords;
          [apply frame_index_keywords|apply preserves_ret].
      * intros _. apply preserves_bind; [apply frame_invalidate|].
        intros _. apply preserves_ret.
  - unfold tail, bind.
    destruct (match metadata with [] => ret 0 | _ :: _ => _ end s1)
      as [[?|e] s2]; [|right; eauto].
    destruct ((if extract_keywords then _ else ret tt) s2)
      as [[?|e] s3]; [|right; eauto].
    destruct (DocumentManager._invalidate_search_cache _ s3)
      as [[?|e] s4]; [|right; eauto].
    left. reflexivity.
Qed.

End IndexDocumentEffect.

Section WriteCases.
Import Inv.

Lemma update_document_cases (D : Document.t) (s : Db.t) :
  DocumentQueries.update_document D s = (Ok false, s)
  \/ (exists e, DocumentQueries.update_document D s = (Raise e, s))
  \/ (exists i,
        Document.id D = Some i
        /\ Db.document_exists s i = true
        /\ Db.path_free s (Some i) (Document.file_path D) = true
        /\ Db.check_document D = true
        /\ DocumentQueries.update_document D s
           = (Ok true,
              Db.set_documents s
                (map (fun r => if Db.id_is i (Document.id r) then D else r)
                     (Db.documents s))
                (Db.seq_documents s))).
Proof.
  unfold DocumentQueries.update_document, Db.transaction, bind,
    Db.update_document_row, ret.
  destruct (Document.id D) as [i|]; [|left; reflexivity].
  destruct (Db.document_exists s i) eqn:Hex; [|left; reflexivity].
  destruct (Db.path_free s (Some i) (Document.file_path D)) eqn:Hfree;
    [|right; left; eexists; reflexivity].
  destruct (Db.check_document D) eqn:Hchk;
    [|right; left; eexists; reflexivity].
  right; right. exists i. cbn [negb]. auto.
Qed.

Lemma create_document_cases (D : Document.t) (now : Z) (s : Db.t) :
  Document.indexed_at D <> None ->
  (exists e, DocumentQueries.create_document D now s = (Raise e, s))
  \/ (Db.path_free s None (Document.file_path D) = true
      /\ Db.check_document D = true
      /\ DocumentQueries.create_document D now s
         = (Ok (Db.seq_documents s + 1),
            Db.set_documents s
              (Db.documents s
               ++ [Document.set_id D (Some (Db.seq_documents s + 1))])
              (Db.seq_documents s + 1))).
Proof.
  intros Hidx.
  unfold DocumentQueries.create_document, Db.transaction, Db.insert_document.
  destruct (Document.indexed_at D) as [t|]; [|contradiction].
  destruct (Db.path_free s None (Document.file_path D)) eqn:Hfree;
    [|left; eexists; reflexivity].
  destruct (Db.check_document D) eqn:Hchk; [|left; eexists; reflexivity].
  right. cbn [negb]. auto.
Qed.

Lemma built_document_path p c md now :
  Document.file_path (built_document p c md now) = p.
Proof. unfold built_document. destruct md; reflexivity. Qed.

Lemma built_document_content p c md now :
  Document.content (built_document p c md now) = c.
Proof. unfold built_document. destruct md; reflexivity. Qed.

Lemma built_document_indexed_at p c md now :
  Document.indexed_at (built_document p c md now)
  = Some (DocumentManager.t_indexed now).
Proof. unfold built_document. destruct md; reflexivity. Qed.

Lemma built_document_digest p c md now :
  c <> "" ->
  Document.file_hash (built_document p c md now) = Sha256.sha256_hexdigest c
  /\ Document.file_size (built_document p c md now)
     = Z.of_nat (length (Sha256.encode_utf8 c)).
Proof.
  intros Hc.
  assert (He : String.eqb c "" = false) by (apply String.eqb_neq; exact Hc).
  unfold built_document, Document.post_init, Document.set_metadata,
    Document.calculate_content_hash.
  destruct md;
    cbn [Document.file_hash Document.file_size Document.content
         Document.file_path Document.file_name Document.file_type];
    rewrite He; cbn [String.eqb negb andb]; auto.
Qed.

End WriteCases.

Section BindEquations.

Lemma bind_eq_ok {St A B} (m : M St A) (k : A -> M St B) s a s' :
  m s = (Ok a, s') -> bind m k s = k a s'.
Proof. intros H. unfold bind. rewrite H. reflexivity. Qed.

Lemma bind_eq_raise {St A B} (m : M St A) (k : A -> M St B) s e s' :
  m s = (Raise e, s') -> bind m k s = (Raise e, s').
Proof. intros H. unfold bind. rewrite H. reflexivity. Qed.

End BindEquations.

Section IndexDocumentCases.
Import Inv.

Lemma index_document_effect (p c : string) (md : dict string) (kw : bool)
  (now : DocumentManager.stamps) (s : Db.t) :
  let out := DocumentManager.index_document p c md kw now s in
  (fst out = Ok None
   /\ documents_are (Db.documents s) (Db.seq_documents s) (snd out))
  \/ (exists row i,
        List.find (fun d => String.eqb (Document.file_path d) p)
                  (Db.documents s) = Some row
        /\ Document.id row = Some i
        /\ c <> ""
        /\ Db.document_exists s i = true
        /\ Db.path_free s (Some i) p = true
        /\ Db.check_document (updated_document row p c md now) = true
        /\ documents_are
             (map (fun r => if Db.id_is i (Document.id r)
                            then updated_document row p c md now else r)
                  (Db.documents s))
             (Db.seq_documents s) (snd out)
        /\ (fst out = Ok (Some i) \/ fst out = Ok None))
  \/ (List.find (fun d => String.eqb (Document.file_path d) p)
                (Db.documents s) = None
      /\ c <> ""
      /\ Db.path_free s None p = true
      /\ Db.check_document (built_document p c md now) = true
      /\ documents_are
           (Db.documents s
            ++ [Document.set_id (built_document p c md now)
                  (Some (Db.seq_documents s + 1))])
           (Db.seq_documents s + 1) (snd out)
      /\ (fst out = Ok (Some (Db.seq_documents s + 1)) \/ fst out = Ok None)).
Proof.
  intros out. subst out.
  unfold DocumentManager.index_document, try_except.
  destruct (String.eqb p "" || String.eqb c "") eqn:Hguard.
  { left. split; [reflexivity|split; reflexivity]. }
  apply orb_false_elim in Hguard. destruct Hguard as [_ Hc].
  apply String.eqb_neq in Hc.
  erewrite bind_eq_ok by reflexivity.
  fold (built_document p c md now).
  destruct (List.find _ (Db.documents s)) as [row|] eqn:Hfind;
    cbn [option_map].
  - fold (updated_document row p c md now).
    set (U := updated_document row p c md now).
    destruct (update_document_cases U s)
      as [Hu|[[e Hu]|[i (Hid & Hex & Hfree & Hchk & Hu)]]].
    + erewrite bind_eq_ok by (erewrite bind_eq_ok by exact Hu; reflexivity).
      left. split; [reflexivity|split; reflexivity].
    + erewrite bind_eq_raise by (erewrite bind_eq_raise by exact Hu; reflexivity).
      left. split; [reflexivity|split; reflexivity].
    + erewrite bind_eq_ok by (erewrite bind_eq_ok by exact Hu; reflexivity).
      rewrite Hid.
      right; left. exists row, i.
      assert (Hp : Document.file_path U = p)
        by (unfold U, updated_document; cbn; apply built_document_path).
      rewrite Hp in Hfree.
      assert (Hrow : Document.id row = Some i)
        by (rewrite <- Hid; unfold U, updated_document; reflexivity).
      pose proof (index_tail_frame i c md kw now
                    (Db.set_documents s
                       (map (fun r => if Db.id_is i (Document.id r)
                                      then U else r) (Db.documents s))
                       (Db.seq_documents s))) as Htail.
      cbv zeta in Htail. destruct Htail as [Hframe Hres].
      repeat (split; [first [assumption|reflexivity]|]).
      match goal with
      | |- context [match ?t ?s1 with _ => _ end] =>
          destruct (t s1) as [[r|e] s2]
      end; cbn [fst snd] in *.
      * split; [exact Hframe|].
        destruct Hres as [Hres|[e Hres]]; [left; exact Hres|discriminate].
      * split; [exact Hframe|right; reflexivity].
  - set (B := built_document p c md now).
    destruct (create_document_cases B (DocumentManager.t_indexed now) s)
      as [[e Hu]|(Hfree & Hchk & Hu)].
    { unfold B. rewrite built_document_indexed_at. discriminate. }
    + erewrite bind_eq_raise by (erewrite bind_eq_raise by exact Hu; reflexivity).
      left. split; [reflexivity|split; reflexivity].
    + erewrite bind_eq_ok by (erewrite bind_eq_ok by exact Hu; reflexivity).
      right; right.
      assert (Hp : Document.file_path B = p) by apply built_document_path.
      rewrite Hp in Hfree.
      repeat (split; [first [assumption|reflexivity]|]).
      destruct (Db.seq_documents s + 1 =? 0).
      { split; [split; reflexivity|right; reflexivity]. }
      pose proof (index_tail_frame (Db.seq_documents s + 1) c md kw now
                    (Db.set_documents s
                       (Db.documents s
                        ++ [Document.set_id B (Some (Db.seq_documents s + 1))])
                       (Db.seq_documents s + 1))) as Htail.
      cbv zeta in Htail. destruct Htail as [Hframe Hres].
      match goal with
      | |- context [match ?t ?s1 with _ => _ end] =>
          destruct (t s1) as [[r|e] s2]
      end; cbn [fst snd] in *.
      * split; [exact Hframe|].
        destruct Hres as [Hres|[e Hres]]; [left; exact Hres|discriminate].
      * split; [exact Hframe|right; reflexivity].
Qed.

End IndexDocumentCases.

Section RoundTrip.
Import Inv.

Lemma id_is_refl i : Db.id_is i (Some i) = true.
Proof. unfold Db.id_is. apply Z.eqb_refl. Qed.

Lemma id_is_eq i o : Db.id_is i o = true <-> o = Some i.
Proof.
  unfold Db.id_is. destruct o as [j|]; [|split; discriminate].
  rewrite Z.eqb_eq. split; [intros ->; reflexivity|intros [= ->]; reflexivity].
Qed.

Lemma find_replaced (p : string) (i : Z) (U row : Document.t)
  (docs : list Document.t) :
  Document.file_path U = p ->
  Document.id row = Some i ->
  List.find (fun d => String.eqb (Document.file_path d) p) docs = Some row ->
  List.find (fun d => String.eqb (Document.file_path d) p)
            (map (fun r => if Db.id_is i (Document.id r) then U else r) docs)
  = Some U.
Proof.
  intros HU Hrow. induction docs as [|d docs IH]; [discriminate|].
  cbn [List.find map].
  destruct (Db.id_is i (Document.id d)) eqn:Hd.
  - intros _. rewrite HU, String.eqb_refl. reflexivity.
  - destruct (String.eqb (Document.file_path d) p) eqn:Hp.
    + intros [= ->]. rewrite Hrow, id_is_refl in Hd. discriminate.
    + exact IH.
Qed.

Lemma find_appended (p : string) (B : Document.t) (docs : list Document.t) :
  Document.file_path B = p ->
  List.find (fun d => String.eqb (Document.file_path d) p) docs = None ->
  List.find (fun d => String.eqb (Document.file_path d) p) (docs ++ [B])
  = Some B.
Proof.
  intros HB. induction docs as [|d docs IH]; cbn [List.find app].
  - intros _. rewrite HB, String.eqb_refl. reflexivity.
  - destruct (String.eqb (Document.file_path d) p); [discriminate|exact IH].
Qed.

Lemma post_init_digest (d : Document.t) :
  Document.file_hash d = Sha256.sha256_hexdigest (Document.content d) ->
  Document.file_hash (Document.post_init d)
  = Sha256.sha256_hexdigest (Document.content d).
Proof.
  intros H. unfold Document.post_init, Document.calculate_content_hash.
  cbn [Document.file_hash].
  destruct (_ && _); [reflexivity|exact H].
Qed.

End RoundTrip.

Section IndexThenGet.
Import Inv.

Lemma built_document_metadata p c md now :
  Document.metadata_json (built_document p c md now) = md.
Proof. unfold built_document. destruct md; reflexivity. Qed.

(** What [get_document_by_path] makes of a row that carries the record
    [index_document] built, whatever its id and creation time. *)
Lemma stored_row_read_back (D : Document.t) p c md now :
  c <> "" ->
  Document.file_path D = p ->
  Document.content D = c ->
  Document.file_hash D = Document.file_hash (built_document p c md now) ->
  Document.file_size D = Document.file_size (built_document p c md now) ->
  Document.metadata_json D = md ->
  Document.indexed_at D = Some (DocumentManager.t_indexed now) ->
  let d := Document.post_init D in
  Document.id d = Document.id D
  /\ Document.file_path d = p
  /\ Document.content d = c
  /\ Document.file_hash d = Sha256.sha256_hexdigest c
  /\ Document.file_size d = Z.of_nat (length (Sha256.encode_utf8 c))
  /\ Document.metadata_json d = md
  /\ Document.indexed_at d = Some (DocumentManager.t_indexed now).
Proof.
  intros Hc Hp Hct Hh Hs Hm Hi d.
  destruct (built_document_digest p c md now Hc) as [Hbh Hbs].
  rewrite Hbh in Hh. rewrite Hbs in Hs.
  repeat split; try assumption; try reflexivity.
  unfold d. rewrite <- Hct. apply post_init_digest. rewrite Hct. exact Hh.
Qed.

Lemma index_then_get_by_path_aux (p c : string) (md : dict string) (kw : bool)
  (now : DocumentManager.stamps) (s : Db.t) (i : Z) :
  fst (DocumentManager.index_document p c md kw now s) = Ok (Some i) ->
  exists d,
    DocumentQueries.get_document_by_path p
      (snd (DocumentManager.index_document p c md kw now s))
    = (Ok (Some d), snd (DocumentManager.index_document p c md kw now s))
    /\ Document.id d = Some i
    /\ Document.file_path d = p
    /\ Document.content d = c
    /\ Document.file_hash d = Sha256.sha256_hexdigest c
    /\ Document.file_size d = Z.of_nat (length (Sha256.encode_utf8 c))
    /\ Document.metadata_json d = md
    /\ Document.indexed_at d = Some (DocumentManager.t_indexed now).
Proof.
  intros Hres.
  destruct (index_document_effect p c md kw now s)
    as [[Hnone _]
       |[(row & j & Hfind & Hrow & Hc & _ & _ & _ & [Hdocs _] & Hout)
        |(Hfind & Hc & _ & _ & [Hdocs _] & Hout)]].
  - rewrite Hnone in Hres. discriminate.
  - assert (j = i) as ->
      by (destruct Hout as [Ho|Ho]; rewrite Ho in Hres; congruence).
    set (U := updated_document row p c md now) in *.
    assert (HUp : Document.file_path U = p) by apply built_document_path.
    exists (Document.post_init U).
    split.
    { unfold DocumentQueries.get_document_by_path. rewrite Hdocs.
      rewrite (find_replaced p i U row _ HUp Hrow Hfind). reflexivity. }
    destruct (stored_row_read_back U p c md now Hc HUp)
      as (H1 & H2 & H3 & H4 & H5 & H6 & H7);
      try reflexivity;
      try apply built_document_content;
      try apply built_document_metadata;
      try apply built_document_indexed_at.
    rewrite H1. repeat split; try assumption.
  - assert (Db.seq_documents s + 1 = i) as Hi
      by (destruct Hout as [Ho|Ho]; rewrite Ho in Hres; congruence).
    set (B := Document.set_id (built_document p c md now)
                (Some (Db.seq_documents s + 1))) in *.
    assert (HBp : Document.file_path B = p) by apply built_document_path.
    exists (Document.post_init B).
    split.
    { unfold DocumentQueries.get_document_by_path. rewrite Hdocs.
      rewrite (find_appended p B _ HBp Hfind). reflexivity. }
    destruct (stored_row_read_back B p c md now Hc HBp)
      as (H1 & H2 & H3 & H4 & H5 & H6 & H7);
      try reflexivity;
      try apply built_document_content;
      try apply built_document_metadata;
      try apply built_document_indexed_at.
    rewrite H1. rewrite <- Hi. repeat split; try assumption.
Qed.

End IndexThenGet.

(** ** Reading back what was indexed *)

(** X1. When [DocumentManager.index_document] returns an id, looking the
    path up afterwards gives a document with that id, the content that was
    passed in, the SHA-256 digest and the UTF-8 size of that content, the
    metadata that was passed in and the indexing time of this call, whether
    the path was new or already stored. *)
Theorem index_then_get_by_path (p c : string) (md : dict string) (kw : bool)
  (now : DocumentManager.stamps) (s : Db.t) (i : Z) :
  fst (DocumentManager.index_document p c md kw now s) = Ok (Some i) ->
  exists d,
    DocumentQueries.get_document_by_path p
      (snd (DocumentManager.index_document p c md kw now s))
    = (Ok (Some d), snd (DocumentManager.index_document p c md kw now s))
    /\ Document.id d = Some i
    /\ Document.file_path d = p
    /\ Document.content d = c
    /\ Document.file_hash d = Sha256.sha256_hexdigest c
    /\ Document.file_size d = Z.of_nat (length (Sha256.encode_utf8 c))
    /\ Document.metadata_json d = md
    /\ Document.indexed_at d = Some (DocumentManager.t_indexed now).
Proof. exact (index_then_get_by_path_aux p c md kw now s i). Qed.

Lemma index_then_get_by_path_witness :
  fst (DocumentManager.index_document "/tmp/a.md" "delta epsilon" [] true
         Demo.stamps Demo.store) = Ok (Some 1)
  /\ exists d,
      DocumentQueries.get_document_by_path "/tmp/a.md"
        (snd (DocumentManager.index_document "/tmp/a.md" "delta epsilon" []
                true Demo.stamps Demo.store))
      = (Ok (Some d),
         snd (DocumentManager.index_document "/tmp/a.md" "delta epsilon" []
                true Demo.stamps Demo.store))
      /\ Document.id d = Some 1
      /\ Document.file_path d = "/tmp/a.md"
      /\ Document.content d = "delta epsilon"
      /\ Document.file_hash d = Sha256.sha256_hexdigest "delta epsilon"
      /\ Document.file_size d
         = Z.of_nat (length (Sha256.encode_utf8 "delta epsilon"))
      /\ Document.metadata_json d = []
      /\ Document.indexed_at d = Some (DocumentManager.t_indexed Demo.stamps).
Proof.
  split; [vm_compute; reflexivity|].
  apply (index_then_get_by_path "/tmp/a.md" "delta epsilon" [] true
           Demo.stamps Demo.store 1).
  vm_compute. reflexivity.
Defined.

Section KeysInvariant.
Import Inv.

Lemma keys_ok_frame (s s' : Db.t) :
  documents_are (Db.documents s) (Db.seq_documents s) s' ->
  keys_ok s -> keys_ok s'.
Proof. intros [H1 H2]. unfold keys_ok. rewrite H1, H2. auto. Qed.

Lemma elem_of_map {A B} (f : A -> B) (l : list A) (a : A) :
  a ∈ l -> f a ∈ map f l.
Proof. rewrite !list_elem_of_In. apply in_map. Qed.

Lemma elem_of_map_inv {A B} (f : A -> B) (l : list A) (b : B) :
  b ∈ map f l -> exists a, b = f a /\ a ∈ l.
Proof.
  rewrite list_elem_of_In, in_map_iff. intros (a & Ha & Hin).
  exists a. rewrite list_elem_of_In. auto.
Qed.

Lemma nodup_same_key {A K} (f : A -> K) (l : list A) (a b : A) :
  NoDup (map f l) -> a ∈ l -> b ∈ l -> f a = f b -> a = b.
Proof.
  induction l as [|x l IH]; cbn [map]; intros Hnd Ha Hb Hf.
  - inversion Ha.
  - apply NoDup_cons in Hnd. destruct Hnd as [Hx Hnd].
    apply elem_of_cons in Ha. apply elem_of_cons in Hb.
    destruct Ha as [->|Ha], Hb as [->|Hb]; auto.
    + exfalso. apply Hx. rewrite Hf. apply elem_of_map. exact Hb.
    + exfalso. apply Hx. rewrite <- Hf. apply elem_of_map. exact Ha.
Qed.

Lemma find_elem_of {A} (f : A -> bool) (l : list A) (a : A) :
  List.find f l = Some a -> a ∈ l /\ f a = true.
Proof.
  induction l as [|x l IH]; cbn [List.find]; [discriminate|].
  destruct (f x) eqn:Hx.
  - intros [= ->]. split; [left|exact Hx].
  - intros H. destruct (IH H). split; [right|]; assumption.
Qed.

Lemma find_none_all {A} (f : A -> bool) (l : list A) :
  List.find f l = None -> Forall (fun a => f a = false) l.
Proof.
  induction l as [|x l IH]; cbn [List.find]; [constructor|].
  destruct (f x) eqn:Hx; [discriminate|]. intros H. constructor; auto.
Qed.

Lemma replace_keeps_keys (docs : list Document.t) (i : Z)
  (U row : Document.t) :
  NoDup (map Document.id docs) ->
  row ∈ docs -> Document.id row = Some i ->
  Document.id U = Some i -> Document.file_path U = Document.file_path row ->
  let docs' := map (fun r => if Db.id_is i (Document.id r) then U else r)
                   docs in
  map Document.id docs' = map Document.id docs
  /\ map Document.file_path docs' = map Document.file_path docs.
Proof.
  intros Hnd Hrow Hid HUid HUp docs'. subst docs'.
  assert (Hall : Forall (fun r => r ∈ docs) docs)
    by (apply Forall_forall; auto).
  revert Hall. generalize docs at 2 3 4 5 6 as l.
  induction l as [|d l IH]; intros Hall; [split; reflexivity|].
  apply Forall_cons in Hall. destruct Hall as [Hd Hall].
  destruct (IH Hall) as [IH1 IH2].
  cbn [map]. rewrite IH1, IH2.
  destruct (Db.id_is i (Document.id d)) eqn:Hdi; [|split; reflexivity].
  apply id_is_eq in Hdi.
  assert (d = row) as ->
    by (apply (nodup_same_key Document.id docs); congruence).
  rewrite HUid, HUp, Hid. split; reflexivity.
Qed.

Lemma keys_ok_index_document p c md kw now :
  preserves keys_ok (DocumentManager.index_document p c md kw now).
Proof.
  intros s Hk.
  destruct (index_document_effect p c md kw now s)
    as [[_ Hsame]
       |[(row & i & Hfind & Hrow & _ & _ & _ & _ & [Hdocs Hseq] & _)
        |(Hfind & _ & _ & _ & [Hdocs Hseq] & _)]].
  - exact (keys_ok_frame _ _ Hsame Hk).
  - destruct Hk as (H0 & Hrange & Hids & Hpaths).
    apply find_elem_of in Hfind. destruct Hfind as [Hin Hp].
    apply String.eqb_eq in Hp.
    destruct (replace_keeps_keys (Db.documents s) i
                (updated_document row p c md now) row Hids Hin Hrow)
      as [E1 E2].
    { unfold updated_document. cbn. exact Hrow. }
    { rewrite Hp. apply built_document_path. }
    unfold keys_ok. rewrite Hdocs, Hseq, E1, E2.
    repeat split; try assumption.
    apply Forall_forall. intros d Hd.
    apply elem_of_map_inv in Hd. destruct Hd as (r & -> & Hr).
    destruct (Db.id_is i (Document.id r)) eqn:Hri.
    + rewrite Forall_forall in Hrange. destruct (Hrange row Hin) as (j & Hj & Hjr).
      exists j. split; [|exact Hjr].
      unfold updated_document. cbn. exact Hj.
    + rewrite Forall_forall in Hrange. exact (Hrange r Hr).
  - destruct Hk as (H0 & Hrange & Hids & Hpaths).
    apply find_none_all in Hfind.
    unfold keys_ok. rewrite Hdocs, Hseq, !map_app. cbn [map].
    change (Document.file_path (Document.set_id ?d ?j))
      with (Document.file_path d).
    change (Document.id (Document.set_id ?d ?j)) with j.
    rewrite built_document_path.
    split; [lia|]. split; [|split].
    + apply Forall_app. split.
      * eapply Forall_impl; [exact Hrange|].
        cbn. intros d (j & Hj & Hjr). exists j. split; [exact Hj|lia].
      * constructor; [|constructor].
        exists (Db.seq_documents s + 1). split; [reflexivity|lia].
    + apply NoDup_app. split; [exact Hids|]. split; [|apply NoDup_singleton].
      intros o Ho Hn. apply list_elem_of_singleton in Hn. subst o.
      apply elem_of_map_inv in Ho. destruct Ho as (d & Hd & Hin).
      rewrite Forall_forall in Hrange. destruct (Hrange d Hin) as (j & Hj & Hjr).
      rewrite Hj in Hd. injection Hd as Hd. lia.
    + apply NoDup_app. split; [exact Hpaths|]. split; [|apply NoDup_singleton].
      intros o Ho Hn. apply list_elem_of_singleton in Hn. subst o.
      apply elem_of_map_inv in Ho. destruct Ho as (d & Hd & Hin).
      rewrite Forall_forall in Hfind. specialize (Hfind d Hin). cbn in Hfind.
      apply String.eqb_neq in Hfind. congruence.
Qed.

Lemma keys_ok_of_frame {A} (m : M Db.t A) :
  (forall docs q, preserves (documents_are docs q) m) -> preserves keys_ok m.
Proof.
  intros H s Hk. apply (keys_ok_frame s); [|exact Hk].
  apply H. split; reflexivity.
Qed.

Lemma nodup_map_filter {A K} (f : A -> K) (g : A -> bool) (l : list A) :
  NoDup (map f l) -> NoDup (map f (List.filter g l)).
Proof.
  induction l as [|x l IH]; cbn [map List.filter]; [auto|].
  intros Hnd. apply NoDup_cons in Hnd. destruct Hnd as [Hx Hnd].
  destruct (g x); [|auto].
  cbn [map]. apply NoDup_cons. split; [|auto].
  intros Hin. apply Hx. apply elem_of_map_inv in Hin.
  destruct Hin as (a & -> & Ha). apply elem_of_map.
  apply list_elem_of_In in Ha. apply filter_In in Ha.
  apply list_elem_of_In. tauto.
Qed.

Lemma forall_filter {A} (P : A -> Prop) (g : A -> bool) (l : list A) :
  Forall P l -> Forall P (List.filter g l).
Proof.
  induction 1 as [|x l Hx Hl IH]; cbn [List.filter]; [constructor|].
  destruct (g x); [constructor|]; assumption.
Qed.

Lemma keys_ok_delete_row i : preserves keys_ok (Db.delete_document_row i).
Proof.
  intros s (H0 & Hrange & Hids & Hpaths). unfold Db.delete_document_row.
  destruct (negb (Db.document_exists s i)); cbn [snd].
  - repeat split; assumption.
  - unfold keys_ok. cbn [Db.documents Db.seq_documents].
    repeat split; auto using forall_filter, nodup_map_filter.
Qed.

Lemma keys_ok_delete_document i now :
  preserves keys_ok (DocumentManager.delete_document i now).
Proof.
  unfold DocumentManager.delete_document.
  apply preserves_try_except; [|intros; apply preserves_ret].
  apply preserves_bind.
  { apply keys_ok_of_frame. intros docs q.
    apply preserves_transaction, frame_delete_index. }
  intros _. apply preserves_bind.
  { apply keys_ok_of_frame. intros docs q.
    unfold MetadataQueries.delete_document_metadata.
    apply preserves_transaction, frame_delete_metadata. }
  intros _. apply preserves_bind.
  { unfold DocumentQueries.delete_document.
    apply preserves_transaction, preserves_bind;
      [apply keys_ok_delete_row|intros; apply preserves_ret]. }
  intros success. apply preserves_bind; [|intros; apply preserves_ret].
  destruct success; [|apply preserves_ret].
  apply keys_ok_of_frame. intros docs q. apply frame_invalidate.
Qed.

Lemma keys_ok_empty : keys_ok Db.empty.
Proof.
  unfold keys_ok. cbn. repeat split; try constructor. lia.
Qed.

End KeysInvariant.

Section DigestInvariant.
Import Inv.

Lemma digests_ok_frame (s s' : Db.t) :
  documents_are (Db.documents s) (Db.seq_documents s) s' ->
  digests_ok s -> digests_ok s'.
Proof. intros [H1 H2]. unfold digests_ok. rewrite H1. auto. Qed.

Lemma digests_ok_of_frame {A} (m : M Db.t A) :
  (forall docs q, preserves (documents_are docs q) m) ->
  preserves digests_ok m.
Proof.
  intros H s Hk. apply (digests_ok_frame s); [|exact Hk].
  apply H. split; reflexivity.
Qed.

Lemma digests_ok_index_document p c md kw now :
  preserves digests_ok (DocumentManager.index_document p c md kw now).
Proof.
  intros s Hk.
  destruct (index_document_effect p c md kw now s)
    as [[_ Hsame]
       |[(row & i & _ & _ & Hc & _ & _ & _ & [Hdocs _] & _)
        |(_ & Hc & _ & _ & [Hdocs _] & _)]].
  - exact (digests_ok_frame _ _ Hsame Hk).
  - unfold digests_ok. rewrite Hdocs.
    apply Forall_forall. intros d Hd.
    apply elem_of_map_inv in Hd. destruct Hd as (r & -> & Hr).
    destruct (Db.id_is i (Document.id r)).
    + unfold updated_document.
      change (Document.content (Document.set_created_at ?d ?t))
        with (Document.content d).
      change (Document.content (Document.set_id ?d ?t))
        with (Document.content d).
      rewrite built_document_content.
      exact (built_document_digest p c md now Hc).
    + unfold digests_ok in Hk. rewrite Forall_forall in Hk. exact (Hk r Hr).
  - unfold digests_ok. rewrite Hdocs. apply Forall_app. split; [exact Hk|].
    constructor; [|constructor].
    change (Document.content (Document.set_id ?d ?t))
      with (Document.content d).
    rewrite built_document_content.
    exact (built_document_digest p c md now Hc).
Qed.

Lemma digests_ok_delete_document i now :
  preserves digests_ok (DocumentManager.delete_document i now).
Proof.
  unfold DocumentManager.delete_document.
  apply preserves_try_except; [|intros; apply preserves_ret].
  apply preserves_bind.
  { apply digests_ok_of_frame. intros docs q.
    apply preserves_transaction, frame_delete_index. }
  intros _. apply preserves_bind.
  { apply digests_ok_of_frame. intros docs q.
    apply preserves_transaction, frame_delete_metadata. }
  intros _. apply preserves_bind.
  { apply preserves_transaction, preserves_bind;
      [|intros; apply preserves_ret].
    intros s H. unfold Db.delete_document_row.
    destruct (negb (Db.document_exists s i)); cbn [snd]; [exact H|].
    unfold digests_ok. cbn [Db.documents]. apply forall_filter. exact H. }
  intros success. apply preserves_bind; [|intros; apply preserves_ret].
  destruct success; [|apply preserves_ret].
  apply digests_ok_of_frame. intros docs q. apply frame_invalidate.
Qed.

End DigestInvariant.

(** ** Invariants of the document table *)

(** X2. Ids and paths stay unique: if every document row has an id the
    counter handed out, no two rows share an id and no two rows share a
    path, the same holds after [DocumentManager.index_document] and after
    [DocumentManager.delete_document], whatever their arguments and
    whatever they return. *)
Theorem document_keys_stay_unique (s : Db.t) :
  Inv.keys_ok s ->
  (forall p c md kw now,
      Inv.keys_ok (snd (DocumentManager.index_document p c md kw now s)))
  /\ (forall i now,
         Inv.keys_ok (snd (DocumentManager.delete_document i now s))).
Proof.
  intros H. split.
  - intros p c md kw now. exact (keys_ok_index_document p c md kw now s H).
  - intros i now. exact (keys_ok_delete_document i now s H).
Qed.

Lemma document_keys_stay_unique_witness :
  Inv.keys_ok Demo.store
  /\ Inv.keys_ok
       (snd (DocumentManager.index_document "/tmp/b.md" "delta epsilon" []
               true Demo.stamps Demo.store))
  /\ Inv.keys_ok (snd (DocumentManager.delete_document 1 200 Demo.store)).
Proof.
  assert (H : Inv.keys_ok Demo.store)
    by exact (keys_ok_index_document _ _ _ _ _ Db.empty keys_ok_empty).
  split; [exact H|].
  destruct (document_keys_stay_unique Demo.store H) as [H1 H2].
  split; [apply H1|apply H2].
Defined.

(** X3. Stored digests stay in step with stored content: if every document
    row carries the SHA-256 digest and the UTF-8 size of its own content,
    the same holds after [DocumentManager.index_document] and after
    [DocumentManager.delete_document]. *)
Theorem document_digests_stay_current (s : Db.t) :
  Inv.digests_ok s ->
  (forall p c md kw now,
      Inv.digests_ok (snd (DocumentManager.index_document p c md kw now s)))
  /\ (forall i now,
         Inv.digests_ok (snd (DocumentManager.delete_document i now s))).
Proof.
  intros H. split.
  - intros p c md kw now. exact (digests_ok_index_document p c md kw now s H).
  - intros i now. exact (digests_ok_delete_document i now s H).
Qed.

Lemma document_digests_stay_current_witness :
  Inv.digests_ok Demo.store
  /\ Inv.digests_ok
       (snd (DocumentManager.index_document "/tmp/b.md" "delta epsilon" []
               true Demo.stamps Demo.store))
  /\ Inv.digests_ok (snd (DocumentManager.delete_document 1 200 Demo.store)).
Proof.
  assert (H0 : Inv.digests_ok Db.empty) by constructor.
  assert (H : Inv.digests_ok Demo.store)
    by exact (digests_ok_index_document _ _ _ _ _ Db.empty H0).
  split; [exact H|].
  destruct (document_digests_stay_current Demo.store H) as [H1 H2].
  split; [apply H1|apply H2].
Defined.
Section ReferenceInvariant.
Import Inv.

Lemma references_ok_intro (s : Db.t) docs metas idx :
  Db.documents s = docs -> Db.document_metadata s = metas ->
  Db.search_index s = idx ->
  Forall (fun m => existsb (fun d => Db.id_is (DocumentMetadata.document_id m)
                                       (Document.id d)) docs = true) metas ->
  Forall (fun e => existsb (fun d => Db.id_is (SearchIndex.document_id e)
                                       (Document.id d)) docs = true) idx ->
  references_ok s.
Proof. intros <- <- <- H1 H2. split; assumption. Qed.

Lemma refs_insert_metadata m :
  preserves references_ok (Db.insert_or_replace_metadata m).
Proof.
  intros s [Hm Hi]. unfold Db.insert_or_replace_metadata.
  destruct (negb (Db.document_exists s _)) eqn:Hex; cbn [snd];
    [split; assumption|].
  apply negb_false_iff in Hex.
  eapply references_ok_intro; try reflexivity; cbn.
  - apply Forall_app. split; [apply forall_filter; exact Hm|].
    constructor; [exact Hex|constructor].
  - exact Hi.
Qed.

Lemma refs_insert_index e :
  preserves references_ok (Db.insert_or_replace_search_index e).
Proof.
  intros s [Hm Hi]. unfold Db.insert_or_replace_search_index.
  destruct (negb (Db.check_search_index e)); cbn [snd]; [split; assumption|].
  destruct (negb (Db.document_exists s _)) eqn:Hex; cbn [snd];
    [split; assumption|].
  apply negb_false_iff in Hex.
  eapply references_ok_intro; try reflexivity; cbn.
  - exact Hm.
  - apply Forall_app. split; [apply forall_filter; exact Hi|].
    constructor; [exact Hex|constructor].
Qed.

Lemma refs_delete_metadata i :
  preserves references_ok (Db.delete_metadata_rows i).
Proof.
  intros s [Hm Hi]. unfold Db.delete_metadata_rows. cbn [snd].
  eapply references_ok_intro; try reflexivity; cbn;
    [apply forall_filter; exact Hm|exact Hi].
Qed.

Lemma refs_delete_index i :
  preserves references_ok (Db.delete_search_index_rows i).
Proof.
  intros s [Hm Hi]. unfold Db.delete_search_index_rows. cbn [snd].
  eapply references_ok_intro; try reflexivity; cbn;
    [exact Hm|apply forall_filter; exact Hi].
Qed.

Lemma refs_cleanup now :
  preserves references_ok (SearchQueries.cleanup_expired_cache now).
Proof.
  apply preserves_transaction. intros s [Hm Hi]. split; assumption.
Qed.

Lemma exists_after_replace (docs : list Document.t) (i j : Z)
  (U : Document.t) :
  Document.id U = Some i ->
  existsb (fun d => Db.id_is j (Document.id d))
          (map (fun r => if Db.id_is i (Document.id r) then U else r) docs)
  = existsb (fun d => Db.id_is j (Document.id d)) docs.
Proof.
  intros HU. induction docs as [|d docs IH]; [reflexivity|].
  cbn [map existsb]. rewrite IH. f_equal.
  destruct (Db.id_is i (Document.id d)) eqn:Hd; [|reflexivity].
  apply id_is_eq in Hd. rewrite HU, Hd. reflexivity.
Qed.

Lemma refs_update_row D :
  preserves references_ok (Db.update_document_row D).
Proof.
  intros s [Hm Hi]. unfold Db.update_document_row.
  destruct (Document.id D) as [i|] eqn:HD; cbn [snd]; [|split; assumption].
  repeat match goal with
         | |- context [if ?b then _ else _] =>
             destruct b; cbn [snd]; [split; assumption|]
         end.
  eapply references_ok_intro; try reflexivity; cbn.
  - eapply Forall_impl; [exact Hm|]. cbn. intros m H.
    rewrite exists_after_replace by exact HD. exact H.
  - eapply Forall_impl; [exact Hi|]. cbn. intros e H.
    rewrite exists_after_replace by exact HD. exact H.
Qed.

Lemma refs_insert_document D :
  preserves references_ok (Db.insert_document D).
Proof.
  intros s [Hm Hi]. unfold Db.insert_document.
  repeat match goal with
         | |- context [if ?b then _ else _] =>
             destruct b; cbn [snd]; [split; assumption|]
         end.
  eapply references_ok_intro; try reflexivity; cbn.
  - eapply Forall_impl; [exact Hm|]. cbn. intros m H.
    rewrite existsb_app. unfold Db.document_exists in H. rewrite H.
    reflexivity.
  - eapply Forall_impl; [exact Hi|]. cbn. intros e H.
    rewrite existsb_app. unfold Db.document_exists in H. rewrite H.
    reflexivity.
Qed.

Lemma exists_after_delete (docs : list Document.t) (i j : Z) :
  j <> i ->
  existsb (fun d => Db.id_is j (Document.id d)) docs = true ->
  existsb (fun d => Db.id_is j (Document.id d))
          (List.filter (fun d => negb (Db.id_is i (Document.id d))) docs)
  = true.
Proof.
  intros Hne. rewrite !existsb_exists. intros (d & Hin & Hd).
  exists d. split; [|exact Hd].
  apply filter_In. split; [exact Hin|].
  apply id_is_eq in Hd. rewrite Hd. unfold Db.id_is.
  apply negb_true_iff, Z.eqb_neq. exact Hne.
Qed.

Lemma forall_filter_strong {A} (P Q : A -> Prop) (g : A -> bool)
  (l : list A) :
  Forall P l -> (forall a, P a -> g a = true -> Q a) ->
  Forall Q (List.filter g l).
Proof.
  intros H HPQ. induction H as [|x l Hx Hl IH]; cbn [List.filter];
    [constructor|].
  destruct (g x) eqn:Hg; [constructor; auto|assumption].
Qed.

Lemma refs_delete_row i :
  preserves references_ok (Db.delete_document_row i).
Proof.
  intros s [Hm Hi]. unfold Db.delete_document_row.
  destruct (negb (Db.document_exists s i)); cbn [snd]; [split; assumption|].
  eapply references_ok_intro; try reflexivity; cbn.
  - eapply forall_filter_strong; [exact Hm|]. cbn. intros m H Hg.
    apply exists_after_delete; [|exact H].
    apply negb_true_iff, Z.eqb_neq in Hg. exact Hg.
  - eapply forall_filter_strong; [exact Hi|]. cbn. intros e H Hg.
    apply exists_after_delete; [|exact H].
    apply negb_true_iff, Z.eqb_neq in Hg. exact Hg.
Qed.

Lemma refs_invalidate now :
  preserves references_ok (DocumentManager._invalidate_search_cache now).
Proof.
  apply preserves_try_except; [|intros; apply preserves_ret].
  apply preserves_bind; [apply refs_cleanup|intros; apply preserves_ret].
Qed.

Lemma refs_index_keywords i content :
  preserves references_ok
    (DocumentManager._index_document_keywords i content).
Proof.
  unfold DocumentManager._index_document_keywords.
  apply preserves_try_except; [|intros; apply preserves_ret].
  apply preserves_bind.
  - apply preserves_transaction, refs_delete_index.
  - intros _. destruct (DocumentManager.search_entries i content).
    + apply preserves_ret.
    + apply preserves_bind; [|intros; apply preserves_ret].
      apply preserves_transaction, preserves_bind;
        [|intros; apply preserves_ret].
      apply preserves_executemany. intros e. apply refs_insert_index.
Qed.

Lemma refs_bulk_metadata i md t :
  preserves references_ok (MetadataQueries.bulk_create_metadata i md t).
Proof.
  unfold MetadataQueries.bulk_create_metadata.
  apply preserves_transaction, preserves_bind;
    [|intros; apply preserves_ret].
  apply preserves_executemany. intros e. apply refs_insert_metadata.
Qed.

Lemma refs_index_document p c md kw now :
  preserves references_ok (DocumentManager.index_document p c md kw now).
Proof.
  unfold DocumentManager.index_document.
  apply preserves_try_except; [|intros; apply preserves_ret].
  destruct (_ || _); [apply preserves_ret|].
  apply preserves_bind; [intros s H; exact H|].
  intros existing. apply preserves_bind.
  - destruct existing as [existing|].
    + apply preserves_bind; [|intros; apply preserves_ret].
      apply preserves_transaction, preserves_bind;
        [apply refs_update_row|intros; apply preserves_ret].
    + apply preserves_bind; [|intros; apply preserves_ret].
      unfold DocumentQueries.create_document.
      apply preserves_transaction.
      match goal with |- preserves _ (Db.insert_document ?d) =>
        apply (refs_insert_document d) end.
  - intros [document_id|]; [|apply preserves_ret].
    apply preserves_bind.
    { destruct md; [apply preserves_ret|apply refs_bulk_metadata]. }
    intros _. apply preserves_bind.
    { destruct kw; [apply refs_index_keywords|apply preserves_ret]. }
    intros _. apply preserves_bind; [apply refs_invalidate|].
    intros _. apply preserves_ret.
Qed.

Lemma refs_delete_document i now :
  preserves references_ok (DocumentManager.delete_document i now).
Proof.
  unfold DocumentManager.delete_document.
  apply preserves_try_except; [|intros; apply preserves_ret].
  apply preserves_bind.
  { apply preserves_transaction, refs_delete_index. }
  intros _. apply preserves_bind.
  { apply preserves_transaction, refs_delete_metadata. }
  intros _. apply preserves_bind.
  { apply preserves_transaction, preserves_bind;
      [apply refs_delete_row|intros; apply preserves_ret]. }
  intros success. apply preserves_bind; [|intros; apply preserves_ret].
  destruct success; [apply refs_invalidate|apply preserves_ret].
Qed.

End ReferenceInvariant.

Section IndexRowsInvariant.
Import Inv.

Ltac rows_prim f :=
  intros s H; unfold f;
  repeat match goal with
         | |- context [match ?b with Some _ => _ | None => _ end] =>
             destruct b; cbn [snd]; [|exact H]
         | |- context [if ?b then _ else _] =>
             destruct b eqn:?; cbn [snd]; [exact H|]
         end;
  try exact H.

Lemma rows_insert_metadata m :
  preserves index_rows_ok (Db.insert_or_replace_metadata m).
Proof. rows_prim Db.insert_or_replace_metadata. Qed.

Lemma rows_delete_metadata i :
  preserves index_rows_ok (Db.delete_metadata_rows i).
Proof. rows_prim Db.delete_metadata_rows. Qed.

Lemma rows_update_row D :
  preserves index_rows_ok (Db.update_document_row D).
Proof. rows_prim Db.update_document_row. Qed.

Lemma rows_insert_document D :
  preserves index_rows_ok (Db.insert_document D).
Proof. rows_prim Db.insert_document. Qed.

Lemma rows_cleanup now :
  preserves index_rows_ok (SearchQueries.cleanup_expired_cache now).
Proof. apply preserves_transaction. intros s H. exact H. Qed.

Lemma rows_insert_index e :
  preserves index_rows_ok (Db.insert_or_replace_search_index e).
Proof.
  rows_prim Db.insert_or_replace_search_index.
  unfold index_rows_ok. cbn. apply Forall_app. split.
  - apply forall_filter. exact H.
  - constructor; [|constructor].
    match goal with Hc : negb (Db.check_search_index e) = false |- _ =>
      apply negb_false_iff in Hc; exact Hc end.
Qed.

Lemma rows_delete_index i :
  preserves index_rows_ok (Db.delete_search_index_rows i).
Proof.
  intros s H. unfold Db.delete_search_index_rows, index_rows_ok. cbn.
  apply forall_filter. exact H.
Qed.

Lemma rows_delete_row i :
  preserves index_rows_ok (Db.delete_document_row i).
Proof.
  rows_prim Db.delete_document_row.
  unfold index_rows_ok. cbn. apply forall_filter. exact H.
Qed.

Lemma rows_invalidate now :
  preserves index_rows_ok (DocumentManager._invalidate_search_cache now).
Proof.
  apply preserves_try_except; [|intros; apply preserves_ret].
  apply preserves_bind; [apply rows_cleanup|intros; apply preserves_ret].
Qed.

Lemma rows_index_keywords i content :
  preserves index_rows_ok
    (DocumentManager._index_document_keywords i content).
Proof.
  unfold DocumentManager._index_document_keywords.
  apply preserves_try_except; [|intros; apply preserves_ret].
  apply preserves_bind.
  - apply preserves_transaction, rows_delete_index.
  - intros _. destruct (DocumentManager.search_entries i content).
    + apply preserves_ret.
    + apply preserves_bind; [|intros; apply preserves_ret].
      apply preserves_transaction, preserves_bind;
        [|intros; apply preserves_ret].
      apply preserves_executemany. intros e. apply rows_insert_index.
Qed.

Lemma rows_index_document p c md kw now :
  preserves index_rows_ok (DocumentManager.index_document p c md kw now).
Proof.
  unfold DocumentManager.index_document.
  apply preserves_try_except; [|intros; apply preserves_ret].
  destruct (_ || _); [apply preserves_ret|].
  apply preserves_bind; [intros s H; exact H|].
  intros existing. apply preserves_bind.
  - destruct existing as [existing|].
    + apply preserves_bind; [|intros; apply preserves_ret].
      apply preserves_transaction, preserves_bind;
        [apply rows_update_row|intros; apply preserves_ret].
    + apply preserves_bind; [|intros; apply preserves_ret].
      unfold DocumentQueries.create_document.
      apply preserves_transaction.
      match goal with |- preserves _ (Db.insert_document ?d) =>
        apply (rows_insert_document d) end.
  - intros [document_id|]; [|apply preserves_ret].
    apply preserves_bind.
    { destruct md; [apply preserves_ret|].
      unfold MetadataQueries.bulk_create_metadata.
      apply preserves_transaction, preserves_bind;
        [|intros; apply preserves_ret].
      apply preserves_executemany. intros e. apply rows_insert_metadata. }
    intros _. apply preserves_bind.
    { destruct kw; [apply rows_index_keywords|apply preserves_ret]. }
    intros _. apply preserves_bind; [apply rows_invalidate|].
    intros _. apply preserves_ret.
Qed.

Lemma rows_delete_document i now :
  preserves index_rows_ok (DocumentManager.delete_document i now).
Proof.
  unfold DocumentManager.delete_document.
  apply preserves_try_except; [|intros; apply preserves_ret].
  apply preserves_bind.
  { apply preserves_transaction, rows_delete_index. }
  intros _. apply preserves_bind.
  { apply preserves_transaction, rows_delete_metadata. }
  intros _. apply preserves_bind.
  { apply preserves_transaction, preserves_bind;
      [apply rows_delete_row|intros; apply preserves_ret]. }
  intros success. apply preserves_bind; [|intros; apply preserves_ret].
  destruct success; [apply rows_invalidate|apply preserves_ret].
Qed.

End IndexRowsInvariant.

(** X4. No dangling references: if every row of [document_metadata] and of
    [search_index] references a document that is in [documents], the same
    holds after [DocumentManager.index_document] and after
    [DocumentManager.delete_document], also when they fail half way. *)
Theorem references_stay_valid (s : Db.t) :
  Inv.references_ok s ->
  (forall p c md kw now,
      Inv.references_ok
        (snd (DocumentManager.index_document p c md kw now s)))
  /\ (forall i now,
         Inv.references_ok (snd (DocumentManager.delete_document i now s))).
Proof.
  intros H. split.
  - intros p c md kw now. exact (refs_index_document p c md kw now s H).
  - intros i now. exact (refs_delete_document i now s H).
Qed.

Lemma references_stay_valid_witness :
  Inv.references_ok Demo.store
  /\ Inv.references_ok
       (snd (DocumentManager.index_document "/tmp/b.md" "delta epsilon"
               [("title", "More")] true Demo.stamps Demo.store))
  /\ Inv.references_ok
       (snd (DocumentManager.delete_document 1 200 Demo.store)).
Proof.
  assert (H0 : Inv.references_ok Db.empty) by (split; constructor).
  assert (H : Inv.references_ok Demo.store)
    by exact (refs_index_document _ _ _ _ _ Db.empty H0).
  split; [exact H|].
  destruct (references_stay_valid Demo.store H) as [H1 H2].
  split; [apply H1|apply H2].
Defined.

(** X5. Stored keyword rows stay within the schema's bounds: if every row
    of [search_index] has a positive frequency and a relevance score
    between 0 and 1, the same holds after
    [DocumentManager.index_document] and after
    [DocumentManager.delete_document]: a score outside the range never
    reaches the table. *)
Theorem index_rows_stay_in_range (s : Db.t) :
  Inv.index_rows_ok s ->
  (forall p c md kw now,
      Inv.index_rows_ok
        (snd (DocumentManager.index_document p c md kw now s)))
  /\ (forall i now,
         Inv.index_rows_ok (snd (DocumentManager.delete_document i now s))).
Proof.
  intros H. split.
  - intros p c md kw now. exact (rows_index_document p c md kw now s H).
  - intros i now. exact (rows_delete_document i now s H).
Qed.

Lemma index_rows_stay_in_range_witness :
  Inv.index_rows_ok Demo.store
  /\ Inv.index_rows_ok
       (snd (DocumentManager.index_document "/tmp/b.md" "delta epsilon"
               [] true Demo.stamps Demo.store))
  /\ Inv.index_rows_ok
       (snd (DocumentManager.delete_document 1 200 Demo.store)).
Proof.
  assert (H0 : Inv.index_rows_ok Db.empty) by constructor.
  assert (H : Inv.index_rows_ok Demo.store)
    by exact (rows_index_document _ _ _ _ _ Db.empty H0).
  split; [exact H|].
  destruct (index_rows_stay_in_range Demo.store H) as [H1 H2].
  split; [apply H1|apply H2].
Defined.
Section KeywordBatch.

Lemma executemany_raises {A} (stmt : A -> M Db.t Z) (bad : A -> bool)
  (l : list A) (s : Db.t) :
  (forall a s, bad a = true -> exists x, stmt a s = (Raise x, s)) ->
  existsb bad l = true ->
  exists x s', Db.executemany stmt l s = (Raise x, s').
Proof.
  intros Hbad. revert s. induction l as [|a l IH]; intros s; cbn [existsb];
    [discriminate|].
  intros H. cbn [Db.executemany]. unfold bind.
  destruct (stmt a s) as [[r|x] s1] eqn:Hs.
  - destruct (bad a) eqn:Ha.
    + destruct (Hbad a s Ha) as [x Hx]. congruence.
    + apply IH. exact H.
  - eauto.
Qed.

Lemma insert_index_check_fails e s :
  negb (Db.check_search_index e) = true ->
  exists x, Db.insert_or_replace_search_index e s = (Raise x, s).
Proof.
  intros H. unfold Db.insert_or_replace_search_index. rewrite H. eauto.
Qed.

End KeywordBatch.

(** ** Keyword indexing *)

(** X6. Keyword indexing is all or nothing: when one of the entries built
    for a document has a relevance score (or frequency) the table's CHECK
    refuses, [_index_document_keywords] stores none of the entries; the
    document is left with its old keyword rows deleted, and no error
    reaches the caller. *)
Theorem refused_keyword_drops_all (document_id : Z) (content : string)
  (s : Db.t) :
  existsb (fun e => negb (Db.check_search_index e))
          (DocumentManager.search_entries document_id content) = true ->
  DocumentManager._index_document_keywords document_id content s
  = (Ok tt,
     Db.set_search_index s
       (List.filter (fun e => negb (SearchIndex.document_id e =? document_id))
                    (Db.search_index s))
       (Db.seq_search_index s)).
Proof.
  intros Hbad.
  unfold DocumentManager._index_document_keywords, try_except.
  erewrite bind_eq_ok by reflexivity.
  destruct (DocumentManager.search_entries document_id content)
    as [|e entries] eqn:He; [discriminate|].
  set (s1 := Db.set_search_index _ _ _).
  destruct (executemany_raises Db.insert_or_replace_search_index
              (fun e => negb (Db.check_search_index e)) (e :: entries) s1)
    as (x & s' & Hx); [intros a s0; apply insert_index_check_fails|exact Hbad|].
  erewrite bind_eq_raise; [reflexivity|].
  unfold SearchQueries.bulk_create_search_index, Db.transaction.
  erewrite bind_eq_raise by exact Hx. reflexivity.
Qed.

Lemma refused_keyword_drops_all_witness :
  existsb (fun e => negb (Db.check_search_index e))
          (DocumentManager.search_entries 1 "alpha alpha alpha") = true
  /\ DocumentManager._index_document_keywords 1 "alpha alpha alpha" Demo.store
     = (Ok tt,
        Db.set_search_index Demo.store
          (List.filter (fun e => negb (SearchIndex.document_id e =? 1))
                       (Db.search_index Demo.store))
          (Db.seq_search_index Demo.store)).
Proof.
  split; [vm_compute; reflexivity|].
  apply (refused_keyword_drops_all 1 "alpha alpha alpha" Demo.store).
  vm_compute. reflexivity.
Defined.
(** ** Relevance scores *)

(** X7. For a keyword that makes up at most half of the words of a
    non-empty document, the score [SearchIndex.calculate_relevance_score]
    computes lies between 0 and 1. *)
Theorem relevance_in_unit_interval (f n : Z) :
  0 <= f -> 2 * f <= n ->
  (0 <= SearchIndex.relevance f n <= 1)%Q.
Proof.
  intros Hf Hn. unfold SearchIndex.relevance.
  destruct (Z.eqb_spec n 0) as [->|Hn0]; [split; discriminate|].
  cbv zeta.
  assert (Hnpos : (0 < inject_Z n)%Q).
  { change (inject_Z 0 < inject_Z n)%Q. rewrite <- Zlt_Qlt. lia. }
  assert (Hf0 : (0 <= inject_Z f)%Q).
  { change (inject_Z 0 <= inject_Z f)%Q. rewrite <- Zle_Qle. lia. }
  assert (Hfn : (2 * inject_Z f <= inject_Z n)%Q).
  { change 2%Q with (inject_Z 2). rewrite <- inject_Z_mult, <- Zle_Qle. lia. }
  set (tf := (inject_Z f / inject_Z n)%Q).
  set (b := Qmin 1 (inject_Z f / 5)).
  assert (Htf0 : (0 <= tf)%Q).
  { unfold tf. apply Qle_shift_div_l; [exact Hnpos|]. lra. }
  assert (Htf : (tf <= 1 # 2)%Q).
  { unfold tf. apply Qle_shift_div_r; [exact Hnpos|]. lra. }
  assert (Hb1 : (b <= 1)%Q) by apply Q.le_min_l.
  assert (Hb0 : (0 <= b)%Q).
  { unfold b. apply Q.min_glb; [discriminate|].
    apply Qle_shift_div_l; [reflexivity|]. lra. }
  split; nra.
Qed.

Lemma relevance_in_unit_interval_witness :
  (0 <= SearchIndex.relevance 1 3 <= 1)%Q.
Proof. apply (relevance_in_unit_interval 1 3); lia. Defined.
Section CacheRoundTrip.

Lemma find_after_replace (h : string) (now : Z) (c : SearchCache.t)
  (l : list SearchCache.t) :
  SearchCache.query_hash c = h -> SearchQueries.unexpired now c = true ->
  List.find (fun r => String.eqb (SearchCache.query_hash r) h
                      && SearchQueries.unexpired now r)
            (List.filter
               (fun r => negb (String.eqb (SearchCache.query_hash r) h)) l
             ++ [c])
  = Some c.
Proof.
  intros Hh Hu. induction l as [|r l IH]; cbn [List.filter app List.find].
  - rewrite Hh, String.eqb_refl, Hu. reflexivity.
  - destruct (String.eqb (SearchCache.query_hash r) h) eqn:Hr; cbn [negb].
    + exact IH.
    + cbn [app List.find]. rewrite Hr. cbn [andb]. exact IH.
Qed.

End CacheRoundTrip.

(** ** The search cache *)

(** X8. What [create_search_cache] stores, [get_search_cache] returns: after
    an entry is stored under a hash, a lookup of that hash before the
    entry's expiry returns an entry with the id the insert returned and the
    stored query text, results, expiry and hit count, whatever else the
    table held under that hash before. *)
Theorem cache_create_then_get (c : SearchCache.t) (now now' : Z) (s s1 : Db.t)
  (i : Z) :
  SearchQueries.create_search_cache c now s = (Ok i, s1) ->
  SearchQueries.unexpired now' c = true ->
  exists c' s2,
    SearchQueries.get_search_cache (SearchCache.query_hash c) now' s1
    = (Ok (Some c'), s2)
    /\ SearchCache.id c' = Some i
    /\ SearchCache.query_text c' = SearchCache.query_text c
    /\ SearchCache.results c' = SearchCache.results c
    /\ SearchCache.expires_at c' = SearchCache.expires_at c
    /\ SearchCache.hit_count c' = SearchCache.hit_count c.
Proof.
  unfold SearchQueries.create_search_cache, Db.transaction.
  destruct (negb (Db.check_search_cache _)); [discriminate|].
  intros [= <- <-] Hu.
  unfold SearchQueries.get_search_cache, bind, get.
  cbn [Db.search_cache Db.set_search_cache].
  rewrite find_after_replace; [|reflexivity|exact Hu].
  do 2 eexists. split; [reflexivity|]. repeat split; reflexivity.
Qed.

Lemma cache_create_then_get_witness :
  SearchQueries.create_search_cache DemoCache.entry 100 Demo.store
  = (Ok 1, DemoCache.store)
  /\ SearchQueries.unexpired 500 DemoCache.entry = true
  /\ exists c' s2,
      SearchQueries.get_search_cache
        (SearchCache.query_hash DemoCache.entry) 500 DemoCache.store
      = (Ok (Some c'), s2)
      /\ SearchCache.id c' = Some 1
      /\ SearchCache.query_text c' = SearchCache.query_text DemoCache.entry
      /\ SearchCache.results c' = SearchCache.results DemoCache.entry
      /\ SearchCache.expires_at c' = SearchCache.expires_at DemoCache.entry
      /\ SearchCache.hit_count c' = SearchCache.hit_count DemoCache.entry.
Proof.
  split; [vm_compute; reflexivity|].
  split; [reflexivity|].
  apply (cache_create_then_get DemoCache.entry 100 500 Demo.store
           DemoCache.store 1);
    vm_compute; reflexivity.
Defined.
Section SearchCacheHit.
Import Tool SearchDocumentsTool.

Variable score_and_format :
  Db.t -> string -> Z -> option string -> string -> dict Value.t.

Lemma lift_eq {A} (m : M Db.t A) (w : World.t) r s' :
  m (World.db w) = (r, s') ->
  World.lift m w = (r, World.mk s' (World.trace w)).
Proof. intros H. unfold World.lift. rewrite H. reflexivity. Qed.

Lemma get_cached_search_hit key now w c :
  List.find (fun r => String.eqb (SearchCache.query_hash r) key
                      && SearchQueries.unexpired now r)
            (Db.search_cache (World.db w)) = Some c ->
  _get_cached_search key now w
  = (Ok (Some (SearchCache.results c)),
     World.mk (snd (SearchQueries._update_cache_hit_count (SearchCache.id c)
                      (World.db w)))
              (World.trace w)).
Proof.
  intros Hfind. unfold _get_cached_search, try_except.
  assert (Hlift :
            World.lift (SearchQueries.get_search_cache key now) w
            = (Ok (Some c),
               World.mk
                 (snd (SearchQueries._update_cache_hit_count
                         (SearchCache.id c) (World.db w)))
                 (World.trace w))).
  { apply lift_eq. unfold SearchQueries.get_search_cache, bind, get.
    rewrite Hfind. reflexivity. }
  rewrite (bind_eq_ok _ _ _ _ _ Hlift). reflexivity.
Qed.

Lemma get_cached_search_miss key now w :
  List.find (fun r => String.eqb (SearchCache.query_hash r) key
                      && SearchQueries.unexpired now r)
            (Db.search_cache (World.db w)) = None ->
  _get_cached_search key now w = (Ok None, w).
Proof.
  intros Hfind. unfold _get_cached_search, try_except.
  assert (Hlift :
            World.lift (SearchQueries.get_search_cache key now) w
            = (Ok None, w)).
  { unfold World.lift, SearchQueries.get_search_cache, bind, get.
    rewrite Hfind. destruct w; reflexivity. }
  rewrite (bind_eq_ok _ _ _ _ _ Hlift). reflexivity.
Qed.

Lemma execute_hit (now t_created t_expiry_base : Z) (search_time_ms : Q)
  (a : args) (w : World.t) (limit_text : string) (c : SearchCache.t)
  (d : dict Value.t) :
  _normalize_query (query a) <> "" ->
  format_int (limit a) = Some limit_text ->
  List.find
    (fun r =>
       String.eqb (SearchCache.query_hash r)
         (_generate_cache_key (_normalize_query (query a)) limit_text
            (file_type a) (sort_by a))
       && SearchQueries.unexpired now r)
    (Db.search_cache (World.db w)) = Some c ->
  SearchCache.results c = VDict d -> d <> [] ->
  _execute_tool score_and_format now t_created t_expiry_base search_time_ms
    a w
  = (Ok (success_result
           (dict_set (dict_set d "search_time_ms" (VFloat search_time_ms))
              "from_cache" (VBool true))
           [("tool_version", VStr "1.0"); ("search_method", VStr "cached");
            ("cache_hit", VBool true)]),
     World.mk
       (snd (SearchQueries._update_cache_hit_count (SearchCache.id c)
               (World.db w)))
       (World.trace w)).
Proof.
  intros Hq Hl Hfind Hres Hd.
  unfold _execute_tool, try_except.
  apply String.eqb_neq in Hq. rewrite Hq, Hl.
  erewrite bind_eq_ok by (apply get_cached_search_hit; exact Hfind).
  rewrite Hres. destruct d; [contradiction|]. reflexivity.
Qed.

End SearchCacheHit.

Section SearchCacheMiss.
Import Tool SearchDocumentsTool SearchResponse.

Variable score_and_format :
  Db.t -> string -> Z -> option string -> string -> dict Value.t.

Lemma cache_search_results_stored key results nq tc te now w :
  tc < te + 1800 ->
  _cache_search_results key results nq tc te now w
  = (Ok tt,
     World.mk
       (Db.set_search_cache (World.db w)
          (List.filter
             (fun r => negb (String.eqb (SearchCache.query_hash r) key))
             (Db.search_cache (World.db w))
           ++ [SearchCache.set_id (cache_entry key results nq tc te)
                 (Some (Db.seq_search_cache (World.db w) + 1))])
          (Db.seq_search_cache (World.db w) + 1))
       (World.trace w)).
Proof.
  intros Ht. unfold _cache_search_results, try_except.
  assert (Hlift :
            World.lift
              (SearchQueries.create_search_cache
                 (cache_entry key results nq tc te) now) w
            = (Ok (Db.seq_search_cache (World.db w) + 1),
               World.mk
                 (Db.set_search_cache (World.db w)
                    (List.filter
                       (fun r => negb (String.eqb (SearchCache.query_hash r)
                                                  key))
                       (Db.search_cache (World.db w))
                     ++ [SearchCache.set_id
                           (cache_entry key results nq tc te)
                           (Some (Db.seq_search_cache (World.db w) + 1))])
                    (Db.seq_search_cache (World.db w) + 1))
                 (World.trace w))).
  { apply lift_eq.
    unfold SearchQueries.create_search_cache, Db.transaction, cache_entry,
      Db.check_search_cache, search_cache_ttl_minutes.
    cbn [SearchCache.created_at SearchCache.expires_at SearchCache.hit_count
         SearchCache.query_hash SearchCache.query_text SearchCache.results].
    replace (tc <? te + 30 * 60) with true
      by (symmetry; apply Z.ltb_lt; lia).
    reflexivity. }
  unfold cache_entry in Hlift.
  rewrite (bind_eq_ok _ _ _ _ _ Hlift). reflexivity.
Qed.

Lemma execute_miss (now tc te : Z) (ms : Q) (a : args) (w : World.t)
  (limit_text : string) :
  _normalize_query (query a) <> "" ->
  format_int (limit a) = Some limit_text ->
  List.find
    (fun r =>
       String.eqb (SearchCache.query_hash r)
         (_generate_cache_key (_normalize_query (query a)) limit_text
            (file_type a) (sort_by a))
       && SearchQueries.unexpired now r)
    (Db.search_cache (World.db w)) = None ->
  tc < te + 1800 ->
  _execute_tool score_and_format now tc te ms a w
  = (Ok (success_result
           (response_data score_and_format ms a (World.db w))
           [("tool_version", VStr "1.0");
            ("search_method", VStr "database");
            ("performance_target_met", VBool (negb (Qle_bool 200 ms)));
            ("cache_hit", VBool false)]),
     World.mk
       (Db.set_search_cache (World.db w)
          (List.filter
             (fun r =>
                negb (String.eqb (SearchCache.query_hash r)
                        (_generate_cache_key (_normalize_query (query a))
                           limit_text (file_type a) (sort_by a))))
             (Db.search_cache (World.db w))
           ++ [SearchCache.set_id
                 (cache_entry
                    (_generate_cache_key (_normalize_query (query a))
                       limit_text (file_type a) (sort_by a))
                    (response_data score_and_format ms a (World.db w))
                    (_normalize_query (query a)) tc te)
                 (Some (Db.seq_search_cache (World.db w) + 1))])
          (Db.seq_search_cache (World.db w) + 1))
       (World.trace w
        ++ [World.SearchIndexScan (_normalize_query (query a))
              (limit_value (limit a) * 2)])).
Proof.
  intros Hq Hl Hfind Ht.
  unfold _execute_tool, try_except.
  apply String.eqb_neq in Hq. rewrite Hq, Hl.
  rewrite (bind_eq_ok _ _ _ _ _ (get_cached_search_miss _ _ _ Hfind)).
  unfold search_and_cache.
  erewrite bind_eq_ok by reflexivity.
  erewrite bind_eq_ok by reflexivity.
  fold (file_type_filter a).
  cbn [World.db].
  fold (response_data score_and_format ms a (World.db w)).
  erewrite bind_eq_ok
    by (apply cache_search_results_stored; exact Ht).
  reflexivity.
Qed.

End SearchCacheMiss.
(** ** searchDocuments and its cache *)

(** X9. A cache hit is answered from the cache alone: when the store holds
    an unexpired entry under the key of the search and the entry decodes to
    a non-empty object, [searchDocuments] returns that object with only
    [search_time_ms] and [from_cache] overwritten, marks the result as
    cached, records no scan of the search index, and changes nothing in the
    store but the hit count of that entry. *)
Theorem cache_hit_answers_from_cache
  (score_and_format : Db.t -> string -> Z -> option string -> string
                      -> dict Value.t)
  (now t_created t_expiry_base : Z) (search_time_ms : Q)
  (a : SearchDocumentsTool.args) (w : World.t) (limit_text : string)
  (c : SearchCache.t) (d : dict Value.t) :
  SearchDocumentsTool._normalize_query (SearchDocumentsTool.query a) <> "" ->
  SearchDocumentsTool.format_int (SearchDocumentsTool.limit a)
  = Some limit_text ->
  List.find
    (fun r =>
       String.eqb (SearchCache.query_hash r)
         (SearchDocumentsTool._generate_cache_key
            (SearchDocumentsTool._normalize_query
               (SearchDocumentsTool.query a))
            limit_text (SearchDocumentsTool.file_type a)
            (SearchDocumentsTool.sort_by a))
       && SearchQueries.unexpired now r)
    (Db.search_cache (World.db w)) = Some c ->
  SearchCache.results c = VDict d -> d <> [] ->
  SearchDocumentsTool._execute_tool score_and_format now t_created
    t_expiry_base search_time_ms a w
  = (Ok (Tool.success_result
           (dict_set (dict_set d "search_time_ms" (VFloat search_time_ms))
              "from_cache" (VBool true))
           [("tool_version", VStr "1.0"); ("search_method", VStr "cached");
            ("cache_hit", VBool true)]),
     World.mk
       (snd (SearchQueries._update_cache_hit_count (SearchCache.id c)
               (World.db w)))
       (World.trace w)).
Proof.
  exact (execute_hit score_and_format now t_created t_expiry_base
           search_time_ms a w limit_text c d).
Qed.

Lemma cache_hit_answers_from_cache_witness :
  exists c,
    List.find
      (fun r => String.eqb (SearchCache.query_hash r) DemoSearch.cache_key
                && SearchQueries.unexpired 500 r)
      (Db.search_cache (World.db DemoSearch.warm)) = Some c
    /\ SearchCache.results c = VDict DemoSearch.cached
    /\ SearchDocumentsTool._execute_tool DemoSearch.score_and_format 500 501
         502 7 DemoSearch.search_args DemoSearch.warm
       = (Ok (Tool.success_result
                (dict_set
                   (dict_set DemoSearch.cached "search_time_ms" (VFloat 7))
                   "from_cache" (VBool true))
                [("tool_version", VStr "1.0");
                 ("search_method", VStr "cached");
                 ("cache_hit", VBool true)]),
          World.mk
            (snd (SearchQueries._update_cache_hit_count (SearchCache.id c)
                    (World.db DemoSearch.warm)))
            (World.trace DemoSearch.warm)).
Proof.
  eexists. split; [vm_compute; reflexivity|].
  split; [reflexivity|].
  apply (cache_hit_answers_from_cache DemoSearch.score_and_format 500 501 502
           7 DemoSearch.search_args DemoSearch.warm "10").
  - vm_compute. discriminate.
  - reflexivity.
  - vm_compute. reflexivity.
  - reflexivity.
  - discriminate.
Defined.

(** X10. A search repeated before its cache entry expires is served from
    the cache: after a miss whose response was cached, the same search
    returns the response of the first call with [search_time_ms] and
    [from_cache] overwritten, and the search index has been scanned once
    over the two calls. *)
Theorem repeated_search_is_served_from_cache
  (score_and_format : Db.t -> string -> Z -> option string -> string
                      -> dict Value.t)
  (now1 tc1 te1 : Z) (ms1 : Q) (now2 tc2 te2 : Z) (ms2 : Q)
  (a : SearchDocumentsTool.args) (w : World.t) (limit_text : string) :
  SearchDocumentsTool._normalize_query (SearchDocumentsTool.query a) <> "" ->
  SearchDocumentsTool.format_int (SearchDocumentsTool.limit a)
  = Some limit_text ->
  List.find
    (fun r =>
       String.eqb (SearchCache.query_hash r)
         (SearchDocumentsTool._generate_cache_key
            (SearchDocumentsTool._normalize_query
               (SearchDocumentsTool.query a))
            limit_text (SearchDocumentsTool.file_type a)
            (SearchDocumentsTool.sort_by a))
       && SearchQueries.unexpired now1 r)
    (Db.search_cache (World.db w)) = None ->
  tc1 < te1 + 1800 -> now2 < te1 + 1800 ->
  let first :=
    SearchDocumentsTool._execute_tool score_and_format now1 tc1 te1 ms1 a w in
  let second :=
    SearchDocumentsTool._execute_tool score_and_format now2 tc2 te2 ms2 a
      (snd first) in
  exists result response,
    fst first = Ok result
    /\ Tool.success result = true
    /\ Tool.data result = Some response
    /\ fst second
       = Ok (Tool.success_result
               (dict_set
                  (dict_set response "search_time_ms" (VFloat ms2))
                  "from_cache" (VBool true))
               [("tool_version", VStr "1.0");
                ("search_method", VStr "cached");
                ("cache_hit", VBool true)])
    /\ World.trace (snd second)
     = World.trace w
       ++ [World.SearchIndexScan
             (SearchDocumentsTool._normalize_query
                (SearchDocumentsTool.query a))
             (SearchDocumentsTool.limit_value (SearchDocumentsTool.limit a)
              * 2)].
Proof.
  intros Hq Hl Hfind Htc Hnow first second.
  pose proof (execute_miss score_and_format now1 tc1 te1 ms1 a w limit_text
                Hq Hl Hfind Htc) as Hfirst.
  fold first in Hfirst.
  set (key := SearchDocumentsTool._generate_cache_key _ _ _ _) in *.
  set (resp := SearchResponse.response_data score_and_format ms1 a
                 (World.db w)) in *.
  set (entry := SearchCache.set_id _ _) in Hfirst.
  assert (Hsecond :
            second
            = (Ok (Tool.success_result
                     (dict_set (dict_set resp "search_time_ms" (VFloat ms2))
                        "from_cache" (VBool true))
                     [("tool_version", VStr "1.0");
                      ("search_method", VStr "cached");
                      ("cache_hit", VBool true)]),
               World.mk
                 (snd (SearchQueries._update_cache_hit_count
                         (SearchCache.id entry) (World.db (snd first))))
                 (World.trace (snd first)))).
  { unfold second.
    apply (execute_hit score_and_format now2 tc2 te2 ms2 a (snd first)
             limit_text entry resp Hq Hl).
    - rewrite Hfirst. cbn [snd World.db Db.search_cache Db.set_search_cache].
      apply find_after_replace; [reflexivity|].
      unfold entry, SearchQueries.unexpired.
      cbn [SearchCache.expires_at SearchCache.set_id
           SearchResponse.cache_entry].
      unfold SearchDocumentsTool.search_cache_ttl_minutes.
      apply Z.ltb_lt. lia.
    - reflexivity.
    - unfold resp, SearchResponse.response_data.
      destruct (score_and_format _ _ _ _ _); discriminate. }
  rewrite Hsecond, Hfirst. cbn [fst snd World.trace].
  do 2 eexists. repeat split; reflexivity.
Qed.

Lemma repeated_search_is_served_from_cache_witness :
  let first :=
    SearchDocumentsTool._execute_tool DemoSearch.score_and_format 100 100
      100 3 DemoSearch.search_args DemoSearch.cold in
  let second :=
    SearchDocumentsTool._execute_tool DemoSearch.score_and_format 500 500
      500 7 DemoSearch.search_args (snd first) in
  exists result response,
    fst first = Ok result
    /\ Tool.success result = true
    /\ Tool.data result = Some response
    /\ fst second
       = Ok (Tool.success_result
               (dict_set
                  (dict_set response "search_time_ms" (VFloat 7))
                  "from_cache" (VBool true))
               [("tool_version", VStr "1.0");
                ("search_method", VStr "cached");
                ("cache_hit", VBool true)])
    /\ World.trace (snd second)
     = World.trace DemoSearch.cold
       ++ [World.SearchIndexScan
             (SearchDocumentsTool._normalize_query
                (SearchDocumentsTool.query DemoSearch.search_args))
             (SearchDocumentsTool.limit_value
                (SearchDocumentsTool.limit DemoSearch.search_args) * 2)].
Proof.
  apply (repeated_search_is_served_from_cache DemoSearch.score_and_format
           100 100 100 3 500 500 500 7 DemoSearch.search_args
           DemoSearch.cold "10").
  - vm_compute. discriminate.
  - reflexivity.
  - vm_compute. reflexivity.
  - lia.
  - lia.
Defined.
Section SearchFrame.
Import Inv Tool SearchDocumentsTool.

Variable score_and_format :
  Db.t -> string -> Z -> option string -> string -> dict Value.t.
Variables (D : list Document.t) (Mt : list DocumentMetadata.t)
  (I : list SearchIndex.t).

Local Notation "'tables'" := (tables_are D Mt I).
Local Notation "'P'" := (fun w : World.t => tables_are D Mt I (World.db w)).

Lemma preserves_lift {A} (m : M Db.t A) :
  preserves tables m -> preserves P (World.lift m).
Proof.
  intros Hm w H. unfold World.lift. specialize (Hm (World.db w) H).
  destruct (m (World.db w)) as [r s']. exact Hm.
Qed.

Lemma tables_get_search_cache key now :
  preserves tables (SearchQueries.get_search_cache key now).
Proof.
  unfold SearchQueries.get_search_cache.
  apply preserves_bind; [apply preserves_get|]. intros s.
  destruct (List.find _ _); [|apply preserves_ret].
  apply preserves_bind; [|intros; apply preserves_ret].
  intros s0 H. exact H.
Qed.

Lemma tables_create_search_cache c now :
  preserves tables (SearchQueries.create_search_cache c now).
Proof.
  unfold SearchQueries.create_search_cache.
  apply preserves_transaction. intros s H.
  destruct (negb (Db.check_search_cache _)); exact H.
Qed.

Lemma frame_execute_tool now tc te ms a :
  preserves P (_execute_tool score_and_format now tc te ms a).
Proof.
  assert (Hmiss : forall nq key,
             preserves P (search_and_cache score_and_format now tc te ms
                            a nq key)).
  { intros nq key. unfold search_and_cache.
    apply preserves_bind; [intros w H; exact H|]. intros _.
    apply preserves_bind; [apply preserves_get|]. intros w0.
    apply preserves_bind; [|intros; apply preserves_ret].
    unfold _cache_search_results.
    apply preserves_try_except; [|intros; apply preserves_ret].
    apply preserves_bind; [|intros; apply preserves_ret].
    apply preserves_lift, tables_create_search_cache. }
  unfold _execute_tool.
  apply preserves_try_except; [|intros; apply preserves_ret].
  destruct (String.eqb _ ""); [apply preserves_ret|].
  destruct (format_int (limit a)); [|apply preserves_raise].
  apply preserves_bind.
  { unfold _get_cached_search.
    apply preserves_try_except; [|intros; apply preserves_ret].
    apply preserves_bind; [apply preserves_lift, tables_get_search_cache|].
    intros [c|]; apply preserves_ret. }
  intros [v|]; [|apply Hmiss].
  destruct (Value.truthy v); [|apply Hmiss].
  destruct v; first [apply preserves_ret|apply preserves_raise].
Qed.

Lemma execute_tool_returns now tc te ms a w :
  exists r, fst (_execute_tool score_and_format now tc te ms a w) = Ok r.
Proof.
  unfold _execute_tool, try_except.
  match goal with |- context [match ?m w with _ => _ end] =>
    destruct (m w) as [[r|e] w'] end; eexists; reflexivity.
Qed.

End SearchFrame.

(** X11. [searchDocuments] only ever writes the cache: whatever its
    arguments and whatever the store holds, the call returns a result (it
    does not raise) and leaves the [documents], [document_metadata] and
    [search_index] tables exactly as they were. *)
Theorem search_only_writes_cache
  (score_and_format : Db.t -> string -> Z -> option string -> string
                      -> dict Value.t)
  (now tc te : Z) (ms : Q) (a : SearchDocumentsTool.args) (w : World.t) :
  let out :=
    SearchDocumentsTool._execute_tool score_and_format now tc te ms a w in
  (exists r, fst out = Ok r)
  /\ Db.documents (World.db (snd out)) = Db.documents (World.db w)
  /\ Db.document_metadata (World.db (snd out))
     = Db.document_metadata (World.db w)
  /\ Db.search_index (World.db (snd out)) = Db.search_index (World.db w).
Proof.
  intros out. split; [apply execute_tool_returns|].
  apply (frame_execute_tool score_and_format _ _ _ now tc te ms a w).
  repeat split; reflexivity.
Qed.
Section GetDocumentFrame.
Import Inv Tool GetDocumentTool.

Variable _strip_markdown : string -> string.
Variable _get_file_statistics : Document.t -> Value.t.
Variable retrieval_time_ms : Q.
Variable w0 : World.t.

Local Notation "'same'" := (fun w : World.t => w = w0).

Lemma lift_read_only {A} (m : M Db.t A) :
  (forall s, snd (m s) = s) -> preserves same (World.lift m).
Proof.
  intros Hm w ->. unfold World.lift. specialize (Hm (World.db w0)).
  destruct (m (World.db w0)) as [r s']. cbn in *. subst s'.
  destruct w0; reflexivity.
Qed.

Lemma get_document_unchanged self a :
  preserves same
    (_execute_tool _strip_markdown _get_file_statistics retrieval_time_ms
       self a).
Proof.
  unfold _execute_tool.
  apply preserves_try_except; [|intros; apply preserves_ret].
  assert (Hfmt : forall d ic f im ml,
             preserves same
               (_format_document_response _strip_markdown
                  _get_file_statistics self d ic f im ml)).
  { intros d ic f im ml. unfold _format_document_response.
    apply preserves_bind; [|intros; apply preserves_ret].
    destruct im; [|apply preserves_ret].
    apply preserves_try_except; [|intros; apply preserves_ret].
    destruct (Document.id d); [|apply preserves_raise].
    apply preserves_bind; [|intros; apply preserves_ret].
    apply lift_read_only. reflexivity. }
  destruct (selected_id a) as [i|], (selected_path a) as [p|];
    try apply preserves_ret.
  - apply preserves_bind; [apply lift_read_only; reflexivity|].
    intros [d|]; [|apply preserves_ret].
    apply preserves_bind; [apply Hfmt|intros; apply preserves_ret].
  - apply preserves_bind; [apply lift_read_only; reflexivity|].
    intros [d|]; [|apply preserves_ret].
    apply preserves_bind; [apply Hfmt|intros; apply preserves_ret].
Qed.

End GetDocumentFrame.

(** ** getDocument *)

(** X12. [getDocument] is read-only: for all arguments it returns a result
    (it does not raise) and leaves the store and the record of parses and
    scans exactly as they were. *)
Theorem get_document_is_read_only
  (_strip_markdown : string -> string)
  (_get_file_statistics : Document.t -> Value.t) (retrieval_time_ms : Q)
  (self : GetDocumentTool.t) (a : GetDocumentTool.args) (w : World.t) :
  exists r,
    GetDocumentTool._execute_tool _strip_markdown _get_file_statistics
      retrieval_time_ms self a w
    = (Ok r, w).
Proof.
  pose proof (get_document_unchanged _strip_markdown _get_file_statistics
                retrieval_time_ms w self a w eq_refl) as Hsame.
  revert Hsame. unfold GetDocumentTool._execute_tool, try_except.
  match goal with |- context [match ?m w with _ => _ end] =>
    destruct (m w) as [[r|e] w'] end; cbn [snd ret]; intros ->;
    eexists; reflexivity.
Qed.
Section Strings.

Lemma length_take (n : nat) (s : string) :
  (n <= String.length s)%nat -> String.length (str_take n s) = n.
Proof.
  revert s. induction n as [|n IH]; intros s H; [reflexivity|].
  destruct s as [|c s]; cbn in *; [lia|]. rewrite IH; lia.
Qed.

Lemma length_app (s t : string) :
  String.length (s +:+ t) = (String.length s + String.length t)%nat.
Proof.
  induction s as [|c s IH]; [reflexivity|].
  change (S (String.length (s +:+ t))
          = S (String.length s + String.length t)%nat).
  rewrite IH. reflexivity.
Qed.

Lemma len_take_app (n : Z) (s t : string) :
  0 <= n <= len s -> len (str_take (Z.to_nat n) s +:+ t) = n + len t.
Proof.
  unfold len. intros H. rewrite length_app, length_take by lia. lia.
Qed.

End Strings.

(** X13. The size limits of [getDocument]: for the [json] format (and any
    format other than [markdown] and [text]), content that is not flagged
    as truncated is returned whole; content flagged as truncated is a
    proper prefix of the stored content followed by the truncation
    sentinel, cut at the requested length or at the tool's own limit; the
    flag is set exactly when the content is longer than the requested
    length or than the tool's limit; and when the requested length does
    not exceed the tool's limit, the returned content is at most that
    limit plus the sentinel long. *)
Theorem format_content_limits (_strip_markdown : string -> string)
  (self : GetDocumentTool.t) (content format_type : string)
  (max_length : Z) :
  format_type <> "markdown" -> format_type <> "text" ->
  0 <= max_length -> 0 <= GetDocumentTool.max_content_size self ->
  let f :=
    GetDocumentTool._format_content _strip_markdown self content format_type
      max_length in
  (GetDocumentTool.f_truncated f = false ->
   GetDocumentTool.f_content f = content)
  /\ (GetDocumentTool.f_truncated f = true ->
      exists n,
        0 <= n < len content
        /\ (n = max_length \/ n = GetDocumentTool.max_content_size self)
        /\ GetDocumentTool.f_content f
           = str_take (Z.to_nat n) content
             +:+ GetDocumentTool.truncation_indicator self
        /\ GetDocumentTool.f_length f
           = n + len (GetDocumentTool.truncation_indicator self))
  /\ (GetDocumentTool.f_truncated f = true
      <-> 0 < max_length < len content
          \/ GetDocumentTool.max_content_size self < len content)
  /\ (max_length <= GetDocumentTool.max_content_size self ->
      GetDocumentTool.f_length f
      <= GetDocumentTool.max_content_size self
         + len (GetDocumentTool.truncation_indicator self)).
Proof.
  intros Hmd Htx Hml Hcap f. subst f.
  apply String.eqb_neq in Hmd. apply String.eqb_neq in Htx.
  assert (Hlen0 : 0 <= len (GetDocumentTool.truncation_indicator self))
    by (unfold len; lia).
  unfold GetDocumentTool._format_content.
  destruct (String.eqb_spec content "") as [->|Hne].
  { cbn. repeat split; try discriminate; try lia.
    intros [H|H]; unfold len in H; cbn in H; lia. }
  destruct (Z.ltb_spec 0 max_length) as [Hpos|Hpos];
    destruct (Z.ltb_spec max_length (len content)) as [Hlt|Hlt];
    cbn [andb];
    try (destruct (Z.ltb_spec (GetDocumentTool.max_content_size self)
                     (len content)) as [Hc|Hc]);
    rewrite Hmd, Htx;
    destruct (String.eqb format_type "json");
    cbn [GetDocumentTool.f_content GetDocumentTool.f_truncated
         GetDocumentTool.f_length];
    repeat split; try discriminate; try tauto; try lia;
    try (intros _;
         first [ exists max_length; repeat split; try lia; auto;
                 apply len_take_app; lia
               | exists (GetDocumentTool.max_content_size self);
                 repeat split; try lia; auto; apply len_take_app; lia ]);
    try (rewrite len_take_app by lia; lia).
Qed.

Lemma format_content_limits_witness :
  let f :=
    GetDocumentTool._format_content (fun s => s) GetDocumentTool.init
      "abcdef" "json" 3 in
  (GetDocumentTool.f_truncated f = false ->
   GetDocumentTool.f_content f = "abcdef")
  /\ (GetDocumentTool.f_truncated f = true ->
      exists n,
        0 <= n < len "abcdef"
        /\ (n = 3 \/ n = GetDocumentTool.max_content_size GetDocumentTool.init)
        /\ GetDocumentTool.f_content f
           = str_take (Z.to_nat n) "abcdef"
             +:+ GetDocumentTool.truncation_indicator GetDocumentTool.init
        /\ GetDocumentTool.f_length f
           = n + len (GetDocumentTool.truncation_indicator
                        GetDocumentTool.init))
  /\ (GetDocumentTool.f_truncated f = true
      <-> 0 < 3 < len "abcdef"
          \/ GetDocumentTool.max_content_size GetDocumentTool.init
             < len "abcdef")
  /\ (3 <= GetDocumentTool.max_content_size GetDocumentTool.init ->
      GetDocumentTool.f_length f
      <= GetDocumentTool.max_content_size GetDocumentTool.init
         + len (GetDocumentTool.truncation_indicator GetDocumentTool.init)).
Proof.
  apply (format_content_limits (fun s => s) GetDocumentTool.init "abcdef"
           "json" 3).
  - discriminate.
  - discriminate.
  - lia.
  - vm_compute. discriminate.
Defined.
Section IndexToolFacts.
Import Inv Tool IndexDocumentTool.

Variable fs : filesystem.
Variable parse_file : string -> ParserResult.
Variable isoformat : Z -> string.
Variable absolute : string -> string.
Variable stamps : DocumentManager.stamps.
Variable t_response : Z.

Lemma lift_get_by_path p w :
  World.lift (DocumentQueries.get_document_by_path p) w
  = (Ok (option_map Document.post_init
           (List.find (fun d => String.eqb (Document.file_path d) p)
                      (Db.documents (World.db w)))), w).
Proof. destruct w; reflexivity. Qed.

Lemma index_tool_short_circuit a w st row m :
  fs (file_path a) = Some st ->
  is_file st = true ->
  _is_supported_file_type (file_path a) = true ->
  st_size st <= max_file_size ->
  List.find (fun d => String.eqb (Document.file_path d) (file_path a))
            (Db.documents (World.db w)) = Some row ->
  force_reindex a = false ->
  Document.modified_at row = Some m ->
  st_mtime st <= m ->
  _execute_tool fs parse_file isoformat absolute stamps t_response a w
  = (Ok (success_result
           (IndexResponse.already_indexed_data isoformat
              (Document.post_init row) a) []), w).
Proof.
  intros Hfs Hfile Hsup Hsize Hfind Hforce Hmod Hmtime.
  unfold _execute_tool, try_except.
  rewrite Hfs, Hfile, Hsup. cbn [negb].
  replace (max_file_size <? st_size st) with false
    by (symmetry; apply Z.ltb_ge; exact Hsize).
  rewrite (bind_eq_ok _ _ _ _ _ (lift_get_by_path _ _)).
  rewrite Hfind. cbn [option_map]. rewrite Hforce. cbn [negb].
  change (Document.modified_at (Document.post_init row))
    with (Document.modified_at row).
  rewrite Hmod.
  replace (st_mtime st <=? m) with true
    by (symmetry; apply Z.leb_le; exact Hmtime).
  reflexivity.
Qed.

Lemma index_tool_refuses a w :
  fs (file_path a) = None
  \/ (exists st,
         fs (file_path a) = Some st
         /\ (is_file st = false
             \/ _is_supported_file_type (file_path a) = false
             \/ max_file_size < st_size st)) ->
  exists r,
    _execute_tool fs parse_file isoformat absolute stamps t_response a w
    = (Ok r, w)
    /\ success r = false.
Proof.
  intros H. unfold _execute_tool, try_except.
  destruct H as [H|(st & H & Hst)]; rewrite H.
  { eexists. split; reflexivity. }
  destruct (is_file st); cbn [negb]; [|eexists; split; reflexivity].
  destruct (_is_supported_file_type (file_path a)); cbn [negb];
    [|eexists; split; reflexivity].
  destruct (Z.ltb_spec max_file_size (st_size st));
    [eexists; split; reflexivity|].
  destruct Hst as [Hst|[Hst|Hst]]; try discriminate. lia.
Qed.

End IndexToolFacts.

Section IndexToolTwice.
Import Inv Tool IndexDocumentTool.

Lemma index_then_row_by_path (p c : string) (md : dict string) (kw : bool)
  (now : DocumentManager.stamps) (s : Db.t) (i : Z) :
  fst (DocumentManager.index_document p c md kw now s) = Ok (Some i) ->
  exists row,
    List.find (fun d => String.eqb (Document.file_path d) p)
      (Db.documents (snd (DocumentManager.index_document p c md kw now s)))
    = Some row
    /\ Document.id row = Some i
    /\ Document.modified_at row = Some (DocumentManager.t_modified now).
Proof.
  intros Hres.
  assert (Hmod : Document.modified_at (built_document p c md now)
                 = Some (DocumentManager.t_modified now))
    by (unfold built_document; destruct md; reflexivity).
  destruct (index_document_effect p c md kw now s)
    as [[Hnone _]
       |[(row & j & Hfind & Hrow & Hc & _ & _ & _ & [Hdocs _] & Hout)
        |(Hfind & Hc & _ & _ & [Hdocs _] & Hout)]].
  - rewrite Hnone in Hres. discriminate.
  - assert (j = i) as ->
      by (destruct Hout as [Ho|Ho]; rewrite Ho in Hres; congruence).
    exists (updated_document row p c md now).
    rewrite Hdocs. split.
    { apply (find_replaced p i _ row); [apply built_document_path|exact Hrow
                                       |exact Hfind]. }
    split; [exact Hrow|exact Hmod].
  - assert (Db.seq_documents s + 1 = i) as Hi
      by (destruct Hout as [Ho|Ho]; rewrite Ho in Hres; congruence).
    exists (Document.set_id (built_document p c md now)
              (Some (Db.seq_documents s + 1))).
    rewrite Hdocs. split.
    { apply find_appended; [apply built_document_path|exact Hfind]. }
    split; [rewrite <- Hi; reflexivity|exact Hmod].
Qed.

End IndexToolTwice.

Section IndexToolSuccess.
Import Inv Tool IndexDocumentTool.

Variable fs : filesystem.
Variable parse_file : string -> ParserResult.
Variable isoformat : Z -> string.
Variable absolute : string -> string.
Variable stamps : DocumentManager.stamps.
Variable t_response : Z.

Lemma lift_index_document p c md kw now w :
  World.lift (DocumentManager.index_document p c md kw now) w
  = (fst (DocumentManager.index_document p c md kw now (World.db w)),
     World.mk (snd (DocumentManager.index_document p c md kw now
                      (World.db w)))
              (World.trace w)).
Proof.
  unfold World.lift.
  destruct (DocumentManager.index_document p c md kw now (World.db w));
    reflexivity.
Qed.

Lemma parse_and_index_success a st existing w r :
  fst (parse_and_index parse_file isoformat absolute stamps t_response a st
         existing w) = Ok r ->
  success r = true ->
  exists i content md,
    fst (DocumentManager.index_document (file_path a) content md true stamps
           (World.db w)) = Ok (Some i)
    /\ snd (parse_and_index parse_file isoformat absolute stamps t_response
              a st existing w)
       = World.mk
           (snd (DocumentManager.index_document (file_path a) content md
                   true stamps (World.db w)))
           (World.trace w ++ [World.ParseFile (file_path a)]).
Proof.
  unfold parse_and_index.
  erewrite bind_eq_ok by reflexivity.
  destruct (negb (p_success (parse_file (file_path a))));
    [cbn; intros [= <-]; discriminate|].
  set (content := match p_content _ with Some c => c | None => "" end).
  destruct (String.eqb (SearchDocumentsTool.strip content) "");
    [cbn; intros [= <-]; discriminate|].
  set (md := _combine_metadata isoformat absolute _ _ _).
  unfold bind. rewrite lift_index_document. cbn [World.db World.trace].
  destruct (fst (DocumentManager.index_document (file_path a) content md
                   true stamps (World.db w)))
    as [[i|]|e] eqn:Hres.
  - cbn. intros _ _. exists i, content, md. split; [exact Hres|reflexivity].
  - cbn. intros [= <-]; discriminate.
  - cbn. discriminate.
Qed.

Lemma index_tool_success_cases a w st r :
  fs (file_path a) = Some st ->
  fst (_execute_tool fs parse_file isoformat absolute stamps t_response a w)
  = Ok r ->
  success r = true ->
  (is_file st = true /\ _is_supported_file_type (file_path a) = true
   /\ st_size st <= max_file_size)
  /\ ((exists row m,
          List.find (fun d => String.eqb (Document.file_path d) (file_path a))
                    (Db.documents (World.db w)) = Some row
          /\ force_reindex a = false
          /\ Document.modified_at row = Some m
          /\ st_mtime st <= m
          /\ snd (_execute_tool fs parse_file isoformat absolute stamps
                    t_response a w) = w)
      \/ (exists i content md,
             fst (DocumentManager.index_document (file_path a) content md
                    true stamps (World.db w)) = Ok (Some i)
             /\ snd (_execute_tool fs parse_file isoformat absolute stamps
                       t_response a w)
                = World.mk
                    (snd (DocumentManager.index_document (file_path a)
                            content md true stamps (World.db w)))
                    (World.trace w ++ [World.ParseFile (file_path a)]))).
Proof.
  intros Hfs.
  unfold _execute_tool, try_except. rewrite Hfs.
  destruct (is_file st); cbn [negb]; [|cbn; intros [= <-]; discriminate].
  destruct (_is_supported_file_type (file_path a)); cbn [negb];
    [|cbn; intros [= <-]; discriminate].
  destruct (Z.ltb_spec max_file_size (st_size st)) as [Hsz|Hsz];
    [cbn; intros [= <-]; discriminate|].
  rewrite (bind_eq_ok _ _ _ _ _ (lift_get_by_path _ _)).
  assert (Hparse : forall existing,
             fst (match parse_and_index parse_file isoformat absolute stamps
                          t_response a st existing w with
                  | (Ok x, s') => (Ok x, s')
                  | (Raise e, s') =>
                      ret (error_result
                             ("Tool execution failed: " +:+ exn_message e)
                             []) s'
                  end) = Ok r ->
             success r = true ->
             exists i content md,
               fst (DocumentManager.index_document (file_path a) content md
                      true stamps (World.db w)) = Ok (Some i)
               /\ snd (match parse_and_index parse_file isoformat absolute
                               stamps t_response a st existing w with
                       | (Ok x, s') => (Ok x, s')
                       | (Raise e, s') =>
                           ret (error_result
                                  ("Tool execution failed: "
                                   +:+ exn_message e) []) s'
                       end)
                  = World.mk
                      (snd (DocumentManager.index_document (file_path a)
                              content md true stamps (World.db w)))
                      (World.trace w ++ [World.ParseFile (file_path a)])).
  { intros existing H1 H2.
    pose proof (parse_and_index_success a st existing w r) as Hp.
    destruct (parse_and_index parse_file isoformat absolute stamps
                t_response a st existing w) as [[x|e] w'] eqn:Hrun.
    - cbn in *. exact (Hp H1 H2).
    - cbn in H1. injection H1 as <-. discriminate. }
  destruct (List.find _ (Db.documents (World.db w))) as [row|] eqn:Hfind;
    cbn [option_map].
  - destruct (force_reindex a) eqn:Hforce; cbn [negb].
    + intros H1 H2. split; [auto|]. right. exact (Hparse _ H1 H2).
    + change (Document.modified_at (Document.post_init row))
        with (Document.modified_at row).
      destruct (Document.modified_at row) as [m|] eqn:Hmod;
        [|cbn; intros [= <-]; discriminate].
      destruct (Z.leb_spec (st_mtime st) m) as [Hm|Hm].
      * intros _ _. split; [auto|]. left. exists row, m.
        repeat split; auto.
      * intros H1 H2. split; [auto|]. right. exact (Hparse _ H1 H2).
  - intros H1 H2. split; [auto|]. right. exact (Hparse _ H1 H2).
Qed.

End IndexToolSuccess.
(** ** indexDocument *)

(** X14. A refused file costs nothing: when the path does not exist, is not
    a regular file, has an unsupported extension or is larger than 10 MB,
    [indexDocument] returns an error result, parses nothing and leaves the
    store untouched. *)
Theorem index_tool_refusal_has_no_effect
  (fs : IndexDocumentTool.filesystem)
  (parse_file : string -> IndexDocumentTool.ParserResult)
  (isoformat : Z -> string) (absolute : string -> string)
  (stamps : DocumentManager.stamps) (t_response : Z)
  (a : IndexDocumentTool.args) (w : World.t) :
  fs (IndexDocumentTool.file_path a) = None
  \/ (exists st,
         fs (IndexDocumentTool.file_path a) = Some st
         /\ (IndexDocumentTool.is_file st = false
             \/ IndexDocumentTool._is_supported_file_type
                  (IndexDocumentTool.file_path a) = false
             \/ IndexDocumentTool.max_file_size
                < IndexDocumentTool.st_size st)) ->
  exists r,
    IndexDocumentTool._execute_tool fs parse_file isoformat absolute stamps
      t_response a w
    = (Ok r, w)
    /\ Tool.success r = false.
Proof.
  exact (index_tool_refuses fs parse_file isoformat absolute stamps
           t_response a w).
Qed.

Lemma index_tool_refusal_has_no_effect_witness :
  exists r,
    IndexDocumentTool._execute_tool DemoFiles.fs DemoFiles.parse_file
      DemoFiles.isoformat DemoFiles.absolute Demo.stamps 100
      (IndexDocumentTool.mkArgs "/tmp/dir.md" true) DemoFiles.fresh
    = (Ok r, DemoFiles.fresh)
    /\ Tool.success r = false.
Proof.
  apply (index_tool_refusal_has_no_effect DemoFiles.fs DemoFiles.parse_file
           DemoFiles.isoformat DemoFiles.absolute Demo.stamps 100
           (IndexDocumentTool.mkArgs "/tmp/dir.md" true) DemoFiles.fresh).
  right. eexists. split; [reflexivity|]. left. reflexivity.
Defined.

(** X15. An up-to-date document is not parsed again: when the file passes
    the checks, the store has a row for the path whose [modified_at] is not
    older than the file's modification time, and [force_reindex] is off,
    [indexDocument] answers [already_indexed] with the stored id, parses
    nothing and leaves the store untouched. *)
Theorem index_tool_skips_up_to_date_file
  (fs : IndexDocumentTool.filesystem)
  (parse_file : string -> IndexDocumentTool.ParserResult)
  (isoformat : Z -> string) (absolute : string -> string)
  (stamps : DocumentManager.stamps) (t_response : Z)
  (a : IndexDocumentTool.args) (w : World.t)
  (st : IndexDocumentTool.file_stat) (row : Document.t) (m : Z) :
  fs (IndexDocumentTool.file_path a) = Some st ->
  IndexDocumentTool.is_file st = true ->
  IndexDocumentTool._is_supported_file_type (IndexDocumentTool.file_path a)
  = true ->
  IndexDocumentTool.st_size st <= IndexDocumentTool.max_file_size ->
  List.find (fun d => String.eqb (Document.file_path d)
                        (IndexDocumentTool.file_path a))
            (Db.documents (World.db w)) = Some row ->
  IndexDocumentTool.force_reindex a = false ->
  Document.modified_at row = Some m ->
  IndexDocumentTool.st_mtime st <= m ->
  IndexDocumentTool._execute_tool fs parse_file isoformat absolute stamps
    t_response a w
  = (Ok (Tool.success_result
           (IndexResponse.already_indexed_data isoformat
              (Document.post_init row) a) []), w).
Proof.
  exact (index_tool_short_circuit fs parse_file isoformat absolute stamps
           t_response a w st row m).
Qed.

Lemma index_tool_skips_up_to_date_file_witness :
  exists row,
    List.find (fun d => String.eqb (Document.file_path d) "/tmp/a.md")
              (Db.documents Demo.store) = Some row
    /\ IndexDocumentTool._execute_tool DemoFiles.fs DemoFiles.parse_file
         DemoFiles.isoformat DemoFiles.absolute Demo.stamps 300
         (IndexDocumentTool.mkArgs "/tmp/a.md" false)
         (World.mk Demo.store [])
       = (Ok (Tool.success_result
                (IndexResponse.already_indexed_data DemoFiles.isoformat
                   (Document.post_init row)
                   (IndexDocumentTool.mkArgs "/tmp/a.md" false)) []),
          World.mk Demo.store []).
Proof.
  eexists. split; [vm_compute; reflexivity|].
  apply (index_tool_skips_up_to_date_file DemoFiles.fs DemoFiles.parse_file
           DemoFiles.isoformat DemoFiles.absolute Demo.stamps 300
           (IndexDocumentTool.mkArgs "/tmp/a.md" false)
           (World.mk Demo.store []) (IndexDocumentTool.mkStat true 16 50 40)
           _ 100).
  - reflexivity.
  - reflexivity.
  - vm_compute. reflexivity.
  - vm_compute. discriminate.
  - vm_compute. reflexivity.
  - reflexivity.
  - reflexivity.
  - vm_compute. discriminate.
Defined.

(** X16. Indexing the same unchanged file twice parses it once: after an
    [indexDocument] call that succeeded, a second call for the same path
    without [force_reindex], for a file not modified after the first call
    stamped the document, answers [already_indexed], parses nothing and
    leaves the store as the first call left it. *)
Theorem index_tool_second_call_is_noop
  (fs : IndexDocumentTool.filesystem)
  (parse1 parse2 : string -> IndexDocumentTool.ParserResult)
  (iso1 iso2 : Z -> string) (abs1 abs2 : string -> string)
  (stamps1 stamps2 : DocumentManager.stamps) (tr1 tr2 : Z)
  (a : IndexDocumentTool.args) (w : World.t)
  (st : IndexDocumentTool.file_stat) :
  fs (IndexDocumentTool.file_path a) = Some st ->
  IndexDocumentTool.force_reindex a = false ->
  IndexDocumentTool.st_mtime st <= DocumentManager.t_modified stamps1 ->
  let first :=
    IndexDocumentTool._execute_tool fs parse1 iso1 abs1 stamps1 tr1 a w in
  match fst first with
  | Ok r => Tool.success r = true
  | Raise _ => False
  end ->
  exists row,
    IndexDocumentTool._execute_tool fs parse2 iso2 abs2 stamps2 tr2 a
      (snd first)
    = (Ok (Tool.success_result
             (IndexResponse.already_indexed_data iso2 row a) []),
       snd first).
Proof.
  intros Hfs Hforce Hmtime first Hok. subst first.
  destruct (fst (IndexDocumentTool._execute_tool fs parse1 iso1 abs1 stamps1
                   tr1 a w)) as [r|e] eqn:Hfirst; [|contradiction].
  destruct (index_tool_success_cases fs parse1 iso1 abs1 stamps1 tr1 a w st
              r Hfs Hfirst Hok)
    as [(Hfile & Hsup & Hsize)
          [(row & m & Hfind & _ & Hmod & Hm & Hsame)
          |(i & content & md & Hres & Hstate)]].
  - exists (Document.post_init row). rewrite Hsame.
    apply (index_tool_short_circuit fs parse2 iso2 abs2 stamps2 tr2 a w st
             row m); assumption.
  - destruct (index_then_row_by_path _ _ _ _ _ _ _ Hres)
      as (row & Hfind & _ & Hmod).
    exists (Document.post_init row). rewrite Hstate.
    apply (index_tool_short_circuit fs parse2 iso2 abs2 stamps2 tr2 a _ st
             row (DocumentManager.t_modified stamps1)); assumption.
Qed.

Lemma index_tool_second_call_is_noop_witness :
  let first :=
    IndexDocumentTool._execute_tool DemoFiles.fs DemoFiles.parse_file
      DemoFiles.isoformat DemoFiles.absolute Demo.stamps 100
      (IndexDocumentTool.mkArgs "/tmp/a.md" false) DemoFiles.fresh in
  exists row,
    IndexDocumentTool._execute_tool DemoFiles.fs DemoFiles.parse_file
      DemoFiles.isoformat DemoFiles.absolute Demo.stamps 300
      (IndexDocumentTool.mkArgs "/tmp/a.md" false) (snd first)
    = (Ok (Tool.success_result
             (IndexResponse.already_indexed_data DemoFiles.isoformat row
                (IndexDocumentTool.mkArgs "/tmp/a.md" false)) []),
       snd first).
Proof.
  apply (index_tool_second_call_is_noop DemoFiles.fs DemoFiles.parse_file
           DemoFiles.parse_file DemoFiles.isoformat DemoFiles.isoformat
           DemoFiles.absolute DemoFiles.absolute Demo.stamps Demo.stamps
           100 300 (IndexDocumentTool.mkArgs "/tmp/a.md" false)
           DemoFiles.fresh (IndexDocumentTool.mkStat true 16 50 40)).
  - reflexivity.
  - reflexivity.
  - vm_compute. discriminate.
  - vm_compute. reflexivity.
Defined.
Section ValidationFacts.
Import Tool.

Lemma apply_defaults_get (props : dict prop) (a : dict Value.t)
  (x : string) :
  NoDup (map fst props) ->
  dict_get (apply_defaults props a) x
  = match dict_get a x with
    | Some y => Some y
    | None => match dict_get props x with
              | Some p => default p
              | None => None
              end
    end.
Proof.
  revert a. induction props as [|[p ps] props IH]; intros a Hnd;
    cbn [apply_defaults dict_get].
  - destruct (dict_get a x); reflexivity.
  - cbn [map fst] in Hnd. apply NoDup_cons in Hnd. destruct Hnd as [Hp Hnd].
    rewrite IH by exact Hnd.
    destruct (String.eqb_spec p x) as [->|Hne].
    + rewrite (dict_get_none_notin props x Hp).
      destruct (default ps) as [v|]; [|destruct (dict_get a x); reflexivity].
      unfold dict_has. destruct (dict_get a x) eqn:Ha.
      * rewrite Ha. reflexivity.
      * rewrite dict_get_set_eq. reflexivity.
    + assert (G : dict_get
                    (match default ps with
                     | Some v => if dict_has a p then a else dict_set a p v
                     | None => a
                     end) x = dict_get a x).
      { destruct (default ps); [|reflexivity].
        destruct (dict_has a p); [reflexivity|].
        apply dict_get_set_ne. exact Hne. }
      rewrite G. reflexivity.
Qed.

Lemma check_required_missing (required_fields : list string)
  (params : dict Value.t) (f : string) :
  In f required_fields -> dict_has params f = false ->
  exists g,
    In g required_fields /\ dict_has params g = false
    /\ check_required required_fields params
       = Raise (ToolValidationError ("Missing required parameter: " +:+ g)).
Proof.
  induction required_fields as [|h rest IH]; cbn [In check_required];
    [contradiction|].
  intros Hin Hf. destruct (dict_has params h) eqn:Hh.
  - destruct Hin as [->|Hin]; [congruence|].
    destruct (IH Hin Hf) as (g & Hg & Hgf & Hr).
    exists g. auto.
  - exists h. auto.
Qed.

Lemma dict_get_in {V} (d : dict V) (k : string) (v : V) :
  dict_get d k = Some v -> In (k, v) d.
Proof.
  induction d as [|[k' v'] d IH]; cbn [dict_get In]; [discriminate|].
  destruct (String.eqb_spec k' k) as [->|Hne].
  - intros [= ->]. left. reflexivity.
  - intros H. right. apply IH. exact H.
Qed.

End ValidationFacts.

(** ** Parameter validation *)

(** X17. What validation accepts meets the declared constraints: if
    [validate_parameters] accepts a call, every given parameter that the
    schema declares has the declared type (a [str] for [string]; an [int],
    [float] or [bool] for [number]; an [int] or [bool] for [integer]; a
    [bool] for [boolean]; a [list] for [array]; a [dict] for [object];
    [None] for [null]; a type name outside these seven is not checked),
    and meets the declared limits: a string's length lies within
    [minLength] and [maxLength], a number within [minimum] and [maximum],
    a list's length within [minItems] and [maxItems]. *)
Theorem accepted_parameters_meet_constraints (s : Tool.schema)
  (params w : dict Value.t) (k : string) (x : Value.t) (p : Tool.prop) :
  Tool.validate_parameters s params = Ok w ->
  In (k, x) params ->
  dict_get (Tool.properties s) k = Some p ->
  (forall t, Tool.type p = Some t -> Accepts.has_type x t)
  /\ Accepts.within_limits x p.
Proof.
  intros Hval Hin Hp.
  unfold Tool.validate_parameters in Hval.
  destruct (Tool.check_required _ _) as [[]|e]; [|discriminate].
  destruct (Tool.validate_items _ _ _) as [w0|e] eqn:Hitems; [|discriminate].
  pose proof (validate_items_inv _ _ _ _ Hitems) as Hall.
  rewrite Forall_forall in Hall.
  apply list_elem_of_In in Hin. specialize (Hall _ Hin). cbn [fst snd] in Hall.
  unfold Tool.validate_one in Hall. rewrite Hp in Hall.
  apply andthen_ok in Hall. destruct Hall as [Htype Hlimits].
  split.
  - intros t Ht. rewrite Ht in Htype.
    apply check_ok in Htype. apply validate_type_spec. exact Htype.
  - apply (constraints_spec k). exact Hlimits.
Qed.

Lemma accepted_parameters_meet_constraints_witness :
  (forall t,
      Tool.type (Tool.mkProp (Some "integer") None None (Some 1) (Some 100)
                   None None None (Some (VInt 10))) = Some t ->
      Accepts.has_type (VInt 25) t)
  /\ Accepts.within_limits (VInt 25)
       (Tool.mkProp (Some "integer") None None (Some 1) (Some 100) None None
          None (Some (VInt 10))).
Proof.
  apply (accepted_parameters_meet_constraints
           SearchDocumentsTool.get_parameter_schema
           [("query", VStr "test"); ("limit", VInt 25)]
           [("query", VStr "test"); ("limit", VInt 25);
            ("file_type", VNone); ("sort_by", VStr "relevance")]
           "limit" (VInt 25)).
  - vm_compute. reflexivity.
  - right. left. reflexivity.
  - reflexivity.
Defined.

(** A wrongly typed or out-of-range value is not accepted: the other side
    of the same comparison. *)
Example string_limit_is_rejected :
  Tool.validate_parameters SearchDocumentsTool.get_parameter_schema
    [("query", VStr "test"); ("limit", VStr "25")]
  = Raise (ToolValidationError
             "Parameter 'limit' must be of type integer, got str").
Proof. vm_compute. reflexivity. Qed.

(** X18. A call that lacks a required parameter never reaches the handler:
    [execute] returns an error result that names a missing required
    parameter, and the state is what it was, whatever the handler would
    have done. *)
Theorem missing_required_parameter_stops_execution {St} (s : Tool.schema)
  (handler : dict Value.t -> M St Tool.ToolResult) (execution_time_ms : Q)
  (params : dict Value.t) (st : St) (f : string) :
  In f (Tool.required s) -> dict_has params f = false ->
  exists g,
    In g (Tool.required s) /\ dict_has params g = false
    /\ Tool.execute s handler execution_time_ms params st
       = (Tool.set_execution_time
            (Tool.error_result
               ("Parameter validation failed: "
                +:+ ("Missing required parameter: " +:+ g)) [])
            execution_time_ms, st).
Proof.
  intros Hin Hf.
  destruct (check_required_missing (Tool.required s) params f Hin Hf)
    as (g & Hg & Hgf & Hr).
  exists g. split; [exact Hg|]. split; [exact Hgf|].
  unfold Tool.execute, Tool.validate_parameters. rewrite Hr. reflexivity.
Qed.

Lemma missing_required_parameter_stops_execution_witness :
  exists g,
    In g (Tool.required SearchDocumentsTool.get_parameter_schema)
    /\ dict_has [("limit", VInt 5)] g = false
    /\ Tool.execute SearchDocumentsTool.get_parameter_schema
         (fun _ => raise (St := World.t) (OtherError "unreachable")) 1
         [("limit", VInt 5)] DemoSearch.cold
       = (Tool.set_execution_time
            (Tool.error_result
               ("Parameter validation failed: "
                +:+ ("Missing required parameter: " +:+ g)) [])
            1, DemoSearch.cold).
Proof.
  apply (missing_required_parameter_stops_execution
           SearchDocumentsTool.get_parameter_schema
           (fun _ => raise (St := World.t) (OtherError "unreachable")) 1
           [("limit", VInt 5)] DemoSearch.cold "query").
  - left. reflexivity.
  - reflexivity.
Defined.

(** X19. Given values win over defaults, and nothing else is invented: in
    the parameters [validate_parameters] hands on, every given key has the
    value that was given; a key that was not given has the default its
    declaration carries, if it is declared with one; and any other key is
    absent. *)
Theorem validated_parameters_are_given_or_default (s : Tool.schema)
  (params w : dict Value.t) :
  Tool.validate_parameters s params = Ok w ->
  NoDup (map fst params) ->
  NoDup (map fst (Tool.properties s)) ->
  forall k,
    dict_get w k
    = match dict_get params k with
      | Some x => Some x
      | None => match dict_get (Tool.properties s) k with
                | Some p => Tool.default p
                | None => None
                end
      end.
Proof.
  intros Hval Hnd Hprops k.
  unfold Tool.validate_parameters in Hval.
  destruct (Tool.check_required _ _) as [[]|e]; [|discriminate].
  destruct (Tool.validate_items _ _ _) as [w0|e] eqn:Hitems; [|discriminate].
  injection Hval as <-.
  pose proof (validate_items_inv _ _ _ _ Hitems) as Hall.
  rewrite (validate_items_ok _ _ _ Hall) in Hitems. injection Hitems as <-.
  rewrite apply_defaults_get by exact Hprops.
  rewrite fold_set_get by exact Hnd.
  destruct (dict_get params k); reflexivity.
Qed.

Ltac nodup_keys :=
  repeat (apply NoDup_cons; split;
          [rewrite ?elem_of_cons, elem_of_nil; intros H;
           repeat (destruct H as [H|H]; try discriminate H); exact H|]);
  apply NoDup_nil; trivial.

Lemma validated_parameters_are_given_or_default_witness :
  dict_get [("query", VStr "test"); ("limit", VInt 25);
            ("file_type", VNone); ("sort_by", VStr "relevance")] "limit"
  = match dict_get [("query", VStr "test"); ("limit", VInt 25)] "limit" with
    | Some x => Some x
    | None =>
        match dict_get
                (Tool.properties SearchDocumentsTool.get_parameter_schema)
                "limit" with
        | Some p => Tool.default p
        | None => None
        end
    end.
Proof.
  apply (validated_parameters_are_given_or_default
           SearchDocumentsTool.get_parameter_schema
           [("query", VStr "test"); ("limit", VInt 25)]).
  - vm_compute. reflexivity.
  - cbn [map fst]. nodup_keys.
  - cbn [map fst Tool.properties SearchDocumentsTool.get_parameter_schema].
    nodup_keys.
Defined.
Section KeywordTable.
Import Keywords.

Lemma dict_set_keys {V} (d : dict V) (k : string) (v : V) :
  map fst (dict_set d k v)
  = if dict_has d k then map fst d else map fst d ++ [k].
Proof.
  unfold dict_has. induction d as [|[k' v'] d IH]; cbn [dict_set dict_get map fst app];
    [reflexivity|].
  destruct (String.eqb_spec k' k) as [->|Hne]; [reflexivity|].
  cbn [map fst]. rewrite IH. destruct (dict_get d k); reflexivity.
Qed.

Lemma dict_set_forall {V} (P : string * V -> Prop) (d : dict V) (k : string)
  (v : V) :
  Forall P d -> P (k, v) -> Forall P (dict_set d k v).
Proof.
  intros Hd Hk. induction Hd as [|[k' v'] d Hx Hd IH]; cbn [dict_set].
  - constructor; [exact Hk|constructor].
  - destruct (String.eqb_spec k' k) as [->|Hne];
      constructor; assumption.
Qed.

Lemma dict_set_nodup {V} (d : dict V) (k : string) (v : V) :
  NoDup (map fst d) -> NoDup (map fst (dict_set d k v)).
Proof.
  intros H. rewrite dict_set_keys. unfold dict_has.
  destruct (dict_get d k) eqn:Hg; [exact H|].
  apply NoDup_app. split; [exact H|]. split; [|apply NoDup_singleton].
  intros x Hx Hk. apply list_elem_of_singleton in Hk. subst x.
  clear H. induction d as [|[k' v'] d IH]; [inversion Hx|].
  cbn [dict_get] in Hg. cbn [map fst] in Hx.
  destruct (String.eqb_spec k' k) as [->|Hne]; [discriminate|].
  apply elem_of_cons in Hx. destruct Hx as [Hx|Hx]; [congruence|auto].
Qed.

Lemma dict_get_forall {V} (P : string * V -> Prop) (d : dict V) (k : string)
  (v : V) :
  Forall P d -> dict_get d k = Some v -> P (k, v).
Proof.
  intros Hd. induction Hd as [|[k' v'] d Hx Hd IH]; cbn [dict_get];
    [discriminate|].
  destruct (String.eqb_spec k' k) as [->|Hne]; [intros [= <-]; exact Hx|auto].
Qed.

Lemma well_formed_weaken n m kws :
  n <= m -> well_formed n kws -> well_formed m kws.
Proof.
  intros Hnm [Hnd Hall]. split; [exact Hnd|].
  eapply Forall_impl; [exact Hall|]. cbn. intros kp (H1 & H2 & H3 & H4).
  repeat split; auto. eapply Forall_impl; [exact H4|]. cbn. intros; lia.
Qed.

Lemma collect_well_formed words position kws :
  0 <= position -> well_formed position kws ->
  well_formed (position + Z.of_nat (length words))
    (DocumentManager.collect words position kws).
Proof.
  revert position kws. induction words as [|word rest IH];
    intros position kws Hpos Hwf; cbn [DocumentManager.collect length].
  - rewrite Z.add_0_r. exact Hwf.
  - replace (position + Z.of_nat (S (length rest)))
      with ((position + 1) + Z.of_nat (length rest)) by lia.
    apply IH; [lia|].
    apply (well_formed_weaken position (position + 1)) in Hwf; [|lia].
    destruct (negb (DocumentManager.is_stop_word word)) eqn:Hstop;
      [|exact Hwf].
    destruct (Z.leb_spec 3 (len word)) as [Hlen|Hlen]; [|exact Hwf].
    cbn [andb]. apply negb_true_iff in Hstop.
    destruct Hwf as [Hnd Hall].
    destruct (dict_get kws word) as [ps|] eqn:Hget.
    + split; [apply dict_set_nodup; exact Hnd|].
      apply dict_set_forall; [exact Hall|]. cbn [fst snd].
      pose proof (dict_get_forall _ _ _ _ Hall Hget) as (_ & _ & _ & Hps).
      cbn [snd] in Hps.
      split; [exact Hstop|]. split; [exact Hlen|]. split.
      * destruct ps; discriminate.
      * apply Forall_app. split; [exact Hps|].
        constructor; [lia|constructor].
    + split; [apply dict_set_nodup; exact Hnd|].
      apply dict_set_forall; [exact Hall|]. cbn [fst snd].
      split; [exact Hstop|]. split; [exact Hlen|]. split; [discriminate|].
      constructor; [lia|constructor].
Qed.

End KeywordTable.

(** X20. What keyword extraction yields: the keywords of a text are
    distinct, none is a stop word, each is at least three characters long,
    and each comes with at least one position, all positions being indexes
    into the list of words found in the text; so every entry built for the
    search index names the document it was built for and has a frequency
    of one or more. *)
Theorem extracted_keywords_are_well_formed (document_id : Z)
  (content : string) :
  Keywords.well_formed
    (Z.of_nat (length (findall_words3 (lower content))))
    (DocumentManager._extract_keywords content)
  /\ Forall (fun e => SearchIndex.document_id e = document_id
                      /\ 0 < SearchIndex.frequency e
                      /\ SearchIndex.frequency e
                         = Z.of_nat (length (SearchIndex.positions e)))
            (DocumentManager.search_entries document_id content).
Proof.
  assert (Hwf : Keywords.well_formed
                  (Z.of_nat (length (findall_words3 (lower content))))
                  (DocumentManager._extract_keywords content)).
  { unfold DocumentManager._extract_keywords.
    apply (collect_well_formed (findall_words3 (lower content)) 0 []);
      [lia|]. split; constructor. }
  split; [exact Hwf|].
  unfold DocumentManager.search_entries.
  destruct Hwf as [_ Hall].
  induction Hall as [|kp kws (_ & _ & Hps & _) Hall IH]; cbn [map];
    constructor; [|exact IH].
  unfold SearchIndex.calculate_relevance_score.
  destruct (_ =? 0); cbn [fst SearchIndex.document_id SearchIndex.frequency
                           SearchIndex.positions];
    (repeat split; [destruct (snd kp); [contradiction|cbn; lia]]).
Qed.
(** ** Debouncing *)

(** X21. An isolated event is dispatched exactly once, one debounce delay
    after it arrived, and not before: up to any horizon earlier than that
    nothing has been dispatched. *)
Theorem isolated_event_is_dispatched_once (d t horizon : Z)
  (e : EventHandler.FileEvent) :
  0 < d -> 0 <= t ->
  EventHandler.dispatched (EventHandler.run d [(t, [e])] horizon)
  = if t + d <=? horizon then [(t + d, e)] else [].
Proof.
  intros Hd Ht. unfold EventHandler.run. cbn [fold_left].
  rewrite (first_arrival d t e Ht).
  unfold EventHandler.advance_to. cbn [EventHandler.tasks length].
  destruct (Z.leb_spec (t + d) horizon) as [Hh|Hh].
  - rewrite (advance_fire d _ horizon _ 1 (t + d))
      by (unfold EventHandler.next_timer;
          cbn [EventHandler.tasks fold_left EventHandler.state
               EventHandler.tid];
          rewrite (proj2 (Z.leb_le _ _) Hh); reflexivity).
    loop_cbv. replace (Z.max t (t + d)) with (t + d) by lia. reflexivity.
  - rewrite advance_idle
      by (unfold EventHandler.next_timer;
          cbn [EventHandler.tasks fold_left EventHandler.state
               EventHandler.tid];
          rewrite (proj2 (Z.leb_gt _ _) Hh); reflexivity).
    reflexivity.
Qed.

Lemma isolated_event_is_dispatched_once_witness :
  EventHandler.dispatched
    (EventHandler.run 500
       [(100, [EventHandler.mkEvent "modified" "/tmp/c.md" None 100 false])]
       5000)
  = if 100 + 500 <=? 5000
    then [(100 + 500,
           EventHandler.mkEvent "modified" "/tmp/c.md" None 100 false)]
    else [].
Proof.
  apply (isolated_event_is_dispatched_once 500 100 5000); lia.
Defined.

Ltac timed_cbv :=
  cbv -[Z.leb Z.ltb Z.max Z.add String.eqb];
  change (1 + 1) with 2; change (2 + 1) with 3;
  rewrite ?String.eqb_refl.

Section TimedDebounce.
Import TimedHandler.

Variable d : Z.
Variable callback_ms : EventHandler.FileEvent -> Z.

Lemma timed_idle (fuel : nat) (limit : Z) (s : t) :
  next_timer limit (tasks s) = None ->
  advance d callback_ms (S fuel) limit s
  = mk (Z.max (now s) limit) (_pending_events s) (_debounce_tasks s)
       (tasks s) (ready s) (next_tid s) (dispatched s).
Proof. intros H. simpl. rewrite H. reflexivity. Qed.

Lemma timed_fire (fuel : nat) (limit : Z) (s : t) (i w : Z) :
  next_timer limit (tasks s) = Some (i, w) ->
  advance d callback_ms (S fuel) limit s
  = advance d callback_ms fuel limit
      (run_ready d callback_ms
         (mk (Z.max (now s) w) (_pending_events s) (_debounce_tasks s)
             (update_task wake i (tasks s))
             (ready s ++ [i]) (next_tid s) (dispatched s))).
Proof. intros H. simpl. rewrite H. reflexivity. Qed.

Lemma timed_first_arrival (t1 : Z) (e : EventHandler.FileEvent) :
  0 <= t1 ->
  arrive d callback_ms init (t1, [e])
  = mk t1 [(EventHandler.file_path e, e)] [(EventHandler.file_path e, 1)]
       [mkTask 1 (EventHandler.file_path e) (Sleeping (t1 + d)) false] [] 2
       [].
Proof.
  intros Ht. assert (E1 : Z.max 0 t1 = t1) by lia.
  unfold arrive. timed_cbv. rewrite E1. reflexivity.
Qed.

(** The sleep of the first task ends and its callback starts. *)
Lemma timed_callback_starts (fuel : nat) (limit t1 : Z) (p : string)
  (e1 : EventHandler.FileEvent) :
  0 < d -> t1 + d <= limit ->
  advance d callback_ms (S fuel) limit
    (mk t1 [(p, e1)] [(p, 1)] [mkTask 1 p (Sleeping (t1 + d)) false] [] 2 [])
  = advance d callback_ms fuel limit
      (mk (t1 + d) [] [(p, 1)]
          [mkTask 1 p (InCallback (t1 + d + callback_ms e1)) false] [] 2
          [(t1 + d, e1)]).
Proof.
  intros Hd Hl.
  rewrite (timed_fire _ limit _ 1 (t1 + d))
    by (unfold next_timer; cbn [tasks fold_left due state tid];
        rewrite (proj2 (Z.leb_le _ _) Hl); reflexivity).
  f_equal. timed_cbv.
  replace (Z.max t1 (t1 + d)) with (t1 + d) by lia. reflexivity.
Qed.

(** The callback of the first task returns and the task ends. *)
Lemma timed_callback_returns (fuel : nat) (limit t c : Z) (p : string)
  (out : list (Z * EventHandler.FileEvent)) :
  0 <= c -> t + c <= limit ->
  advance d callback_ms (S fuel) limit
    (mk t [] [(p, 1)] [mkTask 1 p (InCallback (t + c)) false] [] 2 out)
  = advance d callback_ms fuel limit
      (mk (t + c) [] [] [mkTask 1 p Done false] [] 2 out).
Proof.
  intros Hc Hl.
  rewrite (timed_fire _ limit _ 1 (t + c))
    by (unfold next_timer; cbn [tasks fold_left due state tid];
        rewrite (proj2 (Z.leb_le _ _) Hl); reflexivity).
  f_equal. timed_cbv.
  replace (Z.max t (t + c)) with (t + c) by lia. reflexivity.
Qed.

(** The second event arrives after the callback of the first returned. *)
Lemma timed_arrival_after_return (t1 t2 : Z) (p : string)
  (e1 e2 : EventHandler.FileEvent) :
  0 < d -> 0 <= callback_ms e1 -> t1 + d + callback_ms e1 < t2 ->
  EventHandler.file_path e2 = p ->
  arrive d callback_ms
    (mk t1 [(p, e1)] [(p, 1)] [mkTask 1 p (Sleeping (t1 + d)) false] [] 2 [])
    (t2, [e2])
  = mk t2 [(p, e2)] [(p, 2)]
       [mkTask 1 p Done false; mkTask 2 p (Sleeping (t2 + d)) false] [] 3
       [(t1 + d, e1)].
Proof.
  intros Hd Hc H2 <-.
  unfold arrive, advance_to. cbn [fst snd tasks length Nat.mul Nat.add].
  rewrite timed_callback_starts by lia.
  rewrite timed_callback_returns by lia.
  rewrite timed_idle by reflexivity.
  cbn [now _pending_events _debounce_tasks tasks ready next_tid dispatched
       fold_left].
  replace (Z.max (t1 + d + callback_ms e1) t2) with t2 by lia.
  unfold _handle_with_debouncing. cbn [_debounce_tasks dict_get].
  timed_cbv. reflexivity.
Qed.

(** The second event arrives while the callback of the first is awaited:
    the first task is cancelled, and its clean-up drops the second event
    and the registration of the second task. *)
Lemma timed_arrival_during_callback (t1 t2 : Z) (p : string)
  (e1 e2 : EventHandler.FileEvent) :
  0 < d -> t1 + d < t2 -> t2 < t1 + d + callback_ms e1 ->
  EventHandler.file_path e2 = p ->
  arrive d callback_ms
    (mk t1 [(p, e1)] [(p, 1)] [mkTask 1 p (Sleeping (t1 + d)) false] [] 2 [])
    (t2, [e2])
  = mk t2 [] []
       [mkTask 1 p Done false; mkTask 2 p (Sleeping (t2 + d)) false] [] 3
       [(t1 + d, e1)].
Proof.
  intros Hd H1 H2 <-.
  unfold arrive, advance_to. cbn [fst snd tasks length Nat.mul Nat.add].
  rewrite timed_callback_starts by lia.
  rewrite timed_idle
    by (unfold next_timer; cbn [tasks fold_left due state tid];
        replace (t1 + d + callback_ms e1 <=? t2) with false
          by (symmetry; apply Z.leb_gt; lia);
        reflexivity).
  cbn [now _pending_events _debounce_tasks tasks ready next_tid dispatched
       fold_left].
  replace (Z.max (t1 + d) t2) with t2 by lia.
  unfold _handle_with_debouncing.
  cbn [_debounce_tasks dict_get]. rewrite String.eqb_refl.
  timed_cbv. reflexivity.
Qed.

(** What the loop still dispatches once both events have arrived. *)
Lemma timed_second_task_runs (t2 horizon : Z) (p : string)
  (e2 : EventHandler.FileEvent)
  (out : list (Z * EventHandler.FileEvent)) :
  0 < d -> t2 + d <= horizon ->
  dispatched
    (advance_to d callback_ms horizon
       (mk t2 [(p, e2)] [(p, 2)]
           [mkTask 1 p Done false; mkTask 2 p (Sleeping (t2 + d)) false] []
           3 out))
  = out ++ [(t2 + d, e2)].
Proof.
  intros Hd Hh.
  unfold advance_to. cbn [tasks length Nat.mul Nat.add].
  rewrite (timed_fire _ horizon _ 2 (t2 + d))
    by (unfold next_timer; cbn [tasks fold_left due state tid];
        rewrite (proj2 (Z.leb_le _ _) Hh); reflexivity).
  assert (R : run_ready d callback_ms
                (mk (Z.max t2 (t2 + d)) [(p, e2)] [(p, 2)]
                    (update_task wake 2
                       [mkTask 1 p Done false;
                        mkTask 2 p (Sleeping (t2 + d)) false])
                    ([] ++ [2]) 3 out)
              = mk (t2 + d) [] [(p, 2)]
                   [mkTask 1 p Done false;
                    mkTask 2 p (InCallback (t2 + d + callback_ms e2)) false]
                   [] 3 (out ++ [(t2 + d, e2)])).
  { timed_cbv. replace (Z.max t2 (t2 + d)) with (t2 + d) by lia.
    reflexivity. }
  cbn [now _pending_events _debounce_tasks tasks ready next_tid dispatched].
  rewrite R.
  destruct (Z.leb_spec (t2 + d + callback_ms e2) horizon) as [Hc|Hc].
  - rewrite (timed_fire _ horizon _ 2 (t2 + d + callback_ms e2))
      by (unfold next_timer; cbn [tasks fold_left due state tid];
          rewrite (proj2 (Z.leb_le _ _) Hc); reflexivity).
    cbn [now _pending_events _debounce_tasks tasks ready next_tid
         dispatched].
    assert (R2 : run_ready d callback_ms
                   (mk (Z.max (t2 + d) (t2 + d + callback_ms e2)) []
                       [(p, 2)]
                       (update_task wake 2
                          [mkTask 1 p Done false;
                           mkTask 2 p
                             (InCallback (t2 + d + callback_ms e2)) false])
                       ([] ++ [2]) 3 (out ++ [(t2 + d, e2)]))
                 = mk (Z.max (t2 + d) (t2 + d + callback_ms e2)) [] []
                      [mkTask 1 p Done false; mkTask 2 p Done false] [] 3
                      (out ++ [(t2 + d, e2)])).
    { timed_cbv. reflexivity. }
    rewrite R2. rewrite timed_idle by reflexivity. reflexivity.
  - rewrite timed_idle
      by (unfold next_timer; cbn [tasks fold_left due state tid];
          rewrite (proj2 (Z.leb_gt _ _) Hc); reflexivity).
    reflexivity.
Qed.

(** The second task finds nothing to process. *)
Lemma timed_second_task_finds_nothing (t2 horizon : Z) (p : string)
  (out : list (Z * EventHandler.FileEvent)) :
  0 < d ->
  dispatched
    (advance_to d callback_ms horizon
       (mk t2 [] []
           [mkTask 1 p Done false; mkTask 2 p (Sleeping (t2 + d)) false] []
           3 out))
  = out.
Proof.
  intros Hd.
  unfold advance_to. cbn [tasks length Nat.mul Nat.add].
  destruct (Z.leb_spec (t2 + d) horizon) as [Hh|Hh].
  - rewrite (timed_fire _ horizon _ 2 (t2 + d))
      by (unfold next_timer; cbn [tasks fold_left due state tid];
          rewrite (proj2 (Z.leb_le _ _) Hh); reflexivity).
    assert (R : run_ready d callback_ms
                  (mk (Z.max t2 (t2 + d)) [] []
                      (update_task wake 2
                         [mkTask 1 p Done false;
                          mkTask 2 p (Sleeping (t2 + d)) false])
                      ([] ++ [2]) 3 out)
                = mk (Z.max t2 (t2 + d)) [] []
                     [mkTask 1 p Done false; mkTask 2 p Done false] [] 3
                     out).
    { timed_cbv. reflexivity. }
    cbn [now _pending_events _debounce_tasks tasks ready next_tid
         dispatched].
    rewrite R. rewrite timed_idle by reflexivity. reflexivity.
  - rewrite timed_idle
      by (unfold next_timer; cbn [tasks fold_left due state tid];
          rewrite (proj2 (Z.leb_gt _ _) Hh); reflexivity).
    reflexivity.
Qed.

End TimedDebounce.

(** X22. Two events on one path, the second more than a debounce delay
    after the first. If the second arrives after the callback of the first
    has returned, both are dispatched, each one delay after its own
    arrival. If it arrives while that callback is still awaited, the first
    task is cancelled in mid-callback, its clean-up drops the second event,
    and the second event is never dispatched. *)
Theorem spaced_events_depend_on_the_callback (d : Z)
  (callback_ms : EventHandler.FileEvent -> Z) (t1 t2 : Z)
  (p ty1 ty2 : string) (ts1 ts2 : Z) :
  0 < d -> 0 <= t1 ->
  0 <= callback_ms (EventHandler.mkEvent ty1 p None ts1 false) ->
  (t1 + d + callback_ms (EventHandler.mkEvent ty1 p None ts1 false) < t2 ->
   forall horizon,
     t2 + d <= horizon ->
     TimedHandler.dispatched
       (TimedHandler.run d callback_ms
          [(t1, [EventHandler.mkEvent ty1 p None ts1 false]);
           (t2, [EventHandler.mkEvent ty2 p None ts2 false])]
          horizon)
     = [(t1 + d, EventHandler.mkEvent ty1 p None ts1 false);
        (t2 + d, EventHandler.mkEvent ty2 p None ts2 false)])
  /\ (t1 + d < t2 ->
      t2 < t1 + d + callback_ms (EventHandler.mkEvent ty1 p None ts1 false) ->
      forall horizon,
        TimedHandler.dispatched
          (TimedHandler.run d callback_ms
             [(t1, [EventHandler.mkEvent ty1 p None ts1 false]);
              (t2, [EventHandler.mkEvent ty2 p None ts2 false])]
             horizon)
        = [(t1 + d, EventHandler.mkEvent ty1 p None ts1 false)]).
Proof.
  intros Hd H1 Hc. split.
  - intros H2 horizon Hh.
    unfold TimedHandler.run. cbn [fold_left].
    rewrite (timed_first_arrival d callback_ms t1 _ H1).
    cbn [EventHandler.file_path].
    rewrite (timed_arrival_after_return d callback_ms t1 t2 p
               (EventHandler.mkEvent ty1 p None ts1 false)
               (EventHandler.mkEvent ty2 p None ts2 false)
               Hd Hc H2 eq_refl).
    rewrite (timed_second_task_runs d callback_ms t2 horizon p _ _ Hd Hh).
    reflexivity.
  - intros H2 H3 horizon.
    unfold TimedHandler.run. cbn [fold_left].
    rewrite (timed_first_arrival d callback_ms t1 _ H1).
    cbn [EventHandler.file_path].
    rewrite (timed_arrival_during_callback d callback_ms t1 t2 p
               (EventHandler.mkEvent ty1 p None ts1 false)
               (EventHandler.mkEvent ty2 p None ts2 false)
               Hd H2 H3 eq_refl).
    apply (timed_second_task_finds_nothing d callback_ms t2 horizon p _ Hd).
Qed.

Lemma spaced_events_depend_on_the_callback_witness :
  TimedHandler.dispatched
    (TimedHandler.run 500 (fun _ => 300)
       [(0, [EventHandler.mkEvent "created" "/tmp/c.md" None 0 false]);
        (900, [EventHandler.mkEvent "modified" "/tmp/c.md" None 900 false])]
       5000)
  = [(0 + 500, EventHandler.mkEvent "created" "/tmp/c.md" None 0 false);
     (900 + 500, EventHandler.mkEvent "modified" "/tmp/c.md" None 900 false)]
  /\ TimedHandler.dispatched
       (TimedHandler.run 500 (fun _ => 300)
          [(0, [EventHandler.mkEvent "created" "/tmp/c.md" None 0 false]);
           (600, [EventHandler.mkEvent "modified" "/tmp/c.md" None 600
                    false])]
          5000)
     = [(0 + 500, EventHandler.mkEvent "created" "/tmp/c.md" None 0 false)].
Proof.
  split.
  - apply (spaced_events_depend_on_the_callback 500 (fun _ => 300) 0 900
             "/tmp/c.md" "created" "modified" 0 900); cbn; lia.
  - apply (spaced_events_depend_on_the_callback 500 (fun _ => 300) 0 600
             "/tmp/c.md" "created" "modified" 0 600); cbn; lia.
Defined.

Section DebounceTwoPaths.
Import EventHandler.

Variables (d t1 t2 : Z) (p1 p2 : string) (e1 e2 : FileEvent).
Hypothesis Hd : 0 < d.
Hypothesis H12 : t1 <= t2.
Hypothesis H2 : t2 < t1 + d.
Hypothesis Hne : p1 <> p2.

Lemma eqb_12 : String.eqb p1 p2 = false.
Proof. apply String.eqb_neq. exact Hne. Qed.

Lemma eqb_21 : String.eqb p2 p1 = false.
Proof. apply String.eqb_neq. intros E. apply Hne. symmetry. exact E. Qed.

Ltac paths := rewrite ?eqb_12, ?eqb_21, ?String.eqb_refl.

Lemma other_path_arrival :
  file_path e2 = p2 ->
  arrive d
    (mk t1 [(p1, e1)] [(p1, 1)] [mkTask 1 p1 (Sleeping (t1 + d)) false] []
        2 [])
    (t2, [e2])
  = mk t2 [(p1, e1); (p2, e2)] [(p1, 1); (p2, 2)]
       [mkTask 1 p1 (Sleeping (t1 + d)) false;
        mkTask 2 p2 (Sleeping (t2 + d)) false] [] 3 [].
Proof.
  intros Hp.
  assert (E3 : (t1 + d <=? t2) = false) by (apply Z.leb_gt; lia).
  unfold arrive, advance_to. cbn [fst snd tasks length].
  rewrite advance_idle
    by (unfold next_timer; cbn [tasks fold_left state]; rewrite E3;
        reflexivity).
  cbn [now _pending_events _debounce_tasks tasks ready next_tid dispatched
       fold_left].
  replace (Z.max t1 t2) with t2 by lia.
  unfold _handle_with_debouncing. rewrite Hp.
  cbn [_debounce_tasks dict_get]. paths.
  cbn [now _pending_events _debounce_tasks tasks ready next_tid dispatched
       dict_set app]. paths.
  loop_cbv. reflexivity.
Qed.

Lemma two_timers_fire (horizon : Z) :
  t2 + d <= horizon ->
  dispatched
    (advance_to d horizon
       (mk t2 [(p1, e1); (p2, e2)] [(p1, 1); (p2, 2)]
           [mkTask 1 p1 (Sleeping (t1 + d)) false;
            mkTask 2 p2 (Sleeping (t2 + d)) false] [] 3 []))
  = [(t1 + d, e1); (t2 + d, e2)].
Proof.
  intros Hh.
  assert (E1 : (t1 + d <=? horizon) = true) by (apply Z.leb_le; lia).
  assert (E2 : (t2 + d <=? horizon) = true) by (apply Z.leb_le; lia).
  assert (E3 : (t2 + d <? t1 + d) = false) by (apply Z.ltb_ge; lia).
  unfold advance_to. cbn [tasks length].
  rewrite (advance_fire d _ horizon _ 1 (t1 + d))
    by (unfold next_timer; cbn [tasks fold_left state tid];
        rewrite E1, E2, E3; reflexivity).
  cbn [now _pending_events _debounce_tasks tasks ready next_tid dispatched].
  assert (R1 : run_ready d
                 (mk (Z.max t2 (t1 + d)) [(p1, e1); (p2, e2)]
                     [(p1, 1); (p2, 2)]
                     (update_task
                        (fun k => mkTask (tid k) (file_key k) Woken
                                    (must_cancel k))
                        1 [mkTask 1 p1 (Sleeping (t1 + d)) false;
                           mkTask 2 p2 (Sleeping (t2 + d)) false])
                     ([] ++ [1]) 3 [])
               = mk (t1 + d) [(p2, e2)] [(p2, 2)]
                    [mkTask 1 p1 Done false;
                     mkTask 2 p2 (Sleeping (t2 + d)) false] [] 3
                    [(t1 + d, e1)]).
  { loop_cbv. replace (Z.max t2 (t1 + d)) with (t1 + d) by lia.
    reflexivity. }
  rewrite R1.
  rewrite (advance_fire d _ horizon _ 2 (t2 + d))
    by (unfold next_timer; cbn [tasks fold_left state tid];
        rewrite E2; reflexivity).
  cbn [now _pending_events _debounce_tasks tasks ready next_tid dispatched].
  assert (R2 : run_ready d
                 (mk (Z.max (t1 + d) (t2 + d)) [(p2, e2)] [(p2, 2)]
                     (update_task
                        (fun k => mkTask (tid k) (file_key k) Woken
                                    (must_cancel k))
                        2 [mkTask 1 p1 Done false;
                           mkTask 2 p2 (Sleeping (t2 + d)) false])
                     ([] ++ [2]) 3 [(t1 + d, e1)])
               = mk (t2 + d) [] []
                    [mkTask 1 p1 Done false; mkTask 2 p2 Done false] [] 3
                    [(t1 + d, e1); (t2 + d, e2)]).
  { loop_cbv. replace (Z.max (t1 + d) (t2 + d)) with (t2 + d) by lia.
    reflexivity. }
  rewrite R2.
  rewrite advance_idle by reflexivity. reflexivity.
Qed.

End DebounceTwoPaths.

(** X23. Debouncing is per path: two events on different paths, the second
    arriving while the first is still waiting, are both dispatched, each
    one debounce delay after its own arrival. *)
Theorem events_on_different_paths_are_both_dispatched
  (d t1 t2 horizon : Z) (p1 p2 ty1 ty2 : string) (ts1 ts2 : Z) :
  0 < d -> 0 <= t1 -> t1 <= t2 -> t2 < t1 + d -> t2 + d <= horizon ->
  p1 <> p2 ->
  EventHandler.dispatched
    (EventHandler.run d
       [(t1, [EventHandler.mkEvent ty1 p1 None ts1 false]);
        (t2, [EventHandler.mkEvent ty2 p2 None ts2 false])]
       horizon)
  = [(t1 + d, EventHandler.mkEvent ty1 p1 None ts1 false);
     (t2 + d, EventHandler.mkEvent ty2 p2 None ts2 false)].
Proof.
  intros Hd H1 H12 H2 Hh Hne.
  unfold EventHandler.run. cbn [fold_left].
  rewrite (first_arrival d t1 _ H1). cbn [EventHandler.file_path].
  rewrite (other_path_arrival d t1 t2 p1 p2
             (EventHandler.mkEvent ty1 p1 None ts1 false)
             (EventHandler.mkEvent ty2 p2 None ts2 false)
             H12 H2 Hne eq_refl).
  apply two_timers_fire; assumption.
Qed.

Lemma events_on_different_paths_are_both_dispatched_witness :
  EventHandler.dispatched
    (EventHandler.run 500
       [(0, [EventHandler.mkEvent "created" "/tmp/c.md" None 0 false]);
        (100, [EventHandler.mkEvent "modified" "/tmp/d.md" None 100 false])]
       5000)
  = [(0 + 500, EventHandler.mkEvent "created" "/tmp/c.md" None 0 false);
     (100 + 500, EventHandler.mkEvent "modified" "/tmp/d.md" None 100 false)].
Proof.
  apply (events_on_different_paths_are_both_dispatched 500 0 100 5000
           "/tmp/c.md" "/tmp/d.md" "created" "modified" 0 100);
    try lia.
  discriminate.
Defined.
Section WatcherHandlers.
Import Tool EventHandler WatcherIndexing.

Variable index_tool :
  option (IndexDocumentTool.args -> M World.t ToolResult).
Variable has_database_manager : bool.

(** The world after the index tool, if there is one, has run. *)
Local Notation "'after_tool' path force w" :=
  (match index_tool with
   | Some tool => snd (tool (IndexDocumentTool.mkArgs path force) w)
   | None => w
   end) (at level 10, path at level 9, force at level 9, w at level 9).

Lemma index_document_reports_failure path force w :
  _index_document index_tool path force w
  = (Ok false, after_tool path force w).
Proof.
  unfold _index_document, try_except. destruct index_tool as [tool|];
    [|reflexivity].
  unfold bind. destruct (tool _ w) as [[r|e] w']; reflexivity.
Qed.

Lemma created_is_skipped e w :
  _handle_file_created index_tool e w
  = (Ok (Some "skipped"), after_tool (file_path e) false w).
Proof.
  unfold _handle_file_created, try_except.
  rewrite (bind_eq_ok _ _ _ _ _ (index_document_reports_failure _ _ _)).
  reflexivity.
Qed.

Lemma modified_is_skipped e w :
  exists force,
    _handle_file_modified index_tool has_database_manager e w
    = (Ok (Some "skipped"), after_tool (file_path e) force w).
Proof.
  unfold _handle_file_modified, try_except.
  destruct has_database_manager.
  - rewrite (bind_eq_ok _ _ _ _ _ (lift_get_by_path _ _)).
    destruct (option_map _ _).
    + exists true.
      rewrite (bind_eq_ok _ _ _ _ _ (index_document_reports_failure _ _ _)).
      reflexivity.
    + exists false.
      rewrite (bind_eq_ok _ _ _ _ _ (index_document_reports_failure _ _ _)).
      reflexivity.
  - exists false.
    rewrite (bind_eq_ok _ _ _ _ _ (index_document_reports_failure _ _ _)).
    reflexivity.
Qed.

Lemma moved_is_skipped_or_dropped e w :
  _handle_file_moved index_tool has_database_manager e w
  = (Ok (Some "skipped"), after_tool (file_path e) false w)
  \/ _handle_file_moved index_tool has_database_manager e w = (Ok None, w).
Proof.
  unfold _handle_file_moved, try_except.
  destruct (if has_database_manager then old_path e else None) as [[|c old]|].
  - left.
    rewrite (bind_eq_ok _ _ _ _ _ (index_document_reports_failure _ _ _)).
    reflexivity.
  - rewrite (bind_eq_ok _ _ _ _ _ (lift_get_by_path _ _)).
    destruct (option_map _ _).
    + right. reflexivity.
    + left.
      rewrite (bind_eq_ok _ _ _ _ _ (index_document_reports_failure _ _ _)).
      reflexivity.
  - left.
    rewrite (bind_eq_ok _ _ _ _ _ (index_document_reports_failure _ _ _)).
    reflexivity.
Qed.

Lemma deleted_is_skipped_or_dropped call_doc_queries e w :
  FileWatcher._handle_file_deleted has_database_manager call_doc_queries e w
  = (Ok (Some "skipped"), w)
  \/ FileWatcher._handle_file_deleted has_database_manager call_doc_queries
       e w = (Ok None, w).
Proof.
  unfold FileWatcher._handle_file_deleted, try_except.
  destruct has_database_manager; [right|left]; reflexivity.
Qed.

End WatcherHandlers.

(** ** The watcher's handlers *)

(** X24. The watcher's action counters never move: whatever the event, the
    index tool and the store, handling a file event leaves [files_indexed],
    [files_updated], [files_deleted], [files_moved] and [indexing_errors]
    as they were; only [total_events_processed] can change, by one. *)
Theorem watcher_action_counters_never_move
  (index_tool : option (IndexDocumentTool.args -> M World.t Tool.ToolResult))
  (has_database_manager : bool)
  (call_doc_queries : string -> string -> M World.t bool)
  (e : EventHandler.FileEvent) (w : FileWatcher.t) :
  let w' :=
    WatcherIndexing._handle_file_event index_tool has_database_manager
      call_doc_queries e w in
  FileWatcher.files_indexed (FileWatcher.watcher_stats w')
  = FileWatcher.files_indexed (FileWatcher.watcher_stats w)
  /\ FileWatcher.files_updated (FileWatcher.watcher_stats w')
     = FileWatcher.files_updated (FileWatcher.watcher_stats w)
  /\ FileWatcher.files_deleted (FileWatcher.watcher_stats w')
     = FileWatcher.files_deleted (FileWatcher.watcher_stats w)
  /\ FileWatcher.files_moved (FileWatcher.watcher_stats w')
     = FileWatcher.files_moved (FileWatcher.watcher_stats w)
  /\ FileWatcher.indexing_errors (FileWatcher.watcher_stats w')
     = FileWatcher.indexing_errors (FileWatcher.watcher_stats w)
  /\ (FileWatcher.total_events_processed (FileWatcher.watcher_stats w')
      = FileWatcher.total_events_processed (FileWatcher.watcher_stats w)
      \/ FileWatcher.total_events_processed (FileWatcher.watcher_stats w')
         = FileWatcher.total_events_processed (FileWatcher.watcher_stats w)
           + 1).
Proof.
  intros w'. subst w'.
  unfold WatcherIndexing._handle_file_event, FileWatcher._handle_file_event.
  destruct (String.eqb (EventHandler.event_type e) "created").
  { rewrite created_is_skipped. cbn. tauto. }
  destruct (String.eqb (EventHandler.event_type e) "modified").
  { destruct (modified_is_skipped index_tool has_database_manager e
                (FileWatcher.world w)) as [force ->]. cbn. tauto. }
  destruct (String.eqb (EventHandler.event_type e) "deleted").
  { destruct (deleted_is_skipped_or_dropped has_database_manager
                call_doc_queries e (FileWatcher.world w)) as [-> | ->];
      cbn; tauto. }
  destruct (String.eqb (EventHandler.event_type e) "moved").
  { destruct (moved_is_skipped_or_dropped index_tool has_database_manager e
                (FileWatcher.world w)) as [-> | ->];
      cbn; tauto. }
  tauto.
Qed.

(** X25. A created file is indexed but never counted: the handler of a
    'created' event runs the index tool once, on the event's path, without
    [force_reindex]; the store is what the tool left; and whatever the tool
    returned, the event is booked as processed and not as indexed. *)
Theorem created_event_runs_the_tool_and_counts_nothing
  (tool : IndexDocumentTool.args -> M World.t Tool.ToolResult)
  (has_database_manager : bool)
  (call_doc_queries : string -> string -> M World.t bool)
  (e : EventHandler.FileEvent) (w : FileWatcher.t) :
  EventHandler.event_type e = "created" ->
  WatcherIndexing._handle_file_event (Some tool) has_database_manager
    call_doc_queries e w
  = FileWatcher.mk
      (snd (tool (IndexDocumentTool.mkArgs (EventHandler.file_path e) false)
              (FileWatcher.world w)))
      (FileWatcher.mkStats
         (FileWatcher.files_indexed (FileWatcher.watcher_stats w))
         (FileWatcher.files_updated (FileWatcher.watcher_stats w))
         (FileWatcher.files_deleted (FileWatcher.watcher_stats w))
         (FileWatcher.files_moved (FileWatcher.watcher_stats w))
         (FileWatcher.indexing_errors (FileWatcher.watcher_stats w))
         (FileWatcher.total_events_processed (FileWatcher.watcher_stats w)
          + 1)).
Proof.
  intros Hty.
  unfold WatcherIndexing._handle_file_event, FileWatcher._handle_file_event.
  rewrite Hty. cbn [String.eqb Ascii.eqb Bool.eqb andb].
  rewrite created_is_skipped. reflexivity.
Qed.

(** X26. A move of an indexed file is dropped: with a database manager in
    place, when the file at the event's old path is in the store, the
    handler of a 'moved' event changes neither the store nor any counter,
    and no tool runs; the document stays under its old path. *)
Theorem moved_event_of_indexed_file_changes_nothing
  (index_tool : option (IndexDocumentTool.args -> M World.t Tool.ToolResult))
  (call_doc_queries : string -> string -> M World.t bool)
  (e : EventHandler.FileEvent) (w : FileWatcher.t) (old : string)
  (row : Document.t) :
  EventHandler.event_type e = "moved" ->
  EventHandler.old_path e = Some old -> old <> "" ->
  List.find (fun d => String.eqb (Document.file_path d) old)
            (Db.documents (World.db (FileWatcher.world w))) = Some row ->
  WatcherIndexing._handle_file_event index_tool true call_doc_queries e w
  = w.
Proof.
  intros Hty Hold Hne Hfind.
  unfold WatcherIndexing._handle_file_event, FileWatcher._handle_file_event.
  rewrite Hty. cbn [String.eqb Ascii.eqb Bool.eqb andb].
  unfold WatcherIndexing._handle_file_moved, try_except. rewrite Hold.
  destruct old as [|c old]; [contradiction|].
  rewrite (bind_eq_ok _ _ _ _ _ (lift_get_by_path _ _)).
  rewrite Hfind. cbn [option_map].
  destruct w as [world stats]. reflexivity.
Qed.

Lemma created_event_runs_the_tool_and_counts_nothing_witness :
  WatcherIndexing._handle_file_event
    (Some (IndexDocumentTool._execute_tool DemoFiles.fs DemoFiles.parse_file
             DemoFiles.isoformat DemoFiles.absolute Demo.stamps 100))
    true (fun _ _ => ret true)
    (EventHandler.mkEvent "created" "/tmp/a.md" None 0 false)
    (FileWatcher.mk DemoFiles.fresh FileWatcher.stats0)
  = FileWatcher.mk
      (snd (IndexDocumentTool._execute_tool DemoFiles.fs DemoFiles.parse_file
              DemoFiles.isoformat DemoFiles.absolute Demo.stamps 100
              (IndexDocumentTool.mkArgs "/tmp/a.md" false)
              DemoFiles.fresh))
      (FileWatcher.mkStats 0 0 0 0 0 (0 + 1)).
Proof.
  apply (created_event_runs_the_tool_and_counts_nothing
           (IndexDocumentTool._execute_tool DemoFiles.fs DemoFiles.parse_file
              DemoFiles.isoformat DemoFiles.absolute Demo.stamps 100)
           true (fun _ _ => ret true)
           (EventHandler.mkEvent "created" "/tmp/a.md" None 0 false)
           (FileWatcher.mk DemoFiles.fresh FileWatcher.stats0)).
  reflexivity.
Defined.

Lemma moved_event_of_indexed_file_changes_nothing_witness :
  WatcherIndexing._handle_file_event
    (Some (IndexDocumentTool._execute_tool DemoFiles.fs DemoFiles.parse_file
             DemoFiles.isoformat DemoFiles.absolute Demo.stamps 100))
    true (fun _ _ => ret true)
    (EventHandler.mkEvent "moved" "/tmp/b.md" (Some "/tmp/a.md") 0 false)
    (FileWatcher.mk (World.mk Demo.store []) FileWatcher.stats0)
  = FileWatcher.mk (World.mk Demo.store []) FileWatcher.stats0.
Proof.
  eapply (moved_event_of_indexed_file_changes_nothing
            (Some (IndexDocumentTool._execute_tool DemoFiles.fs
                     DemoFiles.parse_file DemoFiles.isoformat
                     DemoFiles.absolute Demo.stamps 100))
            (fun _ _ => ret true)
            (EventHandler.mkEvent "moved" "/tmp/b.md" (Some "/tmp/a.md") 0
               false)
            (FileWatcher.mk (World.mk Demo.store []) FileWatcher.stats0)
            "/tmp/a.md").
  - reflexivity.
  - reflexivity.
  - discriminate.
  - vm_compute. reflexivity.
Defined.
Section BatchWindow.
Import EventHandler Batching.

Variable D : Z.

Lemma handle_many_asleep (es : list FileEvent) (s : t) (w : Z) :
  _batch_task s = Asleep w ->
  fold_left (fun s e => _handle_with_batching e s) es s
  = mk (now s) (collected es (_batch_events s)) (Asleep w) (dispatched s).
Proof.
  revert s. induction es as [|e es IH]; intros s Hs; cbn [fold_left].
  - destruct s; cbn in *. subst. reflexivity.
  - rewrite IH by (cbn; rewrite Hs; reflexivity).
    cbn. reflexivity.
Qed.

Lemma handle_many_first (e : FileEvent) (es : list FileEvent) (s : t) :
  _batch_task s = NoTask ->
  fold_left (fun s e => _handle_with_batching e s) (e :: es) s
  = mk (now s) (collected (e :: es) (_batch_events s)) Scheduled
       (dispatched s).
Proof.
  intros Hs. cbn [fold_left].
  assert (G : forall es s,
             _batch_task s = Scheduled ->
             fold_left (fun s e => _handle_with_batching e s) es s
             = mk (now s) (collected es (_batch_events s)) Scheduled
                  (dispatched s)).
  { clear. induction es as [|e es IH]; intros s Hs; cbn [fold_left].
    - destruct s; cbn in *. subst. reflexivity.
    - rewrite IH by (cbn; rewrite Hs; reflexivity). reflexivity. }
  rewrite G by (cbn; rewrite Hs; reflexivity). reflexivity.
Qed.

Lemma arrivals_within_window (rest : list (Z * list FileEvent)) (s : t)
  (w : Z) :
  _batch_task s = Asleep w -> now s < w ->
  Forall (fun b => fst b < w) rest ->
  exists n,
    n < w
    /\ fold_left (arrive D) rest s
       = mk n (collected (concat (map snd rest)) (_batch_events s))
            (Asleep w) (dispatched s).
Proof.
  revert s. induction rest as [|[t es] rest IH]; intros s Hs Hnow Hall;
    cbn [fold_left map concat snd].
  - exists (now s). split; [exact Hnow|].
    destruct s; cbn in *. subst. reflexivity.
  - apply Forall_cons in Hall. destruct Hall as [Ht Hall]. cbn [fst] in Ht.
    assert (Harr : arrive D s (t, es)
                   = mk (Z.max (now s) t) (collected es (_batch_events s))
                        (Asleep w) (dispatched s)).
    { unfold arrive, advance_to. cbn [fst snd]. rewrite Hs.
      replace (w <=? t) with false by (symmetry; apply Z.leb_gt; lia).
      rewrite (handle_many_asleep es _ w) by (cbn; exact Hs).
      unfold run_ready. reflexivity. }
    rewrite Harr.
    destruct (IH (mk (Z.max (now s) t) (collected es (_batch_events s))
                     (Asleep w) (dispatched s)))
      as (n & Hn & Hfold); [reflexivity|cbn; lia|exact Hall|].
    exists n. split; [exact Hn|]. rewrite Hfold. cbn.
    unfold collected. rewrite fold_left_app. reflexivity.
Qed.

End BatchWindow.

(** ** Batching *)

(** X27. One batch, one dispatch per path: the events that arrive from the
    first event of a batch until its delay is over are handed to the
    callback together, [batch_delay_ms] after the first of them; each path
    is dispatched once, with the last event seen for it, in the order in
    which the paths first occurred. *)
Theorem batch_is_dispatched_once_per_path (D t0 horizon : Z)
  (e0 : EventHandler.FileEvent) (es0 : list EventHandler.FileEvent)
  (rest : list (Z * list EventHandler.FileEvent)) :
  0 < D -> 0 <= t0 ->
  Forall (fun b => fst b < t0 + D) rest ->
  t0 + D <= horizon ->
  Batching.dispatched (Batching.run D ((t0, e0 :: es0) :: rest) horizon)
  = map (fun kv => (t0 + D, snd kv))
        (Batching.collected (e0 :: es0 ++ concat (map snd rest)) [])
  /\ NoDup (map fst
              (Batching.collected (e0 :: es0 ++ concat (map snd rest)) [])).
Proof.
  intros HD Ht0 Hall Hh. split.
  - unfold Batching.run. cbn [fold_left].
    assert (Hfirst : Batching.arrive D Batching.init (t0, e0 :: es0)
                     = Batching.mk t0 (Batching.collected (e0 :: es0) [])
                         (Batching.Asleep (t0 + D)) []).
    { unfold Batching.arrive, Batching.advance_to. cbn [fst snd].
      cbn [Batching.init Batching._batch_task Batching.now
           Batching._batch_events Batching.dispatched].
      rewrite handle_many_first by reflexivity.
      cbn [Batching.now Batching._batch_events Batching.dispatched].
      unfold Batching.run_ready.
      cbn [Batching._batch_task Batching.now Batching._batch_events
           Batching.dispatched].
      replace (Z.max 0 t0) with t0 by lia. reflexivity. }
    rewrite Hfirst.
    destruct (arrivals_within_window D rest
                (Batching.mk t0 (Batching.collected (e0 :: es0) [])
                   (Batching.Asleep (t0 + D)) []) (t0 + D))
      as (n & Hn & Hfold); [reflexivity|cbn; lia|exact Hall|].
    rewrite Hfold.
    unfold Batching.advance_to.
    cbn [Batching._batch_task Batching.now Batching._batch_events
         Batching.dispatched].
    replace (t0 + D <=? horizon) with true by (symmetry; apply Z.leb_le; lia).
    unfold Batching._process_batch.
    cbn [Batching._batch_task Batching.now Batching._batch_events
         Batching.dispatched app].
    replace (Z.max n (t0 + D)) with (t0 + D) by lia.
    unfold Batching.collected. rewrite <- fold_left_app. reflexivity.
  - unfold Batching.collected.
    generalize (e0 :: es0 ++ concat (map snd rest)) as es.
    assert (G : forall es d,
               NoDup (map fst d) ->
               NoDup (map fst
                        (fold_left
                           (fun d e => dict_set d (EventHandler.file_path e) e)
                           es d))).
    { induction es as [|e es IH]; intros d Hd; cbn [fold_left];
        [exact Hd|]. apply IH. apply dict_set_nodup. exact Hd. }
    intros es. apply G. constructor.
Qed.

Lemma batch_is_dispatched_once_per_path_witness :
  Batching.dispatched
    (Batching.run 1000
       ((0, [EventHandler.mkEvent "created" "/tmp/a.md" None 0 false])
        :: [(100, [EventHandler.mkEvent "modified" "/tmp/a.md" None 100
                     false]);
            (200, [EventHandler.mkEvent "created" "/tmp/b.md" None 200
                     false])])
       5000)
  = map (fun kv => (0 + 1000, snd kv))
        (Batching.collected
           (EventHandler.mkEvent "created" "/tmp/a.md" None 0 false
            :: [] ++ concat
                 (map snd
                    [(100, [EventHandler.mkEvent "modified" "/tmp/a.md" None
                              100 false]);
                     (200, [EventHandler.mkEvent "created" "/tmp/b.md" None
                              200 false])]))
           [])
  /\ NoDup
       (map fst
          (Batching.collected
             (EventHandler.mkEvent "created" "/tmp/a.md" None 0 false
              :: [] ++ concat
                   (map snd
                      [(100, [EventHandler.mkEvent "modified" "/tmp/a.md"
                                None 100 false]);
                       (200, [EventHandler.mkEvent "created" "/tmp/b.md" None
                                200 false])]))
             [])).
Proof.
  apply (batch_is_dispatched_once_per_path 1000 0 5000).
  - lia.
  - lia.
  - repeat constructor; cbn; lia.
  - lia.
Defined.
Section GetAfterIndex.
Import Inv Tool GetDocumentTool.

Lemma dict_get_app_l {V} (l1 l2 : dict V) (k : string) (v : V) :
  dict_get l1 k = Some v -> dict_get (l1 ++ l2) k = Some v.
Proof.
  induction l1 as [|[k' v'] l1 IH]; cbn [dict_get app]; [discriminate|].
  destruct (String.eqb k' k); [auto|exact IH].
Qed.

Variable _strip_markdown : string -> string.
Variable _get_file_statistics : Document.t -> Value.t.
Variable retrieval_time_ms : Q.

Lemma format_response_fields (self : t) (d : Document.t) (i : Z)
  (include_metadata : bool) (w : World.t) :
  Document.id d = Some i ->
  Document.content d <> "" ->
  exists data,
    _format_document_response _strip_markdown _get_file_statistics self d
      true "json" include_metadata 0 w
    = (Ok data, w)
    /\ dict_get data "document_id" = Some (VInt i)
    /\ dict_get data "file_path" = Some (VStr (Document.file_path d))
    /\ dict_get data "file_hash" = Some (VStr (Document.file_hash d))
    /\ dict_get data "file_size_bytes" = Some (VInt (Document.file_size d))
    /\ (len (Document.content d) <= max_content_size self ->
        dict_get data "content" = Some (VStr (Document.content d))
        /\ dict_get data "content_truncated" = Some (VBool false)).
Proof.
  intros Hid Hc.
  unfold _format_document_response.
  apply String.eqb_neq in Hc. rewrite Hc. cbn [negb].
  assert (Hfmt : len (Document.content d) <= max_content_size self ->
                 _format_content _strip_markdown self (Document.content d)
                   "json" 0
                 = mkFormatted (Document.content d)
                     (len (Document.content d)) false
                     (Some (len (Document.content d)))).
  { intros Hlen. unfold _format_content. rewrite Hc.
    cbn [Z.ltb Z.compare andb].
    replace (max_content_size self <? len (Document.content d)) with false
      by (symmetry; apply Z.ltb_ge; exact Hlen).
    reflexivity. }
  set (f := _format_content _strip_markdown self (Document.content d)
              "json" 0) in *.
  rewrite Hid. cbn [opt_int app].
  destruct include_metadata.
  - unfold try_except, bind, World.lift,
      MetadataQueries.get_document_metadata, ret.
    destruct w as [db trace]. cbn [World.db World.trace].
    eexists. split; [reflexivity|].
    repeat split; try reflexivity;
      rewrite (Hfmt H); reflexivity.
  - unfold bind, ret. eexists. split; [reflexivity|].
    repeat split; try reflexivity;
      rewrite (Hfmt H); reflexivity.
Qed.

End GetAfterIndex.

(** ** Indexing, then retrieving *)

(** X28. What the manager indexed, [getDocument] returns: after
    [DocumentManager.index_document] returned an id for a path,
    [getDocument] by that path, with content in the [json] format and no
    requested length, succeeds, leaves the store as it was and reports that
    id, the path, the SHA-256 digest and the UTF-8 size of the content;
    and when the content is within the tool's size limit it reports the
    content itself, not truncated. *)
Theorem indexed_document_is_retrievable
  (_strip_markdown : string -> string)
  (_get_file_statistics : Document.t -> Value.t) (retrieval_time_ms : Q)
  (self : GetDocumentTool.t) (include_metadata : bool)
  (p c : string) (md : dict string) (kw : bool)
  (now : DocumentManager.stamps) (s : Db.t) (i : Z)
  (trace : list World.effect) :
  fst (DocumentManager.index_document p c md kw now s) = Ok (Some i) ->
  let w :=
    World.mk (snd (DocumentManager.index_document p c md kw now s)) trace in
  exists result data,
    GetDocumentTool._execute_tool _strip_markdown _get_file_statistics
      retrieval_time_ms self
      (GetDocumentTool.mkArgs None (Some p) true "json" include_metadata 0) w
    = (Ok result, w)
    /\ Tool.success result = true
    /\ Tool.data result = Some data
    /\ dict_get data "document_id" = Some (VInt i)
    /\ dict_get data "file_path" = Some (VStr p)
    /\ dict_get data "file_hash" = Some (VStr (Sha256.sha256_hexdigest c))
    /\ dict_get data "file_size_bytes"
       = Some (VInt (Z.of_nat (length (Sha256.encode_utf8 c))))
    /\ (len c <= GetDocumentTool.max_content_size self ->
        dict_get data "content" = Some (VStr c)
        /\ dict_get data "content_truncated" = Some (VBool false)).
Proof.
  intros Hres w.
  assert (Hp : p <> "").
  { intros ->. unfold DocumentManager.index_document, try_except in Hres.
    cbn in Hres. discriminate. }
  assert (Hc : c <> "").
  { intros ->. unfold DocumentManager.index_document, try_except in Hres.
    rewrite orb_true_r in Hres. cbn in Hres. discriminate. }
  destruct (index_then_get_by_path_aux p c md kw now s i Hres)
    as (d & Hget & Hid & Hpath & Hcontent & Hhash & Hsize & _).
  destruct (format_response_fields _strip_markdown _get_file_statistics self
              d i include_metadata w Hid)
    as (data & Hfmt & F1 & F2 & F3 & F4 & F5).
  { rewrite Hcontent. exact Hc. }
  unfold GetDocumentTool._execute_tool, try_except,
    GetDocumentTool.selected_id, GetDocumentTool.selected_path.
  cbn [GetDocumentTool.document_id GetDocumentTool.file_path
       GetDocumentTool.include_content GetDocumentTool.format
       GetDocumentTool.include_metadata GetDocumentTool.max_content_length].
  apply String.eqb_neq in Hp. rewrite Hp.
  assert (Hlift : World.lift (DocumentQueries.get_document_by_path p) w
                  = (Ok (Some d), w)).
  { unfold w. apply lift_eq. cbn [World.db]. exact Hget. }
  rewrite (bind_eq_ok _ _ _ _ _ Hlift).
  rewrite (bind_eq_ok _ _ _ _ _ Hfmt).
  do 2 eexists. split; [reflexivity|].
  split; [reflexivity|]. split; [reflexivity|].
  rewrite Hpath in F2. rewrite Hhash in F3. rewrite Hsize in F4.
  rewrite Hcontent in F5.
  split; [apply dict_get_app_l; exact F1|].
  split; [apply dict_get_app_l; exact F2|].
  split; [apply dict_get_app_l; exact F3|].
  split; [apply dict_get_app_l; exact F4|].
  intros Hlen. destruct (F5 Hlen) as [G1 G2].
  split; apply dict_get_app_l; assumption.
Qed.

Lemma indexed_document_is_retrievable_witness :
  let w :=
    World.mk
      (snd (DocumentManager.index_document "/tmp/a.md" "delta epsilon" []
              true Demo.stamps Demo.store)) [] in
  exists result data,
    GetDocumentTool._execute_tool (fun s => s) (fun _ => VNone) 5
      GetDocumentTool.init
      (GetDocumentTool.mkArgs None (Some "/tmp/a.md") true "json" true 0) w
    = (Ok result, w)
    /\ Tool.success result = true
    /\ Tool.data result = Some data
    /\ dict_get data "document_id" = Some (VInt 1)
    /\ dict_get data "file_path" = Some (VStr "/tmp/a.md")
    /\ dict_get data "file_hash"
       = Some (VStr (Sha256.sha256_hexdigest "delta epsilon"))
    /\ dict_get data "file_size_bytes"
       = Some (VInt (Z.of_nat (length (Sha256.encode_utf8 "delta epsilon"))))
    /\ (len "delta epsilon"
        <= GetDocumentTool.max_content_size GetDocumentTool.init ->
        dict_get data "content" = Some (VStr "delta epsilon")
        /\ dict_get data "content_truncated" = Some (VBool false)).
Proof.
  apply (indexed_document_is_retrievable (fun s => s) (fun _ => VNone) 5
           GetDocumentTool.init true "/tmp/a.md" "delta epsilon" [] true
           Demo.stamps Demo.store 1 []).
  vm_compute. reflexivity.
Defined.

Section DeleteMissing.
Import Inv.

Lemma filter_all {A} (f : A -> bool) (l : list A) :
  Forall (fun a => f a = true) l -> List.filter f l = l.
Proof.
  induction 1 as [|a l Ha Hl IH]; cbn [List.filter]; [reflexivity|].
  rewrite Ha, IH. reflexivity.
Qed.

Lemma other_id_of_existing (s : Db.t) (i j : Z) :
  Db.document_exists s i = false -> Db.document_exists s j = true ->
  negb (j =? i) = true.
Proof.
  intros Hi Hj. apply negb_true_iff, Z.eqb_neq. intros ->. congruence.
Qed.

End DeleteMissing.

(** ** Deleting *)

(** X29. Deleting a document that is not there changes nothing: in a store
    without dangling references, [DocumentManager.delete_document] on an
    id that no document has returns [False] and leaves every table,
    the cache included, exactly as it was. *)
Theorem deleting_a_missing_document_changes_nothing (i now : Z) (s : Db.t) :
  Inv.references_ok s ->
  Db.document_exists s i = false ->
  DocumentManager.delete_document i now s = (Ok false, s).
Proof.
  intros [Hm Hi] Hex.
  assert (E1 : SearchQueries.delete_search_index_for_document i s
               = (Ok 0, s)).
  { unfold SearchQueries.delete_search_index_for_document, Db.transaction,
      Db.delete_search_index_rows.
    rewrite (filter_all (fun e => negb (SearchIndex.document_id e =? i)))
      by (eapply Forall_impl; [exact Hi|]; cbn; intros e He;
          exact (other_id_of_existing s i _ Hex He)).
    assert (G : List.filter (fun e => SearchIndex.document_id e =? i)
                  (Db.search_index s) = []).
    { induction Hi as [|e l He Hl IH]; cbn [List.filter]; [reflexivity|].
      pose proof (other_id_of_existing s i _ Hex He) as Hn.
      apply negb_true_iff in Hn. rewrite Hn. exact IH. }
    rewrite G. destruct s; reflexivity. }
  assert (E2 : MetadataQueries.delete_document_metadata i s = (Ok 0, s)).
  { unfold MetadataQueries.delete_document_metadata, Db.transaction,
      Db.delete_metadata_rows.
    rewrite (filter_all
               (fun m => negb (DocumentMetadata.document_id m =? i)))
      by (eapply Forall_impl; [exact Hm|]; cbn; intros m Hm';
          exact (other_id_of_existing s i _ Hex Hm')).
    assert (G : List.filter (fun m => DocumentMetadata.document_id m =? i)
                  (Db.document_metadata s) = []).
    { induction Hm as [|m l Hm' Hl IH]; cbn [List.filter]; [reflexivity|].
      pose proof (other_id_of_existing s i _ Hex Hm') as Hn.
      apply negb_true_iff in Hn. rewrite Hn. exact IH. }
    rewrite G. destruct s; reflexivity. }
  assert (E3 : DocumentQueries.delete_document i s = (Ok false, s)).
  { unfold DocumentQueries.delete_document, Db.transaction, bind,
      Db.delete_document_row. rewrite Hex. reflexivity. }
  unfold DocumentManager.delete_document, try_except.
  rewrite (bind_eq_ok _ _ _ _ _ E1).
  rewrite (bind_eq_ok _ _ _ _ _ E2).
  rewrite (bind_eq_ok _ _ _ _ _ E3).
  reflexivity.
Qed.

Lemma deleting_a_missing_document_changes_nothing_witness :
  DocumentManager.delete_document 7 200 Demo.store = (Ok false, Demo.store).
Proof.
  apply (deleting_a_missing_document_changes_nothing 7 200 Demo.store).
  - assert (H0 : Inv.references_ok Db.empty) by (split; constructor).
    exact (refs_index_document _ _ _ _ _ Db.empty H0).
  - vm_compute. reflexivity.
Defined.
Section CombineMetadata.
Import IndexDocumentTool.

Lemma merge_parser_metadata_get (items metadata : dict string) (k : string) :
  (forall key, "parsed_" +:+ key <> k /\ "parser_" +:+ key <> k) ->
  dict_get (merge_parser_metadata items metadata) k = dict_get metadata k.
Proof.
  intros Hk. revert metadata.
  induction items as [|[key value] items IH]; intros metadata;
    cbn [merge_parser_metadata]; [reflexivity|].
  rewrite IH. apply dict_get_set_ne.
  destruct (Hk key) as [H1 H2]. destruct (dict_has metadata key); assumption.
Qed.

Lemma combine_metadata_get isoformat absolute parse_result path st
  (k : string) :
  (forall key, "parsed_" +:+ key <> k /\ "parser_" +:+ key <> k) ->
  "extracted_keywords" <> k -> "keyword_count" <> k ->
  "parsing_duration_ms" <> k -> "parser_type" <> k -> "content_hash" <> k ->
  dict_get (_combine_metadata isoformat absolute parse_result path st) k
  = dict_get
      [("file_name", Path.name path);
       ("file_extension", lower (Path.suffix path));
       ("file_size_bytes", Tool.str_of_Z (st_size st));
       ("file_created", isoformat (st_ctime st));
       ("file_modified", isoformat (st_mtime st));
       ("absolute_path", absolute path)] k.
Proof.
  intros Hk H1 H2 H3 H4 H5. unfold _combine_metadata.
  set (base := [("file_name", _); _; _; _; _; _]).
  set (m1 := merge_parser_metadata _ base).
  assert (E1 : dict_get m1 k = dict_get base k)
    by (apply merge_parser_metadata_get; exact Hk).
  set (m2 := match p_keywords parse_result with [] => m1 | _ :: _ => _ end).
  assert (E2 : dict_get m2 k = dict_get base k).
  { unfold m2. destruct (p_keywords parse_result); [exact E1|].
    rewrite !dict_get_set_ne by assumption. exact E1. }
  set (m3 := match p_parsing_stats parse_result with
             | [] => m2 | _ :: _ => _ end).
  assert (E3 : dict_get m3 k = dict_get base k).
  { unfold m3. destruct (p_parsing_stats parse_result); [exact E2|].
    rewrite !dict_get_set_ne by assumption. exact E2. }
  destruct (p_content parse_result) as [c|]; [|exact E3].
  destruct (String.eqb c ""); [exact E3|].
  rewrite dict_get_set_ne by assumption. exact E3.
Qed.

End CombineMetadata.

(** ** The metadata indexDocument stores *)

(** X30. File-system metadata cannot be overwritten: whatever keys the
    parser's metadata, keywords and statistics carry, the metadata
    [indexDocument] stores has the file's own name, extension, size,
    creation and modification times and absolute path under their six
    keys; and for readable content it has the SHA-256 digest of that
    content under [content_hash]. *)
Theorem combined_metadata_keeps_file_keys
  (isoformat : Z -> string) (absolute : string -> string)
  (parse_result : IndexDocumentTool.ParserResult) (path : string)
  (st : IndexDocumentTool.file_stat) :
  let m :=
    IndexDocumentTool._combine_metadata isoformat absolute parse_result path
      st in
  dict_get m "file_name" = Some (Path.name path)
  /\ dict_get m "file_extension" = Some (lower (Path.suffix path))
  /\ dict_get m "file_size_bytes"
     = Some (Tool.str_of_Z (IndexDocumentTool.st_size st))
  /\ dict_get m "file_created"
     = Some (isoformat (IndexDocumentTool.st_ctime st))
  /\ dict_get m "file_modified"
     = Some (isoformat (IndexDocumentTool.st_mtime st))
  /\ dict_get m "absolute_path" = Some (absolute path)
  /\ match IndexDocumentTool.p_content parse_result with
     | Some c =>
         if String.eqb c "" then True
         else dict_get m "content_hash" = Some (Sha256.sha256_hexdigest c)
     | None => True
     end.
Proof.
  intros m. subst m.
  repeat (split;
          [rewrite combine_metadata_get;
           [reflexivity
           |intros key; split; discriminate
           |discriminate..]|]).
  unfold IndexDocumentTool._combine_metadata.
  destruct (IndexDocumentTool.p_content parse_result) as [c|]; [|exact I].
  destruct (String.eqb c ""); [exact I|].
  apply dict_get_set_eq.
Qed.
